(** * DocSpot: the booking-availability check of the doctor controller

    Shallow embedding of [checkBookingAvailability]
    (Backend/controllers/doctorController.js, lines 109-154) together with the
    parts of its two collaborators that the handler relies on:

    - the calendar library [moment]: forgiving (non-strict) parsing of a
      string against a format or a list of formats, [clone], [add],
      [subtract], [isBefore], [isAfter] and [format];
    - the document store: [findOne] with an equality filter and [find] with
      equality, [$gte]/[$lte] on strings (byte-wise order) and [$ne].

    Times are counted in minutes; the format strings of the handler carry
    no seconds.  The handler is given twice.  [checkBookingAvailability today]
    is the handler on wall-clock times, counted from the midnight that starts
    day 0: this is how it runs on a day on which the clocks of the server's
    zone do not change.  [Zoned.checkBookingAvailability zone clock] is the
    handler with what its parses read: the clock, once for each parse, and
    the zone, which turns a wall-clock time into an instant and back.
    [plainDay_facts] shows that the two agree on a day without clock
    change. *)

From Stdlib Require Import ZArith List Bool Ascii String Lia.
Import ListNotations.

Open Scope string_scope.
Open Scope Z_scope.

(* ================================================================== *)
(** ** Characters and the token regexes of the parser                  *)
(* ================================================================== *)

Module Regex.

(** [\d] : an ASCII digit. *)
Definition is_digit (c : ascii) : bool :=
  let n := Z.of_N (N_of_ascii c) in (48 <=? n) && (n <=? 57).

(** [[ap]] under the [i] flag. *)
Definition is_ap (c : ascii) : bool :=
  (c =? "a")%char || (c =? "A")%char || (c =? "p")%char || (c =? "P")%char.

(** [m] under the [i] flag. *)
Definition is_m (c : ascii) : bool := (c =? "m")%char || (c =? "M")%char.

Definition is_dot (c : ascii) : bool := (c =? ".")%char.

(** A successful [string.match(re)] together with the slice that the
    parser keeps: the matched text and what follows it.  The text before
    the match is skipped. *)
Definition found : Type := (string * string)%type.

(** [/\d\d?/] : the first digit of the string and, when the next character
    is a digit too, that one as well. *)
Fixpoint match1to2 (s : string) : option found :=
  match s with
  | EmptyString => None
  | String c s' =>
      if is_digit c then
        match s' with
        | String d s'' =>
            if is_digit d
            then Some (String c (String d EmptyString), s'')
            else Some (String c EmptyString, s')
        | EmptyString => Some (String c EmptyString, EmptyString)
        end
      else match1to2 s'
  end.

(** [new RegExp(c)] for a literal character of the format. *)
Fixpoint matchLiteral (c : ascii) (s : string) : option found :=
  match s with
  | EmptyString => None
  | String x s' =>
      if (x =? c)%char then Some (String x EmptyString, s')
      else matchLiteral c s'
  end.

(** One optional character, greedy. *)
Definition optional (p : ascii -> bool) (s : string) : found :=
  match s with
  | String c s' => if p c then (String c EmptyString, s') else (EmptyString, s)
  | EmptyString => (EmptyString, s)
  end.

(** [/[ap]\.?m?\.?/i] : the meridiem of the default locale. *)
Fixpoint matchMeridiem (s : string) : option found :=
  match s with
  | EmptyString => None
  | String c s' =>
      if is_ap c then
        let '(d1, r1) := optional is_dot s' in
        let '(m, r2) := optional is_m r1 in
        let '(d2, r3) := optional is_dot r2 in
        Some (String c (d1 ++ m ++ d2), r3)
      else matchMeridiem s'
  end.

End Regex.

(* ================================================================== *)
(** ** Decimal digits                                                  *)
(* ================================================================== *)

Definition digitChar (d : Z) : ascii := ascii_of_N (Z.to_N (48 + d)).

Definition digitValue (c : ascii) : Z := Z.of_N (N_of_ascii c) - 48.

(** [toInt] on a run of digits. *)
Definition toInt (s : string) : Z :=
  fold_left (fun acc c => 10 * acc + digitValue c) (list_ascii_of_string s) 0.

(** [zeroFill(n, 2)] for the two-digit fields of a time. *)
Definition zeroFill2 (n : Z) : string :=
  String (digitChar (n / 10)) (String (digitChar (n mod 10)) EmptyString).

Definition strlen (s : string) : Z := Z.of_nat (String.length s).

(* ================================================================== *)
(** ** The calendar library: parsing                                   *)
(* ================================================================== *)

Module Moment.

(** The tokens that the format strings of the handler split into. *)
Inductive token : Type :=
| HH                (* hour 00-23 *)
| hh                (* hour 01-12 *)
| mm                (* minute *)
| A                 (* AM / PM *)
| Lit (c : ascii).  (* any other character stands for itself *)

(** ["HH:mm"] *)
Definition HH_mm : list token := [HH; Lit ":"; mm].

(** ["hh:mm A"] *)
Definition hh_mm_A : list token := [hh; Lit ":"; mm; Lit " "; A].

(** The parsing configuration, restricted to the fields that a time-only
    format can touch.  [_a_HOUR] and [_a_MINUTE] are the two slots of the
    date array [_a]; [input] is the part of the string not consumed yet. *)
Record config : Type := mkConfig {
  input : string;
  _a_HOUR : option Z;
  _a_MINUTE : option Z;
  _meridiem : option string;
  totalParsedInputLength : Z;
  empty : bool;
  unusedTokens : Z
}.

Definition getParseRegexForToken (t : token) : string -> option Regex.found :=
  match t with
  | HH | hh | mm => Regex.match1to2
  | A => Regex.matchMeridiem
  | Lit c => Regex.matchLiteral c
  end.

(** [formatTokenFunctions[token]] : known tokens, as opposed to literals. *)
Definition isKnownToken (t : token) : bool :=
  match t with Lit _ => false | _ => true end.

Definition addTimeToArrayFromToken (t : token) (parsedInput : string)
    (c : config) : config :=
  match t with
  | HH | hh =>
      mkConfig (input c) (Some (toInt parsedInput)) (_a_MINUTE c) (_meridiem c)
               (totalParsedInputLength c) (empty c) (unusedTokens c)
  | mm =>
      mkConfig (input c) (_a_HOUR c) (Some (toInt parsedInput)) (_meridiem c)
               (totalParsedInputLength c) (empty c) (unusedTokens c)
  | A =>
      mkConfig (input c) (_a_HOUR c) (_a_MINUTE c) (Some parsedInput)
               (totalParsedInputLength c) (empty c) (unusedTokens c)
  | Lit _ => c
  end.

(** One turn of the token loop of [configFromStringAndFormat]. *)
Definition parseToken (c : config) (t : token) : config :=
  match getParseRegexForToken t (input c) with
  | Some (parsedInput, rest) =>
      let c1 :=
        mkConfig rest (_a_HOUR c) (_a_MINUTE c) (_meridiem c)
                 (totalParsedInputLength c + strlen parsedInput)
                 (if isKnownToken t then false else empty c)
                 (unusedTokens c) in
      addTimeToArrayFromToken t parsedInput c1
  | None =>
      if isKnownToken t then
        mkConfig (input c) (_a_HOUR c) (_a_MINUTE c) (_meridiem c)
                 (totalParsedInputLength c) (empty c) (unusedTokens c + 1)
      else c
  end.

Definition isPM (meridiem : string) : bool :=
  match meridiem with
  | String c _ => ((c =? "p") || (c =? "P"))%char
  | EmptyString => false
  end.

Definition meridiemFixWrap (hour : option Z) (meridiem : option string)
    : option Z :=
  match meridiem with
  | None => hour
  | Some mer =>
      match hour with
      | None => None
      | Some h =>
          let h1 := if isPM mer && (h <? 12) then h + 12 else h in
          Some (if negb (isPM mer) && (h1 =? 12) then 0 else h1)
      end
  end.

(** What one format makes of a string: whether the result is a valid
    moment, the minutes after the midnight of the current day, and the
    penalty that ranks the formats of a list. *)
Record parsed : Type := mkParsed {
  isValid : bool;
  minutes : Z;
  score : Z
}.

Definition orZero (x : option Z) : Z :=
  match x with Some v => v | None => 0 end.

Definition isSome {T : Type} (x : option T) : bool :=
  match x with Some _ => true | None => false end.

(** [checkOverflow] on the hour and minute slots. *)
Definition overflow (h m : Z) : bool :=
  (h <? 0) || (24 <? h) || ((h =? 24) && negb (m =? 0))
  || (m <? 0) || (59 <? m).

Definition configFromStringAndFormat (s : string) (f : list token) : parsed :=
  let c := fold_left parseToken f
             (mkConfig s None None None 0 true 0) in
  let charsLeftOver := strlen s - totalParsedInputLength c in
  let parsedParts := isSome (_a_HOUR c) || isSome (_a_MINUTE c) in
  let hour := orZero (meridiemFixWrap (_a_HOUR c) (_meridiem c)) in
  let minute := orZero (_a_MINUTE c) in
  mkParsed
    (negb (overflow hour minute) && negb (empty c)
     && (negb (isSome (_meridiem c)) || parsedParts))
    (hour * 60 + minute)
    (charsLeftOver + unusedTokens c * 10).

(** The state of the loop of [configFromStringAndArray]. *)
Record best : Type := mkBest {
  bestMoment : option parsed;
  bestFormatIsValid : bool
}.

Definition tryFormat (s : string) (b : best) (f : list token) : best :=
  let tempConfig := configFromStringAndFormat s f in
  let validFormatFound := isValid tempConfig in
  let currentScore := score tempConfig in
  match bestMoment b with
  | None => mkBest (Some tempConfig) validFormatFound
  | Some cur =>
      if negb (bestFormatIsValid b) then
        if (currentScore <? score cur) || validFormatFound
        then mkBest (Some tempConfig) validFormatFound
        else b
      else
        if currentScore <? score cur
        then mkBest (Some tempConfig) true
        else b
  end.

Definition configFromStringAndArray (s : string) (fs : list (list token))
    : parsed :=
  match bestMoment (fold_left (tryFormat s) fs (mkBest None false)) with
  | Some p => p
  | None => mkParsed false 0 0
  end.

(* ---------------------------------------------------------------- *)
(** *** Moments                                                      *)

(** A moment is either invalid or a point of local time, in minutes. *)
Inductive t : Type :=
| Invalid
| At (d : Z).

Definition minutesPerDay : Z := 1440.

(** [configFromArray] fills the date from the clock: the fields of the
    current day, and the parsed hour and minute on top of its midnight
    (an hour of 24 rolls into the next day).  Here the result is kept as a
    wall-clock time of day [today], which is right on a day without clock
    change; [Zoned.create] has the reading of the clock and the zone. *)
Definition create (today : Z) (p : parsed) : t :=
  if isValid p then At (today * minutesPerDay + minutes p) else Invalid.

(** [moment(input, format)] *)
Definition moment (today : Z) (s : string) (f : list token) : t :=
  create today (configFromStringAndFormat s f).

(** [moment(input, [format, ...])] *)
Definition momentOf (today : Z) (s : string) (fs : list (list token)) : t :=
  create today (configFromStringAndArray s fs).

(** [m.clone().add(n, "minutes")] and [m.clone().subtract(n, "minutes")];
    an invalid moment stays invalid. *)
Definition add (m : t) (n : Z) : t :=
  match m with At d => At (d + n) | Invalid => Invalid end.

Definition subtract (m : t) (n : Z) : t :=
  match m with At d => At (d - n) | Invalid => Invalid end.

(** [a.isBefore(b)] and [a.isAfter(b)] are false as soon as one side is
    invalid. *)
Definition isBefore (a b : t) : bool :=
  match a, b with At x, At y => x <? y | _, _ => false end.

Definition isAfter (a b : t) : bool :=
  match a, b with At x, At y => y <? x | _, _ => false end.

(** The wall-clock fields of a point of time. *)
Definition hours (d : Z) : Z := (d mod minutesPerDay) / 60.
Definition minute (d : Z) : Z := (d mod minutesPerDay) mod 60.

Definition formatToken (d : Z) (tok : token) : string :=
  match tok with
  | HH => zeroFill2 (hours d)
  | hh => zeroFill2 (if hours d mod 12 =? 0 then 12 else hours d mod 12)
  | mm => zeroFill2 (minute d)
  | A => if 11 <? hours d then "PM" else "AM"
  | Lit c => String c EmptyString
  end.

(** [m.format(f)] *)
Definition format (m : t) (f : list token) : string :=
  match m with
  | Invalid => "Invalid date"
  | At d => String.concat EmptyString (map (formatToken d) f)
  end.

End Moment.

(* ================================================================== *)
(** ** The document store                                              *)
(* ================================================================== *)

Module Doctor.
(** Modelled from the spec: the schema models/doctorModel.js is not among
    the sources.  A doctor carries its working hours as two times of day,
    which the handler reads as texts; [userId] is the key of the lookup. *)
Record t : Type := mk {
  userId : string;
  fromTime : string;
  toTime : string
}.
End Doctor.

Module Appointment.
(** Modelled from the spec: the schema models/appointmentModel.js is not
    among the sources.  An appointment carries the doctor, the date as an
    opaque text, the time, and a status among "pending", "approved" and
    "rejected"; all four are texts to the query, which is what the handler
    compares them with. *)
Record t : Type := mk {
  doctorId : string;
  date : string;
  time : string;
  status : string
}.
End Appointment.

Module Store.

Record t : Type := mk {
  doctors : list Doctor.t;
  appointments : list Appointment.t
}.

(** [Model.findOne(filter)] : the first document that passes, or null. *)
Definition findOne {D : Type} (filter : D -> bool) (docs : list D) : option D :=
  List.find filter docs.

(** [Model.find(filter)] : every document that passes. *)
Definition find {D : Type} (filter : D -> bool) (docs : list D) : list D :=
  List.filter filter docs.

(** [{ field: v }] *)
Definition eq (field v : string) : bool := (field =? v)%string.

(** [{ field: { $ne: v } }] *)
Definition ne (field v : string) : bool := negb (field =? v)%string.

(** [{ field: { $gte: v } }] and [{ field: { $lte: v } }] on strings: the
    store orders strings byte by byte. *)
Definition gte (field v : string) : bool := String.leb v field.
Definition lte (field v : string) : bool := String.leb field v.

End Store.

(* ================================================================== *)
(** ** The handler                                                     *)
(* ================================================================== *)

(** [req.body] *)
Module Body.
Record t : Type := mk {
  doctorId : string;
  date : string;
  time : string
}.
End Body.

(** What the handler hands back: [next(new AppError(message, statusCode))]
    or [res.status(code).json({ status, message })].  An error is kept as
    the two arguments it is built from. *)
Inductive Response : Type :=
| NextAppError (message : string) (statusCode : Z)
| Json (code : Z) (status : bool) (message : string).

Definition outOfHoursPrefix : string :=
  "Please select a time within doctor's working hours ".

(** The filter of the appointment query, lines 139-144. *)
Definition appointmentFilter (body : Body.t) (fromTime toTime : Moment.t)
    (a : Appointment.t) : bool :=
  Store.eq (Appointment.doctorId a) (Body.doctorId body)
  && Store.eq (Appointment.date a) (Body.date body)
  && (Store.gte (Appointment.time a) (Moment.format fromTime Moment.HH_mm)
      && Store.lte (Appointment.time a) (Moment.format toTime Moment.HH_mm))
  && Store.ne (Appointment.status a) "rejected".

Definition checkBookingAvailability (today : Z) (db : Store.t) (body : Body.t)
    : Response :=
  match Store.findOne (fun d => Store.eq (Doctor.userId d) (Body.doctorId body))
                      (Store.doctors db) with
  | None => NextAppError "Doctor not found" 404
  | Some doctor =>
      let doctorFromTime :=
        Moment.moment today (Doctor.fromTime doctor) Moment.HH_mm in
      let doctorToTime :=
        Moment.moment today (Doctor.toTime doctor) Moment.HH_mm in
      let requestedTime :=
        Moment.momentOf today (Body.time body) [Moment.HH_mm; Moment.hh_mm_A] in
      let fromTime := Moment.subtract requestedTime 30 in
      let toTime := Moment.add requestedTime 15 in
      let displayFromTime := Moment.format doctorFromTime Moment.hh_mm_A in
      let displayToTime := Moment.format doctorToTime Moment.hh_mm_A in
      if Moment.isBefore requestedTime doctorFromTime
         || Moment.isAfter requestedTime doctorToTime
      then
        NextAppError
          (outOfHoursPrefix ++ displayFromTime ++ " to " ++ displayToTime) 400
      else
        let appointments :=
          Store.find (appointmentFilter body fromTime toTime)
                     (Store.appointments db) in
        if 0 <? Z.of_nat (List.length appointments)
        then NextAppError "Appointment not available" 400
        else Json 200 true "Appointment available"
  end.

(** The three moments that the handler parses, and the doctor it looks up. *)
Definition doctorOf (db : Store.t) (body : Body.t) : option Doctor.t :=
  Store.findOne (fun d => Store.eq (Doctor.userId d) (Body.doctorId body))
                (Store.doctors db).

Definition doctorFromTime (today : Z) (doctor : Doctor.t) : Moment.t :=
  Moment.moment today (Doctor.fromTime doctor) Moment.HH_mm.

Definition doctorToTime (today : Z) (doctor : Doctor.t) : Moment.t :=
  Moment.moment today (Doctor.toTime doctor) Moment.HH_mm.

Definition requestedTime (today : Z) (body : Body.t) : Moment.t :=
  Moment.momentOf today (Body.time body) [Moment.HH_mm; Moment.hh_mm_A].

(** The three responses of lines 131-153 and the one of line 112. *)
Definition doctorNotFound : Response := NextAppError "Doctor not found" 404.

Definition outOfWorkingHours (displayFromTime displayToTime : string) : Response :=
  NextAppError (outOfHoursPrefix ++ displayFromTime ++ " to " ++ displayToTime) 400.

Definition slotConflict : Response := NextAppError "Appointment not available" 400.

Definition available : Response := Json 200 true "Appointment available".

(** The outcomes that the specification names, read back from a response the
    way a caller tells them apart: by status code and message.  The handler
    has no response for [InvalidTimeFormat]. *)
Inductive Outcome : Type :=
| Available
| DoctorNotFound
| InvalidTimeFormat
| OutOfWorkingHours
| SlotConflict.

Definition outcome (r : Response) : option Outcome :=
  match r with
  | Json code status message =>
      if (code =? 200) && status && (message =? "Appointment available")%string
      then Some Available else None
  | NextAppError message statusCode =>
      if (statusCode =? 404) && (message =? "Doctor not found")%string
      then Some DoctorNotFound
      else if (statusCode =? 400) && (message =? "Appointment not available")%string
      then Some SlotConflict
      else if (statusCode =? 400) && String.prefix outOfHoursPrefix message
      then Some OutOfWorkingHours
      else None
  end.

(** The wall-clock time [x] minutes after midnight in the two display
    forms, as [format] writes them. *)
Definition clock24 (x : Z) : string :=
  Moment.format (Moment.At x) Moment.HH_mm.

Definition clock12 (x : Z) : string :=
  Moment.format (Moment.At x) Moment.hh_mm_A.

(** A recogniser of the 12-hour display form [hh:mm A]: two digits from 01
    to 12, a colon, two digits from 00 to 59, a space, [AM] or [PM]. *)
Definition is12HourDisplay (s : string) : bool :=
  match s with
  | String h1 (String h2 (String c (String m1 (String m2 (String sp (String a (String m EmptyString))))))) =>
      Regex.is_digit h1 && Regex.is_digit h2
      && Regex.is_digit m1 && Regex.is_digit m2
      && (let h := 10 * digitValue h1 + digitValue h2 in (1 <=? h) && (h <=? 12))
      && (10 * digitValue m1 + digitValue m2 <=? 59)
      && (c =? ":")%char && (sp =? " ")%char
      && ((a =? "A")%char || (a =? "P")%char) && (m =? "M")%char
  | _ => false
  end.

(** The working-hours test of lines 127-130. *)
Definition outsideWorkingHours (today : Z) (doctor : Doctor.t) (body : Body.t)
    : bool :=
  Moment.isBefore (requestedTime today body) (doctorFromTime today doctor)
  || Moment.isAfter (requestedTime today body) (doctorToTime today doctor).

(** The time part of the query of line 142: the stored text lies between the
    two ends of the window, as texts. *)
Definition inConflictWindow (today : Z) (body : Body.t) (a : Appointment.t)
    : bool :=
  Store.gte (Appointment.time a)
    (Moment.format (Moment.subtract (requestedTime today body) 30) Moment.HH_mm)
  && Store.lte (Appointment.time a)
    (Moment.format (Moment.add (requestedTime today body) 15) Moment.HH_mm).

(** The minutes of a day, to settle facts about every clock text by
    evaluation. *)
Definition minutesOfDay : list Z := map Z.of_nat (seq 0 1440).

Definition parsed_eqb (p q : Moment.parsed) : bool :=
  Bool.eqb (Moment.isValid p) (Moment.isValid q)
  && (Moment.minutes p =? Moment.minutes q)
  && (Moment.score p =? Moment.score q).

(** Sample data: a doctor working 09:00-17:00, one working round the clock,
    one whose hours were stored in 12-hour form and one whose hours are no
    times at all; appointments and requests of one day. *)
Module Sample.
Definition day : string := "2024-05-06".
Definition office : Doctor.t := Doctor.mk "dr-office" "09:00" "17:00".
Definition allDay : Doctor.t := Doctor.mk "dr-allday" "00:00" "23:59".
Definition meridiem : Doctor.t := Doctor.mk "dr-meridiem" "09:00 AM" "05:00 PM".
Definition blank : Doctor.t := Doctor.mk "dr-blank" "morning" "evening".
Definition booked (doctor : Doctor.t) (time status : string) : Appointment.t :=
  Appointment.mk (Doctor.userId doctor) day time status.
Definition request (doctor : Doctor.t) (time : string) : Body.t :=
  Body.mk (Doctor.userId doctor) day time.
Definition clinic (appointments : list Appointment.t) : Store.t :=
  Store.mk [office; allDay; meridiem; blank] appointments.
End Sample.

(* ================================================================== *)
(** ** The other handlers of the controller                            *)
(* ================================================================== *)

(** A text without any digit. *)
Fixpoint noDigit (s : string) : bool :=
  match s with
  | EmptyString => true
  | String c s' => negb (Regex.is_digit c) && noDigit s'
  end.

(** What the token loop keeps true on a text without digits: no hour and no
    minute is read, and if anything was read at all it is a meridiem. *)
Definition nothingRead (c : Moment.config) : Prop :=
  noDigit (Moment.input c) = true
  /\ Moment._a_HOUR c = None
  /\ Moment._a_MINUTE c = None
  /\ (Moment.empty c = false -> Moment.isSome (Moment._meridiem c) = true).

(** An entry of [unseenNotifications], as the handlers build it; [data] is
    kept as the list of its fields. *)
Module Notification.
Record t : Type := mk {
  type : string;
  message : string;
  data : list (string * string);
  onClickPath : string
}.
End Notification.

Module User.
(** Modelled from the spec: the schema models/userModel.js is not among the
    sources.  A user document is kept to the fields that the controller
    reads or writes. *)
Record t : Type := mk {
  _id : string;
  name : string;
  isAdmin : bool;
  unseenNotifications : list Notification.t
}.

Definition notify (u : t) (n : Notification.t) : t :=
  mk (_id u) (name u) (isAdmin u) (unseenNotifications u ++ [n]).
End User.

Module DoctorDoc.
(** Modelled from the spec: the schema models/doctorModel.js is not among
    the sources.  A stored doctor is kept to the fields that the controller
    reads or writes; [hours] is the part that the availability check reads. *)
Record t : Type := mk {
  _id : string;
  userId : string;
  email : string;
  fullName : string;
  fromTime : string;
  toTime : string;
  status : string
}.

Definition hours (d : t) : Doctor.t :=
  Doctor.mk (userId d) (fromTime d) (toTime d).
End DoctorDoc.

(** [req.body] of the signup: the fields of the doctor to be. *)
Module DoctorBody.
Record t : Type := mk {
  userId : string;
  email : string;
  fullName : string;
  fromTime : string;
  toTime : string;
  status : string
}.
End DoctorBody.

(** [req.body] of the update: the fields to set, each present or absent. *)
Module DoctorUpdate.
Record t : Type := mk {
  userId : option string;
  email : option string;
  fullName : option string;
  fromTime : option string;
  toTime : option string;
  status : option string
}.

Definition set (field : option string) (old : string) : string :=
  match field with Some v => v | None => old end.

(** The document after the update; [_id] cannot be set. *)
Definition apply (u : t) (d : DoctorDoc.t) : DoctorDoc.t :=
  DoctorDoc.mk (DoctorDoc._id d)
    (set (userId u) (DoctorDoc.userId d))
    (set (email u) (DoctorDoc.email d))
    (set (fullName u) (DoctorDoc.fullName d))
    (set (fromTime u) (DoctorDoc.fromTime d))
    (set (toTime u) (DoctorDoc.toTime d))
    (set (status u) (DoctorDoc.status d)).
End DoctorUpdate.

Module AppointmentDoc.
(** Modelled from the spec: the schema models/appointmentModel.js is not
    among the sources.  A stored appointment is kept to the fields that the
    controller reads or writes; [slot] is the part that the availability
    query filters on. *)
Record t : Type := mk {
  _id : string;
  userId : string;
  doctorId : string;
  date : string;
  time : string;
  status : string
}.

Definition slot (a : t) : Appointment.t :=
  Appointment.mk (doctorId a) (date a) (time a) (status a).

(** [{ status }] applied to a document. *)
Definition setStatus (s : string) (a : t) : t :=
  mk (_id a) (userId a) (doctorId a) (date a) (time a) s.
End AppointmentDoc.

Module Database.

(** The three collections. *)
Record t : Type := mk {
  doctors : list DoctorDoc.t;
  users : list User.t;
  appointments : list AppointmentDoc.t
}.

(** What the availability check sees of the collections. *)
Definition store (db : t) : Store.t :=
  Store.mk (map DoctorDoc.hours (doctors db))
           (map AppointmentDoc.slot (appointments db)).

(** [Model.findOneAndUpdate(filter, update, { new: true })] : the first
    document that passes is replaced by its update, which is also what the
    call returns; null and no change when none passes. *)
Fixpoint findOneAndUpdate {D : Type} (filter : D -> bool) (update : D -> D)
    (docs : list D) : option D * list D :=
  match docs with
  | [] => (None, [])
  | d :: rest =>
      if filter d then (Some (update d), update d :: rest)
      else
        let '(found, rest') := findOneAndUpdate filter update rest in
        (found, d :: rest')
  end.

(** [user.save()] on a stored user: the document with the same [_id] is
    written back. *)
Definition saveUser (u : User.t) (users : list User.t) : list User.t :=
  snd (findOneAndUpdate (fun v => Store.eq (User._id v) (User._id u))
                        (fun _ => u) users).

End Database.

(** A response that carries data: [next(new AppError(message, statusCode))]
    or [res.status(code).json({ status, message, data })]. *)
Inductive Reply (D : Type) : Type :=
| NextError (message : string) (statusCode : Z)
| JsonData (code : Z) (status : bool) (message : string) (data : D).

Arguments NextError {D} message statusCode.
Arguments JsonData {D} code status message data.

(** [doctorSignup], lines 10-49.  [newId] is the [_id] that the new
    document receives. *)
Definition doctorSignup (newId : string) (db : Database.t) (body : DoctorBody.t)
    : Response * Database.t :=
  match Store.findOne
          (fun d => Store.eq (DoctorDoc.email d) (DoctorBody.email body))
          (Database.doctors db) with
  | Some doctorExists =>
      (NextAppError "Doctor already applied. Please contact your admin clinic." 400,
       db)
  | None =>
      let newDoctor :=
        DoctorDoc.mk newId (DoctorBody.userId body) (DoctorBody.email body)
          (DoctorBody.fullName body) (DoctorBody.fromTime body)
          (DoctorBody.toTime body) "pending" in
      let doctors := (Database.doctors db ++ [newDoctor])%list in
      let users :=
        match Store.findOne User.isAdmin (Database.users db) with
        | Some adminUser =>
            Database.saveUser
              (User.notify adminUser
                 (Notification.mk "new-doctor-request"
                    (DoctorDoc.fullName newDoctor
                     ++ " has requested to join as a doctor.")
                    [("doctorId", DoctorDoc._id newDoctor);
                     ("name", DoctorDoc.fullName newDoctor)]
                    "/admin/doctors"))
              (Database.users db)
        | None => Database.users db
        end in
      (Json 200 true "Doctor account applied successfully",
       Database.mk doctors users (Database.appointments db))
  end.

(** [getAllDoctors], lines 53-61. *)
Definition getAllDoctors (db : Database.t) : Reply (list DoctorDoc.t) :=
  JsonData 200 true "All doctors fetched successfully" (Database.doctors db).

(** [getAllApprovedDoctors], lines 65-73. *)
Definition getAllApprovedDoctors (db : Database.t) : Reply (list DoctorDoc.t) :=
  JsonData 200 true "Approved doctors fetched successfully"
    (Store.find (fun d => Store.eq (DoctorDoc.status d) "approved")
                (Database.doctors db)).

(** [getDoctor], lines 77-87; [id] is [req.params.id]. *)
Definition getDoctor (db : Database.t) (id : string) : Reply DoctorDoc.t :=
  match Store.findOne (fun d => Store.eq (DoctorDoc.userId d) id)
                      (Database.doctors db) with
  | None => NextError "Doctor not found" 404
  | Some doctor => JsonData 200 true "Doctor fetched successfully" doctor
  end.

(** [updateDoctor], lines 91-105. *)
Definition updateDoctor (db : Database.t) (id : string) (body : DoctorUpdate.t)
    : Reply DoctorDoc.t * Database.t :=
  match Database.findOneAndUpdate
          (fun d => Store.eq (DoctorDoc.userId d) id)
          (DoctorUpdate.apply body) (Database.doctors db) with
  | (None, _) => (NextError "Doctor not found" 404, db)
  | (Some doctor, doctors) =>
      (JsonData 200 true "Doctor updated successfully" doctor,
       Database.mk doctors (Database.users db) (Database.appointments db))
  end.

(** [checkBookingAvailability] on the collections; it writes nothing. *)
Definition checkAvailability (today : Z) (db : Database.t) (body : Body.t)
    : Response :=
  checkBookingAvailability today (Database.store db) body.

(** [doctorAppointments], lines 158-172. *)
Definition doctorAppointments (db : Database.t) (id : string)
    : Reply (list AppointmentDoc.t) :=
  match Store.findOne (fun d => Store.eq (DoctorDoc.userId d) id)
                      (Database.doctors db) with
  | None => NextError "Doctor not found" 404
  | Some doctor =>
      JsonData 200 true "Appointments fetched successfully"
        (Store.find
           (fun a => Store.eq (AppointmentDoc.doctorId a) (DoctorDoc.userId doctor))
           (Database.appointments db))
  end.

(** [changeAppointmentStatus], lines 176-207. *)
Definition changeAppointmentStatus (db : Database.t)
    (appointmentId status : string) : Response * Database.t :=
  match Database.findOneAndUpdate
          (fun a => Store.eq (AppointmentDoc._id a) appointmentId)
          (AppointmentDoc.setStatus status) (Database.appointments db) with
  | (None, _) => (NextAppError "Appointment not found" 404, db)
  | (Some appointment, appointments) =>
      let users :=
        match Store.findOne
                (fun u => Store.eq (User._id u) (AppointmentDoc.userId appointment))
                (Database.users db) with
        | Some user =>
            Database.saveUser
              (User.notify user
                 (Notification.mk "appointment-status-changed"
                    ("Your appointment status has been " ++ status)
                    [("name", User.name user)]
                    "/appointments"))
              (Database.users db)
        | None => Database.users db
        end in
      (Json 200 true "Appointment status changed successfully",
       Database.mk (Database.doctors db) users appointments)
  end.

(** [getBookAppointments], lines 211-222. *)
Definition getBookAppointments (db : Database.t) (id : string)
    : Reply (list AppointmentDoc.t) :=
  JsonData 200 true "Approved appointments fetched successfully"
    (Store.find
       (fun a => Store.eq (AppointmentDoc.doctorId a) id
                 && Store.eq (AppointmentDoc.status a) "approved")
       (Database.appointments db)).


(* ================================================================== *)
(** ** The handler in the server's time zone                           *)
(* ================================================================== *)

(** The server's zone, as the two conversions that a date object makes.
    Instants and wall-clock times are counted in minutes, instants from the
    epoch and wall-clock times from the midnight that starts local day 0. *)
Module Zone.

Record t : Type := mk {
  (** the offset from universal time in force at an instant *)
  offsetAt : Z -> Z;
  (** [new Date(y, m, d, h, mi)] : the instant of a wall-clock time *)
  toInstant : Z -> Z
}.

(** The wall-clock time that the zone shows at an instant. *)
Definition wallClock (z : t) (u : Z) : Z := u + offsetAt z u.

(** The local day of an instant, and its minute of that day. *)
Definition localDay (z : t) (u : Z) : Z := wallClock z u / 1440.
Definition minuteOfDay (z : t) (u : Z) : Z := wallClock z u mod 1440.

(** A zone that keeps one offset for ever. *)
Definition fixed (offset : Z) : t :=
  mk (fun _ => offset) (fun l => l - offset).

(** A zone that keeps [offset] up to the instant [change] and is one hour
    ahead of it from then on (clocks go forward).  A wall-clock time in the
    skipped hour is taken with the offset before the change. *)
Definition forward (offset change : Z) : t :=
  mk (fun u => if u <? change then offset else offset + 60)
     (fun l => if l <? change + offset + 60 then l - offset
               else l - (offset + 60)).

End Zone.

Module Zoned.

(** The instants at which the parses of one request read the clock: one
    for each of the two working-hours texts and one for each format tried on
    the requested time. *)
Record Clock : Type := mkClock {
  atFromTime : Z;
  atToTime : Z;
  atRequested24 : Z;
  atRequested12 : Z
}.

(** A clock that stands still at one instant. *)
Definition still (now : Z) : Clock := mkClock now now now now.

(** [configFromArray] with the clock and the zone: the date fields come
    from the local day of the reading, the parsed hour and minute are put on
    top of its midnight, and the zone gives the instant.  A moment [At u] is
    here the instant [u]. *)
Definition create (z : Zone.t) (now : Z) (p : Moment.parsed) : Moment.t :=
  if Moment.isValid p
  then Moment.At (Zone.toInstant z
                    (Zone.localDay z now * 1440 + Moment.minutes p))
  else Moment.Invalid.

(** [moment(input, format)] *)
Definition moment (z : Zone.t) (now : Z) (s : string) (f : list Moment.token)
    : Moment.t :=
  create z now (Moment.configFromStringAndFormat s f).

(** One attempt of [configFromStringAndArray]: what the format made of the
    string, and the moment it created at its own reading of the clock. *)
Record attempt : Type := mkAttempt {
  parsedAs : Moment.parsed;
  created : Moment.t
}.

Record best : Type := mkBest {
  bestMoment : option attempt;
  bestFormatIsValid : bool
}.

Definition tryFormat (z : Zone.t) (s : string) (b : best)
    (f : list Moment.token * Z) : best :=
  let tempConfig := Moment.configFromStringAndFormat s (fst f) in
  let temp := mkAttempt tempConfig (create z (snd f) tempConfig) in
  let validFormatFound := Moment.isValid tempConfig in
  let currentScore := Moment.score tempConfig in
  match bestMoment b with
  | None => mkBest (Some temp) validFormatFound
  | Some cur =>
      if negb (bestFormatIsValid b) then
        if (currentScore <? Moment.score (parsedAs cur)) || validFormatFound
        then mkBest (Some temp) validFormatFound
        else b
      else
        if currentScore <? Moment.score (parsedAs cur)
        then mkBest (Some temp) true
        else b
  end.

(** [moment(input, [format, ...])], each format with its reading of the
    clock. *)
Definition momentOf (z : Zone.t) (s : string)
    (fs : list (list Moment.token * Z)) : Moment.t :=
  match bestMoment (fold_left (tryFormat z s) fs (mkBest None false)) with
  | Some a => created a
  | None => Moment.Invalid
  end.

(** [m.format(f)] : the wall-clock fields of the instant in the zone. *)
Definition format (z : Zone.t) (m : Moment.t) (f : list Moment.token) : string :=
  match m with
  | Moment.Invalid => "Invalid date"
  | Moment.At u => Moment.format (Moment.At (Zone.wallClock z u)) f
  end.

Definition doctorFromTime (z : Zone.t) (clock : Clock) (doctor : Doctor.t)
    : Moment.t :=
  moment z (atFromTime clock) (Doctor.fromTime doctor) Moment.HH_mm.

Definition doctorToTime (z : Zone.t) (clock : Clock) (doctor : Doctor.t)
    : Moment.t :=
  moment z (atToTime clock) (Doctor.toTime doctor) Moment.HH_mm.

Definition requestedTime (z : Zone.t) (clock : Clock) (body : Body.t)
    : Moment.t :=
  momentOf z (Body.time body)
    [(Moment.HH_mm, atRequested24 clock); (Moment.hh_mm_A, atRequested12 clock)].

(** The filter of the appointment query, lines 139-144. *)
Definition appointmentFilter (z : Zone.t) (body : Body.t)
    (fromTime toTime : Moment.t) (a : Appointment.t) : bool :=
  Store.eq (Appointment.doctorId a) (Body.doctorId body)
  && Store.eq (Appointment.date a) (Body.date body)
  && (Store.gte (Appointment.time a) (format z fromTime Moment.HH_mm)
      && Store.lte (Appointment.time a) (format z toTime Moment.HH_mm))
  && Store.ne (Appointment.status a) "rejected".

(** [checkBookingAvailability], lines 109-154, with the clock and the zone
    that its parses read.  Adding and subtracting minutes and comparing act
    on instants. *)
Definition checkBookingAvailability (z : Zone.t) (clock : Clock)
    (db : Store.t) (body : Body.t) : Response :=
  match Store.findOne (fun d => Store.eq (Doctor.userId d) (Body.doctorId body))
                      (Store.doctors db) with
  | None => NextAppError "Doctor not found" 404
  | Some doctor =>
      let doctorFromTime := doctorFromTime z clock doctor in
      let doctorToTime := doctorToTime z clock doctor in
      let requestedTime := requestedTime z clock body in
      let fromTime := Moment.subtract requestedTime 30 in
      let toTime := Moment.add requestedTime 15 in
      let displayFromTime := format z doctorFromTime Moment.hh_mm_A in
      let displayToTime := format z doctorToTime Moment.hh_mm_A in
      if Moment.isBefore requestedTime doctorFromTime
         || Moment.isAfter requestedTime doctorToTime
      then
        NextAppError
          (outOfHoursPrefix ++ displayFromTime ++ " to " ++ displayToTime) 400
      else
        let appointments :=
          Store.find (appointmentFilter z body fromTime toTime)
                     (Store.appointments db) in
        if 0 <? Z.of_nat (List.length appointments)
        then NextAppError "Appointment not available" 400
        else Json 200 true "Appointment available"
  end.

(** The working-hours test of lines 127-130. *)
Definition outsideWorkingHours (z : Zone.t) (clock : Clock)
    (doctor : Doctor.t) (body : Body.t) : bool :=
  Moment.isBefore (requestedTime z clock body) (doctorFromTime z clock doctor)
  || Moment.isAfter (requestedTime z clock body) (doctorToTime z clock doctor).

(** A day without clock change: every reading of the clock falls on local
    day [day], and from 30 minutes before that day to 15 minutes after it
    the zone keeps one offset. *)
Definition plainDay (z : Zone.t) (clock : Clock) (day : Z) : Prop :=
  Zone.localDay z (atFromTime clock) = day
  /\ Zone.localDay z (atToTime clock) = day
  /\ Zone.localDay z (atRequested24 clock) = day
  /\ Zone.localDay z (atRequested12 clock) = day
  /\ exists offset, forall l,
       day * 1440 - 30 <= l <= day * 1440 + 1455 ->
       Zone.toInstant z l = l - offset
       /\ Zone.offsetAt z (l - offset) = offset.

End Zoned.

(** Sample zones and clocks: universal time, and a zone five hours behind
    it whose clocks go forward at 07:00 universal time on 8 March 2026 (local
    02:00 becomes 03:00); noon of that day and of the next one; a doctor whose afternoon
    hours were stored in 12-hour form and one who starts at 03:00. *)
Module SampleZone.
Definition utc : Zone.t := Zone.fixed 0.
Definition march8 : Z := 20520.
Definition eastern : Zone.t := Zone.forward (-300) (march8 * 1440 + 420).
Definition noonOfChange : Zoned.Clock := Zoned.still (march8 * 1440 + 16 * 60).
Definition noonAfter : Zoned.Clock := Zoned.still ((march8 + 1) * 1440 + 16 * 60).
Definition noonUtc : Zoned.Clock := Zoned.still (march8 * 1440 + 12 * 60).
Definition afternoon : Doctor.t := Doctor.mk "dr-afternoon" "01:00 PM" "05:00 PM".
Definition fromThree : Doctor.t := Doctor.mk "dr-three" "03:00" "17:00".
End SampleZone.

(** A wall-clock moment seen as the instant it is in a zone that keeps the
    offset [offset]. *)
Definition instantOf (offset : Z) (m : Moment.t) : Moment.t :=
  match m with
  | Moment.At l => Moment.At (l - offset)
  | Moment.Invalid => Moment.Invalid
  end.

(** A wall-clock moment between two wall-clock times. *)
Definition within (lo hi : Z) (m : Moment.t) : Prop :=
  match m with
  | Moment.At l => lo <= l <= hi
  | Moment.Invalid => True
  end.

(* ================================================================== *)
(** ** Auxiliary facts: strings and minutes                            *)
(* ================================================================== *)

Section StringOrder.

Lemma ascii_compare_refl (c : ascii) : Ascii.compare c c = Eq.
Proof. unfold Ascii.compare. apply N.compare_refl. Qed.

Lemma ascii_compare_eq (c d : ascii) : Ascii.compare c d = Eq -> c = d.
Proof.
  unfold Ascii.compare. intros H. apply N.compare_eq in H.
  rewrite <- (ascii_N_embedding c), <- (ascii_N_embedding d). now rewrite H.
Qed.

Lemma string_compare_refl (s : string) : String.compare s s = Eq.
Proof.
  induction s as [|c s IH]; simpl; [reflexivity|].
  now rewrite ascii_compare_refl.
Qed.

Lemma string_leb_refl (s : string) : String.leb s s = true.
Proof. unfold String.leb. now rewrite string_compare_refl. Qed.

(** Less-or-equal is transitive; this is all that the range filter needs. *)
Lemma string_compare_trans_le (a b c : string) :
  String.compare a b <> Gt -> String.compare b c <> Gt ->
  String.compare a c <> Gt.
Proof.
  revert b c.
  induction a as [|x a IH]; intros [|y b] [|z c]; simpl; try congruence.
  unfold Ascii.compare.
  destruct (N.compare_spec (N_of_ascii x) (N_of_ascii y)) as [Hxy|Hxy|Hxy];
    destruct (N.compare_spec (N_of_ascii y) (N_of_ascii z)) as [Hyz|Hyz|Hyz];
    destruct (N.compare_spec (N_of_ascii x) (N_of_ascii z)) as [Hxz|Hxz|Hxz];
    try congruence; try lia.
  apply IH.
Qed.

Lemma string_leb_trans (a b c : string) :
  String.leb a b = true -> String.leb b c = true -> String.leb a c = true.
Proof.
  unfold String.leb. intros Hab Hbc.
  assert (H := string_compare_trans_le a b c).
  destruct (String.compare a b); destruct (String.compare b c);
    destruct (String.compare a c); try discriminate; try reflexivity;
    exfalso; apply H; congruence.
Qed.

End StringOrder.

(** Goals about minutes of the day: quotients and remainders by constants. *)
Ltac minutes_arith := Z.div_mod_to_equations; lia.

Section Clock.

Lemma digit_compare (d e : Z) :
  0 <= d <= 9 -> 0 <= e <= 9 ->
  Ascii.compare (digitChar d) (digitChar e) = (d ?= e).
Proof.
  intros Hd He. unfold Ascii.compare, digitChar.
  rewrite !N_ascii_embedding by lia.
  rewrite Z2N.inj_compare by lia.
  apply Z.add_compare_mono_l.
Qed.

Lemma clock24_eq (x : Z) :
  clock24 x =
  zeroFill2 (Moment.hours x) ++ ":" ++ zeroFill2 (Moment.minute x).
Proof. reflexivity. Qed.

(** On ["HH:mm"] texts the byte order of the store is the order of the
    times. *)
Lemma compare_zeroFill2 (a b : Z) (s t : string) :
  0 <= a < 100 -> 0 <= b < 100 ->
  String.compare (zeroFill2 a ++ s) (zeroFill2 b ++ t) =
  match a ?= b with Eq => String.compare s t | c => c end.
Proof.
  intros Ha Hb. unfold zeroFill2.
  cbn [String.append String.compare].
  assert (0 <= a / 10 <= 9 /\ 0 <= a mod 10 <= 9) as [Ha1 Ha2] by
    minutes_arith.
  assert (0 <= b / 10 <= 9 /\ 0 <= b mod 10 <= 9) as [Hb1 Hb2] by
    minutes_arith.
  rewrite !digit_compare by assumption.
  destruct (Z.compare_spec (a / 10) (b / 10));
    destruct (Z.compare_spec (a mod 10) (b mod 10));
    destruct (Z.compare_spec a b); try reflexivity; exfalso;
    minutes_arith.
Qed.

Lemma compare_clock24 (x y : Z) :
  0 <= x < 1440 -> 0 <= y < 1440 ->
  String.compare (clock24 x) (clock24 y) = (x ?= y).
Proof.
  intros Hx Hy. rewrite !clock24_eq.
  unfold Moment.hours, Moment.minute, Moment.minutesPerDay.
  rewrite (Z.mod_small x 1440), (Z.mod_small y 1440) by lia.
  rewrite compare_zeroFill2 by minutes_arith.
  cbn [String.append String.compare]. rewrite ascii_compare_refl.
  change (String.compare (zeroFill2 (x mod 60)) (zeroFill2 (y mod 60)))
    with (String.compare (zeroFill2 (x mod 60) ++ EmptyString)
                           (zeroFill2 (y mod 60) ++ EmptyString)).
  rewrite compare_zeroFill2 by minutes_arith.
  cbn [String.compare].
  destruct (Z.compare_spec (x / 60) (y / 60));
    destruct (Z.compare_spec (x mod 60) (y mod 60));
    destruct (Z.compare_spec x y); try reflexivity; exfalso;
    minutes_arith.
Qed.

Lemma leb_clock24 (x y : Z) :
  0 <= x < 1440 -> 0 <= y < 1440 ->
  String.leb (clock24 x) (clock24 y) = (x <=? y).
Proof.
  intros Hx Hy. unfold String.leb, Z.leb. now rewrite compare_clock24.
Qed.

(** The text of a moment depends on its minute of the day only. *)
Lemma format_mod (d : Z) (f : list Moment.token) :
  Moment.format (Moment.At d) f =
  Moment.format (Moment.At (d mod 1440)) f.
Proof.
  unfold Moment.format. f_equal. apply map_ext. intros tok.
  unfold Moment.formatToken, Moment.hours, Moment.minute, Moment.minutesPerDay.
  now rewrite Z.mod_mod by lia.
Qed.

End Clock.

Section Enumeration.

Lemma in_minutesOfDay (x : Z) : 0 <= x < 1440 -> In x minutesOfDay.
Proof.
  intros Hx. unfold minutesOfDay. apply in_map_iff.
  exists (Z.to_nat x). split; [lia|]. apply in_seq. lia.
Qed.

Lemma forall_minutesOfDay (P : Z -> bool) :
  forallb P minutesOfDay = true ->
  forall x, 0 <= x < 1440 -> P x = true.
Proof.
  intros H x Hx. rewrite forallb_forall in H. now apply H, in_minutesOfDay.
Qed.

Lemma parsed_eqb_eq (p q : Moment.parsed) : parsed_eqb p q = true -> p = q.
Proof.
  destruct p, q. unfold parsed_eqb. cbn.
  rewrite !andb_true_iff, !Z.eqb_eq, Bool.eqb_true_iff.
  intros [[-> ->] ->]. reflexivity.
Qed.

(** ["HH:mm"] reads back what it wrote. *)
Lemma parse_clock24 (x : Z) :
  0 <= x < 1440 ->
  Moment.configFromStringAndFormat (clock24 x) Moment.HH_mm =
  Moment.mkParsed true x 0.
Proof.
  intros Hx. apply parsed_eqb_eq.
  revert x Hx.
  apply (forall_minutesOfDay (fun x =>
    parsed_eqb (Moment.configFromStringAndFormat (clock24 x) Moment.HH_mm)
               (Moment.mkParsed true x 0))).
  vm_compute. reflexivity.
Qed.

(** The two-format parse of the requested time reads a 24-hour text as
    the time it shows, and a 12-hour text as well. *)
Lemma parseRequested_clock24 (x : Z) :
  0 <= x < 1440 ->
  Moment.configFromStringAndArray (clock24 x) [Moment.HH_mm; Moment.hh_mm_A] =
  Moment.mkParsed true x 0.
Proof.
  intros Hx. apply parsed_eqb_eq.
  revert x Hx.
  apply (forall_minutesOfDay (fun x =>
    parsed_eqb (Moment.configFromStringAndArray (clock24 x)
                  [Moment.HH_mm; Moment.hh_mm_A])
               (Moment.mkParsed true x 0))).
  vm_compute. reflexivity.
Qed.

Lemma parseRequested_clock12 (x : Z) :
  0 <= x < 1440 ->
  Moment.configFromStringAndArray (clock12 x) [Moment.HH_mm; Moment.hh_mm_A] =
  Moment.mkParsed true x 0.
Proof.
  intros Hx. apply parsed_eqb_eq.
  revert x Hx.
  apply (forall_minutesOfDay (fun x =>
    parsed_eqb (Moment.configFromStringAndArray (clock12 x)
                  [Moment.HH_mm; Moment.hh_mm_A])
               (Moment.mkParsed true x 0))).
  vm_compute. reflexivity.
Qed.

(** Every 12-hour text that [format] writes has the display shape. *)
Lemma clock12_display (x : Z) :
  0 <= x < 1440 -> is12HourDisplay (clock12 x) = true.
Proof.
  revert x. apply (forall_minutesOfDay (fun x => is12HourDisplay (clock12 x))).
  vm_compute. reflexivity.
Qed.

End Enumeration.

Section Shift.

(** Moving a moment by whole days does not change its text. *)
Lemma format_shift (k d : Z) (f : list Moment.token) :
  Moment.format (Moment.At (k * 1440 + d)) f = Moment.format (Moment.At d) f.
Proof.
  rewrite format_mod, (format_mod d). do 2 f_equal.
  rewrite Z.add_comm. apply Z.mod_add. lia.
Qed.

Lemma format_create (today : Z) (p : Moment.parsed) (f : list Moment.token) :
  Moment.format (Moment.create today p) f =
  Moment.format (Moment.create 0 p) f.
Proof.
  unfold Moment.create, Moment.minutesPerDay.
  destruct (Moment.isValid p); [|reflexivity].
  now rewrite format_shift.
Qed.

Lemma format_subtract_create (today n : Z) (p : Moment.parsed)
    (f : list Moment.token) :
  Moment.format (Moment.subtract (Moment.create today p) n) f =
  Moment.format (Moment.subtract (Moment.create 0 p) n) f.
Proof.
  unfold Moment.create, Moment.minutesPerDay.
  destruct (Moment.isValid p); [|reflexivity]. cbn [Moment.subtract].
  replace (today * 1440 + Moment.minutes p - n)
    with (today * 1440 + (Moment.minutes p - n)) by lia.
  now rewrite format_shift.
Qed.

Lemma format_add_create (today n : Z) (p : Moment.parsed)
    (f : list Moment.token) :
  Moment.format (Moment.add (Moment.create today p) n) f =
  Moment.format (Moment.add (Moment.create 0 p) n) f.
Proof.
  unfold Moment.create, Moment.minutesPerDay.
  destruct (Moment.isValid p); [|reflexivity]. cbn [Moment.add].
  replace (today * 1440 + Moment.minutes p + n)
    with (today * 1440 + (Moment.minutes p + n)) by lia.
  now rewrite format_shift.
Qed.

Lemma isBefore_create (today : Z) (p q : Moment.parsed) :
  Moment.isBefore (Moment.create today p) (Moment.create today q) =
  Moment.isBefore (Moment.create 0 p) (Moment.create 0 q).
Proof.
  unfold Moment.create, Moment.minutesPerDay.
  destruct (Moment.isValid p), (Moment.isValid q); try reflexivity.
  cbn [Moment.isBefore].
  destruct (Z.ltb_spec (today * 1440 + Moment.minutes p)
                       (today * 1440 + Moment.minutes q));
    destruct (Z.ltb_spec (0 * 1440 + Moment.minutes p)
                         (0 * 1440 + Moment.minutes q)); try reflexivity; lia.
Qed.

Lemma isAfter_create (today : Z) (p q : Moment.parsed) :
  Moment.isAfter (Moment.create today p) (Moment.create today q) =
  Moment.isAfter (Moment.create 0 p) (Moment.create 0 q).
Proof.
  unfold Moment.create, Moment.minutesPerDay.
  destruct (Moment.isValid p), (Moment.isValid q); try reflexivity.
  cbn [Moment.isAfter].
  destruct (Z.ltb_spec (today * 1440 + Moment.minutes q)
                       (today * 1440 + Moment.minutes p));
    destruct (Z.ltb_spec (0 * 1440 + Moment.minutes q)
                         (0 * 1440 + Moment.minutes p)); try reflexivity; lia.
Qed.

End Shift.

Section Responses.

Lemma find_nonempty {D : Type} (f : D -> bool) (l : list D) :
  (0 <? Z.of_nat (List.length (Store.find f l))) = existsb f l.
Proof.
  unfold Store.find.
  induction l as [|a l IH]; [reflexivity|]. cbn [filter existsb].
  destruct (f a); [|exact IH].
  cbn [List.length orb]. apply Z.ltb_lt. lia.
Qed.

Lemma check_not_found (today : Z) (db : Store.t) (body : Body.t) :
  doctorOf db body = None ->
  checkBookingAvailability today db body = doctorNotFound.
Proof.
  intros Hdoc. unfold checkBookingAvailability.
  unfold doctorOf in Hdoc. now rewrite Hdoc.
Qed.

Lemma prefix_append (p s : string) : String.prefix p (p ++ s) = true.
Proof.
  induction p as [|c p IH]; cbn.
  - now destruct s.
  - destruct (ascii_dec c c); [exact IH | congruence].
Qed.

Lemma outcome_outOfWorkingHours (a b : string) :
  outcome (outOfWorkingHours a b) = Some OutOfWorkingHours.
Proof.
  unfold outOfWorkingHours, outcome.
  rewrite prefix_append. reflexivity.
Qed.

(** When neither format yields a valid moment, the list of formats yields
    none either. *)
Lemma momentOf_invalid (today : Z) (s : string) :
  Moment.isValid (Moment.configFromStringAndFormat s Moment.HH_mm) = false ->
  Moment.isValid (Moment.configFromStringAndFormat s Moment.hh_mm_A) = false ->
  Moment.momentOf today s [Moment.HH_mm; Moment.hh_mm_A] = Moment.Invalid.
Proof.
  intros H1 H2.
  unfold Moment.momentOf, Moment.create, Moment.configFromStringAndArray.
  cbn [fold_left]. unfold Moment.tryFormat.
  cbn [Moment.bestMoment Moment.bestFormatIsValid].
  rewrite H1. cbn [negb]. rewrite H2, orb_false_r.
  destruct (_ <? _); cbn [Moment.bestMoment]; rewrite ?H1, ?H2; reflexivity.
Qed.

(** Between two clock texts, as the store compares them. *)
Lemma window_clock (r a : Z) :
  String.leb (clock24 (r - 30)) (clock24 a)
  && String.leb (clock24 a) (clock24 (r + 15)) =
  ((r - 30) mod 1440 <=? a mod 1440) && (a mod 1440 <=? (r + 15) mod 1440).
Proof.
  unfold clock24.
  rewrite (format_mod (r - 30)), (format_mod a), (format_mod (r + 15)).
  fold (clock24 ((r - 30) mod 1440)). fold (clock24 (a mod 1440)).
  fold (clock24 ((r + 15) mod 1440)).
  rewrite !leb_clock24 by (apply Z.mod_pos_bound; lia).
  reflexivity.
Qed.

End Responses.

(** The handler from line 114 on: a request whose doctor is stored. *)
Section Found.

Variables (today : Z) (db : Store.t) (body : Body.t) (doctor : Doctor.t).
Hypothesis Hdoctor : doctorOf db body = Some doctor.

(** The working-hours test, then the query. *)
Lemma check_found :
  checkBookingAvailability today db body =
  if outsideWorkingHours today doctor body
  then outOfWorkingHours
         (Moment.format (doctorFromTime today doctor) Moment.hh_mm_A)
         (Moment.format (doctorToTime today doctor) Moment.hh_mm_A)
  else if existsb (appointmentFilter body
                     (Moment.subtract (requestedTime today body) 30)
                     (Moment.add (requestedTime today body) 15))
                  (Store.appointments db)
  then slotConflict
  else available.
Proof.
  unfold checkBookingAvailability.
  unfold doctorOf in Hdoctor. rewrite Hdoctor.
  rewrite find_nonempty. reflexivity.
Qed.

Lemma appointmentFilter_true (a : Appointment.t) :
  appointmentFilter body (Moment.subtract (requestedTime today body) 30)
    (Moment.add (requestedTime today body) 15) a = true <->
  Appointment.doctorId a = Body.doctorId body
  /\ Appointment.date a = Body.date body
  /\ inConflictWindow today body a = true
  /\ Appointment.status a <> "rejected".
Proof.
  unfold appointmentFilter, inConflictWindow, Store.eq, Store.ne.
  rewrite !andb_true_iff, negb_true_iff, !String.eqb_eq, String.eqb_neq.
  tauto.
Qed.

Lemma check_conflict (a : Appointment.t) :
  outsideWorkingHours today doctor body = false ->
  In a (Store.appointments db) ->
  Appointment.doctorId a = Body.doctorId body ->
  Appointment.date a = Body.date body ->
  inConflictWindow today body a = true ->
  Appointment.status a <> "rejected" ->
  checkBookingAvailability today db body = slotConflict.
Proof.
  intros Hin Ha Hid Hdate Hwin Hst.
  rewrite check_found, Hin.
  replace (existsb _ _) with true; [reflexivity|].
  symmetry. apply existsb_exists. exists a. split; [exact Ha|].
  apply appointmentFilter_true. tauto.
Qed.

Lemma check_available :
  outsideWorkingHours today doctor body = false ->
  (forall a, In a (Store.appointments db) ->
     Appointment.doctorId a = Body.doctorId body ->
     Appointment.date a = Body.date body ->
     Appointment.status a <> "rejected" ->
     inConflictWindow today body a = false) ->
  checkBookingAvailability today db body = available.
Proof.
  intros Hin Hall.
  rewrite check_found, Hin.
  replace (existsb _ _) with false; [reflexivity|].
  symmetry. apply not_true_is_false. intros Hex.
  apply existsb_exists in Hex. destruct Hex as [a [Ha Hf]].
  apply appointmentFilter_true in Hf. destruct Hf as [Hid [Hdate [Hwin Hst]]].
  rewrite (Hall a Ha Hid Hdate Hst) in Hwin. discriminate.
Qed.

Lemma within_hours (f t r : Z) :
  doctorFromTime today doctor = Moment.At f ->
  doctorToTime today doctor = Moment.At t ->
  requestedTime today body = Moment.At r ->
  outsideWorkingHours today doctor body = (r <? f) || (t <? r).
Proof.
  intros Hf Ht Hr. unfold outsideWorkingHours. now rewrite Hf, Ht, Hr.
Qed.

Lemma inConflictWindow_clock (a : Appointment.t) (r x : Z) :
  requestedTime today body = Moment.At r ->
  Appointment.time a = clock24 x ->
  inConflictWindow today body a =
  ((r - 30) mod 1440 <=? x mod 1440) && (x mod 1440 <=? (r + 15) mod 1440).
Proof.
  intros Hr Hx. unfold inConflictWindow, Store.gte, Store.lte.
  rewrite Hr, Hx. cbn [Moment.subtract Moment.add].
  apply window_clock.
Qed.

(** With an invalid requested time both ends of the window are the text
    "Invalid date", and only that very text lies between them. *)
Lemma inConflictWindow_invalid (a : Appointment.t) :
  requestedTime today body = Moment.Invalid ->
  inConflictWindow today body a = (Appointment.time a =? "Invalid date")%string.
Proof.
  intros Hr. unfold inConflictWindow, Store.gte, Store.lte. rewrite Hr.
  cbn [Moment.subtract Moment.add Moment.format].
  destruct (String.eqb_spec (Appointment.time a) "Invalid date") as [->|Hne].
  - reflexivity.
  - apply not_true_is_false. intros H. apply andb_true_iff in H.
    destruct H as [H1 H2]. apply Hne. now apply String.leb_antisym.
Qed.

End Found.


(* ================================================================== *)
(** ** The working-hours check                                         *)
(* ================================================================== *)

(** C2: with working hours [f <= t], a requested time equal to [f] or to [t]
    is not rejected as out of hours; the out-of-hours response comes exactly
    when the requested time is strictly before [f] or strictly after [t]. *)
Theorem C2_boundary_times_accepted
    (today : Z) (db : Store.t) (body : Body.t) (doctor : Doctor.t) (f t r : Z) :
  doctorOf db body = Some doctor ->
  doctorFromTime today doctor = Moment.At f ->
  doctorToTime today doctor = Moment.At t ->
  requestedTime today body = Moment.At r ->
  f <= t ->
  (r = f \/ r = t ->
   outcome (checkBookingAvailability today db body) <> Some OutOfWorkingHours)
  /\ (outcome (checkBookingAvailability today db body) = Some OutOfWorkingHours
      <-> r < f \/ t < r).
Proof.
  intros Hdoc Hf Ht Hr Hft.
  assert (Hiff : outcome (checkBookingAvailability today db body)
                 = Some OutOfWorkingHours <-> r < f \/ t < r).
  { rewrite (check_found _ _ _ _ Hdoc).
    rewrite (within_hours _ _ _ _ _ _ Hf Ht Hr).
    destruct (Z.ltb_spec r f) as [H1|H1]; destruct (Z.ltb_spec t r) as [H2|H2];
      cbn [orb]; try rewrite outcome_outOfWorkingHours;
      try (split; [intros _; lia | reflexivity]).
    destruct (existsb _ _); cbn; split; try discriminate; lia. }
  split; [|exact Hiff].
  intros Heq Hout. apply Hiff in Hout. lia.
Qed.

Lemma C2_boundary_times_accepted_witness :
  let body := Sample.request Sample.office "17:00" in
  outcome (checkBookingAvailability 3 (Sample.clinic []) body)
  <> Some OutOfWorkingHours.
Proof.
  intros body.
  assert (Hft : 3 * 1440 + 540 <= 3 * 1440 + 1020) by lia.
  apply (proj1 (C2_boundary_times_accepted 3 (Sample.clinic []) body Sample.office
                  (3 * 1440 + 540) (3 * 1440 + 1020) (3 * 1440 + 1020)
                  eq_refl eq_refl eq_refl eq_refl Hft)).
  right. reflexivity.
Defined.

(* ================================================================== *)
(** ** Requested times that are no times                               *)
(* ================================================================== *)

(** C4, as stated, fails: the requested time "soon" parses under neither
    format, and the check answers that the slot is available. *)
Lemma C4_counterexample :
  let body := Sample.request Sample.office "soon" in
  Moment.isValid (Moment.configFromStringAndFormat "soon" Moment.HH_mm) = false
  /\ Moment.isValid (Moment.configFromStringAndFormat "soon" Moment.hh_mm_A) = false
  /\ checkBookingAvailability 3 (Sample.clinic []) body = available
  /\ outcome (checkBookingAvailability 3 (Sample.clinic []) body)
     <> Some InvalidTimeFormat.
Proof.
  cbv zeta. repeat split; try (vm_compute; reflexivity).
  vm_compute. discriminate.
Qed.

(** C4, amended: a requested time that parses under neither format raises no
    format error.  Neither working-hours comparison rejects it, both ends of
    the window are written "Invalid date", and the check answers available
    unless a non-rejected appointment of that doctor and date has exactly
    that text as its time, in which case it answers conflict. *)
Theorem C4_unparseable_time_not_rejected
    (today : Z) (db : Store.t) (body : Body.t) (doctor : Doctor.t) :
  doctorOf db body = Some doctor ->
  Moment.isValid
    (Moment.configFromStringAndFormat (Body.time body) Moment.HH_mm) = false ->
  Moment.isValid
    (Moment.configFromStringAndFormat (Body.time body) Moment.hh_mm_A) = false ->
  outsideWorkingHours today doctor body = false
  /\ checkBookingAvailability today db body =
     (if existsb (fun a =>
            Store.eq (Appointment.doctorId a) (Body.doctorId body)
            && Store.eq (Appointment.date a) (Body.date body)
            && Store.eq (Appointment.time a) "Invalid date"
            && Store.ne (Appointment.status a) "rejected")
          (Store.appointments db)
      then slotConflict else available)
  /\ outcome (checkBookingAvailability today db body) <> Some InvalidTimeFormat.
Proof.
  intros Hdoc H1 H2.
  assert (Hr : requestedTime today body = Moment.Invalid)
    by (apply momentOf_invalid; assumption).
  assert (Hout : outsideWorkingHours today doctor body = false)
    by (unfold outsideWorkingHours; now rewrite Hr).
  assert (Hcheck : checkBookingAvailability today db body =
     (if existsb (fun a =>
            Store.eq (Appointment.doctorId a) (Body.doctorId body)
            && Store.eq (Appointment.date a) (Body.date body)
            && Store.eq (Appointment.time a) "Invalid date"
            && Store.ne (Appointment.status a) "rejected")
          (Store.appointments db)
      then slotConflict else available)).
  { rewrite (check_found _ _ _ _ Hdoc).
    rewrite Hout.
    cbn [orb].
    match goal with
    | |- (if existsb ?f ?l then _ else _) = (if existsb ?g ?l then _ else _) =>
        assert (Hext : existsb f l = existsb g l)
    end.
    { induction (Store.appointments db) as [|a l IH]; [reflexivity|].
      cbn [existsb]. rewrite IH. f_equal.
      unfold appointmentFilter. fold (inConflictWindow today body a).
      now rewrite (inConflictWindow_invalid _ _ _ Hr). }
    now rewrite Hext. }
  split; [exact Hout|]. split; [exact Hcheck|].
  rewrite Hcheck. destruct (existsb _ _); cbn; discriminate.
Qed.

Lemma C4_unparseable_time_not_rejected_witness :
  let db := Sample.clinic [Sample.booked Sample.office "10:00" "approved"] in
  let body := Sample.request Sample.office "soon" in
  checkBookingAvailability 3 db body = available.
Proof.
  intros db body.
  exact (proj1 (proj2 (C4_unparseable_time_not_rejected 3 db body Sample.office
                         eq_refl eq_refl eq_refl))).
Defined.

(* ================================================================== *)
(** ** The two forms of the requested time                             *)
(* ================================================================== *)

(** C5: against the same store, the request for "14:30" and the request for
    "02:30 PM" get the same response, and so do the 24-hour text and the
    12-hour text of any minute of the day. *)
Theorem C5_format_equivalence
    (today : Z) (db : Store.t) (doctorId date : string) :
  checkBookingAvailability today db (Body.mk doctorId date "14:30") =
  checkBookingAvailability today db (Body.mk doctorId date "02:30 PM")
  /\ forall x, 0 <= x < 1440 ->
       checkBookingAvailability today db (Body.mk doctorId date (clock24 x)) =
       checkBookingAvailability today db (Body.mk doctorId date (clock12 x)).
Proof.
  assert (Hall : forall x, 0 <= x < 1440 ->
       checkBookingAvailability today db (Body.mk doctorId date (clock24 x)) =
       checkBookingAvailability today db (Body.mk doctorId date (clock12 x))).
  { intros x Hx. unfold checkBookingAvailability, appointmentFilter.
    cbn [Body.doctorId Body.date Body.time]. unfold Moment.momentOf.
    now rewrite (parseRequested_clock24 x Hx), (parseRequested_clock12 x Hx). }
  split; [|exact Hall].
  apply (Hall 870). lia.
Qed.

Lemma C5_format_equivalence_witness :
  let db := Sample.clinic [Sample.booked Sample.office "08:15" "pending"] in
  checkBookingAvailability 3 db (Sample.request Sample.office "08:00") =
  checkBookingAvailability 3 db (Sample.request Sample.office "08:00 AM").
Proof.
  intros db.
  assert (Hx : 0 <= 480 < 1440) by lia.
  exact (proj2 (C5_format_equivalence 3 db "dr-office" Sample.day) 480 Hx).
Defined.

(* ================================================================== *)
(** ** The day of the check                                            *)
(* ================================================================== *)

(** In a zone without clock changes the response does not depend on the day
    on which the check runs. *)
Lemma check_any_day (today today' : Z) (db : Store.t) (body : Body.t) :
  checkBookingAvailability today db body =
  checkBookingAvailability today' db body.
Proof.
  assert (H0 : forall d, checkBookingAvailability d db body =
                         checkBookingAvailability 0 db body).
  { intros d. unfold checkBookingAvailability, appointmentFilter.
    destruct (Store.findOne _ _) as [doctor|]; [|reflexivity].
    unfold Moment.moment, Moment.momentOf.
    rewrite (isBefore_create d), (isAfter_create d).
    rewrite !(format_create d), (format_subtract_create d), (format_add_create d).
    reflexivity. }
  now rewrite (H0 today), (H0 today').
Qed.

(* ================================================================== *)
(** ** The missing doctor                                              *)
(* ================================================================== *)

(** C8, as stated, fails: with no doctor stored for the requested id, the
    check itself answers "Doctor not found", which is none of the four
    outcomes that the claim lists. *)
Lemma C8_counterexample :
  let db := Store.mk [] [] in
  let body := Sample.request Sample.office "10:00" in
  doctorOf db body = None
  /\ checkBookingAvailability 3 db body = NextAppError "Doctor not found" 404
  /\ outcome (checkBookingAvailability 3 db body) = Some DoctorNotFound
  /\ ~ In (outcome (checkBookingAvailability 3 db body))
          [Some InvalidTimeFormat; Some OutOfWorkingHours;
           Some SlotConflict; Some Available].
Proof.
  cbv zeta. repeat split.
  vm_compute. intros [H|[H|[H|[H|[]]]]]; discriminate.
Qed.

(** C8, amended: the check looks the doctor up itself and answers
    "Doctor not found" (404) exactly when no stored doctor has the requested
    id; for every input its outcome is one of DoctorNotFound,
    OutOfWorkingHours, SlotConflict and Available. *)
Theorem C8_outcomes (today : Z) (db : Store.t) (body : Body.t) :
  (doctorOf db body = None <->
   checkBookingAvailability today db body = NextAppError "Doctor not found" 404)
  /\ In (outcome (checkBookingAvailability today db body))
        [Some DoctorNotFound; Some OutOfWorkingHours;
         Some SlotConflict; Some Available].
Proof.
  destruct (doctorOf db body) as [doctor|] eqn:Hdoc.
  - rewrite (check_found _ _ _ _ Hdoc).
    destruct (outsideWorkingHours today doctor body).
    + split; [split; discriminate|].
      rewrite outcome_outOfWorkingHours. cbn. tauto.
    + destruct (existsb _ _); (split; [split; discriminate|]); cbn; tauto.
  - rewrite (check_not_found _ _ _ Hdoc).
    split; [split; reflexivity|]. cbn. tauto.
Qed.

(* ================================================================== *)
(** ** Windows that cross midnight                                     *)
(* ================================================================== *)

(** C9: when the requested time passes the working-hours test and its window
    crosses midnight (requested from 00:00 to 00:29, or from 23:45 to 23:59),
    the text of the window start is greater than the text of the window end,
    the query matches no appointment whatever, and the check answers
    available, even for a store that holds a non-rejected appointment at
    the requested time itself. *)
Theorem C9_midnight_window_matches_nothing
    (today : Z) (db : Store.t) (body : Body.t) (doctor : Doctor.t) (r : Z) :
  doctorOf db body = Some doctor ->
  outsideWorkingHours today doctor body = false ->
  requestedTime today body = Moment.At r ->
  r mod 1440 < 30 \/ 1425 <= r mod 1440 ->
  String.ltb (Moment.format (Moment.add (requestedTime today body) 15) Moment.HH_mm)
             (Moment.format (Moment.subtract (requestedTime today body) 30) Moment.HH_mm)
  = true
  /\ (forall a : Appointment.t,
        appointmentFilter body (Moment.subtract (requestedTime today body) 30)
          (Moment.add (requestedTime today body) 15) a = false)
  /\ checkBookingAvailability today db body = available.
Proof.
  intros Hdoc Hout Hr Hcross.
  assert (Hgt : String.compare (clock24 (r + 15)) (clock24 (r - 30)) = Lt).
  { unfold clock24. rewrite (format_mod (r + 15)), (format_mod (r - 30)).
    fold (clock24 ((r + 15) mod 1440)). fold (clock24 ((r - 30) mod 1440)).
    rewrite compare_clock24 by (apply Z.mod_pos_bound; lia).
    apply Z.compare_lt_iff. minutes_arith. }
  assert (Hwin : forall a, inConflictWindow today body a = false).
  { intros a. unfold inConflictWindow, Store.gte, Store.lte. rewrite Hr.
    cbn [Moment.subtract Moment.add].
    fold (clock24 (r - 30)). fold (clock24 (r + 15)).
    apply not_true_is_false. intros H. apply andb_true_iff in H.
    destruct H as [H1 H2].
    assert (H3 := string_leb_trans _ _ _ H1 H2).
    unfold String.leb in H3. rewrite String.compare_antisym, Hgt in H3.
    discriminate. }
  split; [|split].
  - rewrite Hr. cbn [Moment.subtract Moment.add].
    fold (clock24 (r - 30)). fold (clock24 (r + 15)).
    unfold String.ltb. now rewrite Hgt.
  - intros a. apply not_true_is_false. intros H.
    apply appointmentFilter_true in H. rewrite Hwin in H.
    destruct H as [_ [_ [H _]]]. discriminate.
  - apply (check_available today db body doctor Hdoc Hout).
    intros a _ _ _ _. apply Hwin.
Qed.

Lemma C9_midnight_window_matches_nothing_witness :
  let db := Sample.clinic [Sample.booked Sample.allDay "00:10" "approved"] in
  let body := Sample.request Sample.allDay "00:10" in
  Moment.format (Moment.subtract (requestedTime 3 body) 30) Moment.HH_mm = "23:40"
  /\ Moment.format (Moment.add (requestedTime 3 body) 15) Moment.HH_mm = "00:25"
  /\ checkBookingAvailability 3 db body = available.
Proof.
  intros db body.
  assert (Hcross : (3 * 1440 + 10) mod 1440 < 30 \/ 1425 <= (3 * 1440 + 10) mod 1440)
    by (left; reflexivity).
  split; [reflexivity|]. split; [reflexivity|].
  exact (proj2 (proj2 (C9_midnight_window_matches_nothing 3 db body Sample.allDay
                         (3 * 1440 + 10) eq_refl eq_refl eq_refl Hcross))).
Defined.

(* ================================================================== *)
(** ** Working hours that are no times                                 *)
(* ================================================================== *)

(** C10, as stated, fails: working hours stored as "09:00 AM" and "05:00 PM"
    do parse under "HH:mm", by their leading digits and with the meridiem
    left over, as 09:00 and 05:00; the request for 10:00 is then after the
    end and is rejected as out of working hours. *)
Lemma C10_counterexample :
  let body := Sample.request Sample.meridiem "10:00" in
  doctorOf (Sample.clinic []) body = Some Sample.meridiem
  /\ doctorFromTime 3 Sample.meridiem = Moment.At (3 * 1440 + 9 * 60)
  /\ doctorToTime 3 Sample.meridiem = Moment.At (3 * 1440 + 5 * 60)
  /\ Moment.isAfter (requestedTime 3 body) (doctorToTime 3 Sample.meridiem) = true
  /\ checkBookingAvailability 3 (Sample.clinic []) body =
     NextAppError
       "Please select a time within doctor's working hours 09:00 AM to 05:00 AM"
       400
  /\ outcome (checkBookingAvailability 3 (Sample.clinic []) body)
     = Some OutOfWorkingHours.
Proof.
  cbv zeta. repeat split.
Qed.

(** C10, amended: the stored working hours are parsed under "HH:mm" only;
    for a doctor whose two texts both fail to parse under it, both
    working-hours comparisons are false and no request is rejected as out of
    working hours. *)
Theorem C10_unparseable_hours_never_reject
    (today : Z) (db : Store.t) (body : Body.t) (doctor : Doctor.t) :
  doctorOf db body = Some doctor ->
  Moment.isValid
    (Moment.configFromStringAndFormat (Doctor.fromTime doctor) Moment.HH_mm) = false ->
  Moment.isValid
    (Moment.configFromStringAndFormat (Doctor.toTime doctor) Moment.HH_mm) = false ->
  Moment.isBefore (requestedTime today body) (doctorFromTime today doctor) = false
  /\ Moment.isAfter (requestedTime today body) (doctorToTime today doctor) = false
  /\ outcome (checkBookingAvailability today db body) <> Some OutOfWorkingHours.
Proof.
  intros Hdoc Hf Ht.
  assert (HF : doctorFromTime today doctor = Moment.Invalid)
    by (unfold doctorFromTime, Moment.moment, Moment.create; now rewrite Hf).
  assert (HT : doctorToTime today doctor = Moment.Invalid)
    by (unfold doctorToTime, Moment.moment, Moment.create; now rewrite Ht).
  assert (Hb : Moment.isBefore (requestedTime today body)
                 (doctorFromTime today doctor) = false)
    by (rewrite HF; now destruct (requestedTime today body)).
  assert (Ha : Moment.isAfter (requestedTime today body)
                 (doctorToTime today doctor) = false)
    by (rewrite HT; now destruct (requestedTime today body)).
  split; [exact Hb|]. split; [exact Ha|].
  rewrite (check_found _ _ _ _ Hdoc).
  unfold outsideWorkingHours. rewrite Hb, Ha. cbn [orb].
  destruct (existsb _ _); cbn; discriminate.
Qed.

Lemma C10_unparseable_hours_never_reject_witness :
  outcome (checkBookingAvailability 3 (Sample.clinic [])
             (Sample.request Sample.blank "03:00"))
  <> Some OutOfWorkingHours.
Proof.
  exact (proj2 (proj2 (C10_unparseable_hours_never_reject 3 (Sample.clinic [])
                         (Sample.request Sample.blank "03:00") Sample.blank
                         eq_refl eq_refl eq_refl))).
Defined.

(* ================================================================== *)
(** ** Further facts about the availability check                      *)
(* ================================================================== *)

Section Query.

Lemma existsb_filter_sub {D : Type} (f g : D -> bool) (l : list D) :
  (forall a, f a = true -> g a = true) ->
  existsb f (filter g l) = existsb f l.
Proof.
  intros Hfg. induction l as [|a l IH]; [reflexivity|]. cbn [filter existsb].
  destruct (g a) eqn:Hg; cbn [existsb]; rewrite IH; [reflexivity|].
  destruct (f a) eqn:Hf; [|reflexivity].
  rewrite (Hfg a Hf) in Hg. discriminate.
Qed.

Lemma existsb_incl {D : Type} (f : D -> bool) (l l' : list D) :
  incl l' l -> existsb f l' = true -> existsb f l = true.
Proof.
  intros Hincl H. apply existsb_exists in H. destruct H as [a [Ha Hf]].
  apply existsb_exists. exists a. split; [now apply Hincl | exact Hf].
Qed.

(** The response as a function of the appointment collection, for a fixed
    doctor collection. *)
Lemma check_appointments (today : Z) (doctors : list Doctor.t)
    (appointments : list Appointment.t) (body : Body.t) :
  checkBookingAvailability today (Store.mk doctors appointments) body =
  match doctorOf (Store.mk doctors []) body with
  | None => doctorNotFound
  | Some doctor =>
      if outsideWorkingHours today doctor body
      then outOfWorkingHours
             (Moment.format (doctorFromTime today doctor) Moment.hh_mm_A)
             (Moment.format (doctorToTime today doctor) Moment.hh_mm_A)
      else if existsb (appointmentFilter body
                         (Moment.subtract (requestedTime today body) 30)
                         (Moment.add (requestedTime today body) 15))
                      appointments
      then slotConflict else available
  end.
Proof.
  destruct (doctorOf (Store.mk doctors []) body) as [doctor|] eqn:Hdoc.
  - now rewrite (check_found today (Store.mk doctors appointments) body doctor Hdoc).
  - now rewrite (check_not_found today (Store.mk doctors appointments) body Hdoc).
Qed.

End Query.

(** X2: the check looks at no appointment of another doctor or of another
    date, and at no rejected one: the response is the same on the whole
    collection and on its non-rejected appointments of the requested doctor
    and date. *)
Theorem X2_only_same_doctor_and_date
    (today : Z) (doctors : list Doctor.t) (appointments : list Appointment.t)
    (body : Body.t) :
  checkBookingAvailability today (Store.mk doctors appointments) body =
  checkBookingAvailability today
    (Store.mk doctors
       (filter (fun a =>
                  (Appointment.doctorId a =? Body.doctorId body)%string
                  && (Appointment.date a =? Body.date body)%string
                  && negb (Appointment.status a =? "rejected")%string)
               appointments))
    body.
Proof.
  rewrite !check_appointments.
  destruct (doctorOf _ body) as [doctor|]; [|reflexivity].
  destruct (outsideWorkingHours today doctor body); [reflexivity|].
  rewrite existsb_filter_sub; [reflexivity|].
  intros a Ha. unfold appointmentFilter, Store.eq, Store.ne in Ha.
  rewrite !andb_true_iff in Ha. rewrite !andb_true_iff. tauto.
Qed.

(** X3: fewer appointments never take a free slot away.  When every
    appointment of a smaller collection is in the larger one, an available
    answer on the larger one is an available answer on the smaller one, and
    a conflict on the smaller one is a conflict on the larger one; the order
    and the repetitions of the appointments do not matter. *)
Theorem X3_fewer_appointments_stay_available
    (today : Z) (doctors : list Doctor.t) (more fewer : list Appointment.t)
    (body : Body.t) :
  incl fewer more ->
  (checkBookingAvailability today (Store.mk doctors more) body = available ->
   checkBookingAvailability today (Store.mk doctors fewer) body = available)
  /\ (checkBookingAvailability today (Store.mk doctors fewer) body = slotConflict ->
      checkBookingAvailability today (Store.mk doctors more) body = slotConflict).
Proof.
  intros Hincl. rewrite !check_appointments.
  destruct (doctorOf _ body) as [doctor|]; [|split; intros H; exact H].
  destruct (outsideWorkingHours today doctor body); [split; intros H; exact H|].
  destruct (existsb _ fewer) eqn:Hfewer.
  - rewrite (existsb_incl _ more fewer Hincl Hfewer). split; intros H; exact H.
  - split; [reflexivity | discriminate].
Qed.

Lemma X3_fewer_appointments_stay_available_witness :
  let more := [Sample.booked Sample.office "09:00" "pending";
               Sample.booked Sample.office "12:00" "approved"] in
  let fewer := [Sample.booked Sample.office "12:00" "approved"] in
  checkBookingAvailability 3 (Sample.clinic fewer)
    (Sample.request Sample.office "10:00") = available.
Proof.
  intros more fewer.
  assert (Hincl : incl fewer more).
  { intros a [<-|[]]. right; left; reflexivity. }
  exact (proj1 (X3_fewer_appointments_stay_available 3
                  [Sample.office; Sample.allDay; Sample.meridiem; Sample.blank]
                  more fewer (Sample.request Sample.office "10:00") Hincl)
               eq_refl).
Defined.

(** X4: working hours that end before they start reject every requested
    time; there is no overnight window. *)
Theorem X4_inverted_hours_reject_all
    (today : Z) (db : Store.t) (body : Body.t) (doctor : Doctor.t) (f t r : Z) :
  doctorOf db body = Some doctor ->
  doctorFromTime today doctor = Moment.At f ->
  doctorToTime today doctor = Moment.At t ->
  requestedTime today body = Moment.At r ->
  t < f ->
  checkBookingAvailability today db body =
  outOfWorkingHours (clock12 f) (clock12 t).
Proof.
  intros Hdoc Hf Ht Hr Hinv.
  rewrite (check_found today db body doctor Hdoc).
  rewrite (within_hours _ _ _ _ _ _ Hf Ht Hr).
  replace ((r <? f) || (t <? r)) with true.
  - now rewrite Hf, Ht.
  - symmetry. apply orb_true_iff.
    destruct (Z.lt_ge_cases r f); [left | right]; apply Z.ltb_lt; lia.
Qed.

Lemma X4_inverted_hours_reject_all_witness :
  let night := Doctor.mk "dr-night" "22:00" "06:00" in
  checkBookingAvailability 3 (Store.mk [night] [])
    (Body.mk "dr-night" Sample.day "23:00") =
  NextAppError
    "Please select a time within doctor's working hours 10:00 PM to 06:00 AM" 400.
Proof.
  intros night.
  assert (Hinv : 3 * 1440 + 360 < 3 * 1440 + 1320) by lia.
  exact (X4_inverted_hours_reject_all 3 (Store.mk [night] [])
           (Body.mk "dr-night" Sample.day "23:00") night
           (3 * 1440 + 1320) (3 * 1440 + 360) (3 * 1440 + 1380)
           eq_refl eq_refl eq_refl eq_refl Hinv).
Defined.

(** X5: when only one end of the working hours parses, the other end still
    bounds the requests, and the message shows "Invalid date" for the end
    that does not parse.  With an unparseable start and an end [t], a valid
    requested time is rejected exactly when it is after [t]; with a start
    [f] and an unparseable end, exactly when it is before [f]. *)
Theorem X5_one_end_unparseable
    (today : Z) (db : Store.t) (body : Body.t) (doctor : Doctor.t) (e r : Z) :
  doctorOf db body = Some doctor ->
  requestedTime today body = Moment.At r ->
  (doctorFromTime today doctor = Moment.Invalid ->
   doctorToTime today doctor = Moment.At e ->
   (e < r ->
    checkBookingAvailability today db body =
    outOfWorkingHours "Invalid date" (clock12 e))
   /\ (r <= e ->
       outcome (checkBookingAvailability today db body) <> Some OutOfWorkingHours))
  /\
  (doctorFromTime today doctor = Moment.At e ->
   doctorToTime today doctor = Moment.Invalid ->
   (r < e ->
    checkBookingAvailability today db body =
    outOfWorkingHours (clock12 e) "Invalid date")
   /\ (e <= r ->
       outcome (checkBookingAvailability today db body) <> Some OutOfWorkingHours)).
Proof.
  intros Hdoc Hr.
  rewrite (check_found today db body doctor Hdoc).
  unfold outsideWorkingHours. rewrite Hr.
  split; intros Hf Ht; rewrite Hf, Ht; cbn [Moment.isBefore Moment.isAfter orb].
  - split; intros Hlt.
    + replace (e <? r) with true by (symmetry; apply Z.ltb_lt; lia). reflexivity.
    + replace (e <? r) with false by (symmetry; apply Z.ltb_ge; lia).
      destruct (existsb _ _); cbn; discriminate.
  - rewrite orb_false_r. split; intros Hlt.
    + replace (r <? e) with true by (symmetry; apply Z.ltb_lt; lia). reflexivity.
    + replace (r <? e) with false by (symmetry; apply Z.ltb_ge; lia).
      destruct (existsb _ _); cbn; discriminate.
Qed.

Lemma X5_one_end_unparseable_witness :
  let half := Doctor.mk "dr-half" "morning" "17:00" in
  checkBookingAvailability 3 (Store.mk [half] [])
    (Body.mk "dr-half" Sample.day "18:00") =
  NextAppError
    "Please select a time within doctor's working hours Invalid date to 05:00 PM"
    400.
Proof.
  intros half.
  assert (Hlt : 3 * 1440 + 1020 < 3 * 1440 + 1080) by lia.
  exact (proj1 (proj1 (X5_one_end_unparseable 3 (Store.mk [half] [])
                         (Body.mk "dr-half" Sample.day "18:00") half
                         (3 * 1440 + 1020) (3 * 1440 + 1080) eq_refl eq_refl)
                      eq_refl eq_refl) Hlt).
Defined.

(* ================================================================== *)
(** ** Further facts about the parser                                  *)
(* ================================================================== *)






Section NoDigit.

Lemma match1to2_noDigit (s : string) :
  noDigit s = true -> Regex.match1to2 s = None.
Proof.
  induction s as [|c s IH]; [reflexivity|]. cbn [noDigit Regex.match1to2].
  intros H. apply andb_true_iff in H. destruct H as [Hc Hs].
  apply negb_true_iff in Hc. rewrite Hc. now apply IH.
Qed.

Lemma matchLiteral_noDigit (c : ascii) (s matched rest : string) :
  noDigit s = true -> Regex.matchLiteral c s = Some (matched, rest) ->
  noDigit rest = true.
Proof.
  induction s as [|x s IH]; [discriminate|]. cbn [noDigit Regex.matchLiteral].
  intros H. apply andb_true_iff in H. destruct H as [_ Hs].
  destruct (x =? c)%char.
  - intros Heq. injection Heq as _ <-. exact Hs.
  - now apply IH.
Qed.

Lemma optional_noDigit (p : ascii -> bool) (s : string) :
  noDigit s = true -> noDigit (snd (Regex.optional p s)) = true.
Proof.
  destruct s as [|x s]; [reflexivity|]. cbn [Regex.optional].
  intros H. destruct (p x); cbn [snd]; [|exact H].
  cbn [noDigit] in H. apply andb_true_iff in H. tauto.
Qed.

Lemma matchMeridiem_noDigit (s matched rest : string) :
  noDigit s = true -> Regex.matchMeridiem s = Some (matched, rest) ->
  noDigit rest = true.
Proof.
  induction s as [|x s IH]; [discriminate|]. cbn [noDigit Regex.matchMeridiem].
  intros H. apply andb_true_iff in H. destruct H as [_ Hs].
  destruct (Regex.is_ap x); [|now apply IH].
  assert (H1 := optional_noDigit Regex.is_dot s Hs).
  destruct (Regex.optional Regex.is_dot s) as [d1 r1]. cbn [snd] in H1.
  assert (H2 := optional_noDigit Regex.is_m r1 H1).
  destruct (Regex.optional Regex.is_m r1) as [m r2]. cbn [snd] in H2.
  assert (H3 := optional_noDigit Regex.is_dot r2 H2).
  destruct (Regex.optional Regex.is_dot r2) as [d2 r3]. cbn [snd] in H3.
  intros Heq. injection Heq as _ <-. exact H3.
Qed.

Lemma parseToken_nothingRead (c : Moment.config) (tok : Moment.token) :
  nothingRead c -> nothingRead (Moment.parseToken c tok).
Proof.
  intros [Hin [Hh [Hm He]]]. unfold Moment.parseToken.
  destruct tok; cbn [Moment.getParseRegexForToken Moment.isKnownToken].
  1-3: rewrite (match1to2_noDigit _ Hin); repeat split; assumption.
  - destruct (Regex.matchMeridiem (Moment.input c)) as [[matched rest]|] eqn:Hmatch.
    + repeat split; cbn; try assumption.
      now apply (matchMeridiem_noDigit _ _ _ Hin Hmatch).
    + repeat split; assumption.
  - destruct (Regex.matchLiteral c0 (Moment.input c)) as [[matched rest]|] eqn:Hmatch.
    + repeat split; cbn; try assumption.
      now apply (matchLiteral_noDigit _ _ _ _ Hin Hmatch).
    + repeat split; assumption.
Qed.

Lemma fold_nothingRead (f : list Moment.token) (c : Moment.config) :
  nothingRead c -> nothingRead (fold_left Moment.parseToken f c).
Proof.
  revert c. induction f as [|tok f IH]; intros c Hc; [exact Hc|].
  cbn [fold_left]. apply IH. now apply parseToken_nothingRead.
Qed.

Lemma noDigit_invalid (s : string) (f : list Moment.token) :
  noDigit s = true ->
  Moment.isValid (Moment.configFromStringAndFormat s f) = false.
Proof.
  intros Hs. unfold Moment.configFromStringAndFormat.
  assert (H : nothingRead (fold_left Moment.parseToken f
                             (Moment.mkConfig s None None None 0 true 0))).
  { apply fold_nothingRead. repeat split; try assumption.
    cbn. discriminate. }
  destruct H as [_ [Hh [Hm He]]]. cbn [Moment.isValid].
  rewrite Hh, Hm. cbn [Moment.isSome orb].
  destruct (Moment.empty _) eqn:Hempty.
  - cbn [negb]. now rewrite andb_false_r.
  - rewrite (He eq_refl). cbn [negb orb]. apply andb_false_r.
Qed.

End NoDigit.

(** X8: a text without any digit is no time.  It is invalid as working
    hours under "HH:mm" and as requested time under the two formats; such a
    request for a stored doctor is never rejected as out of hours, and is
    answered available when no appointment has the text "Invalid date" as
    its time. *)
Theorem X8_no_digit_no_time (today : Z) (s : string) :
  noDigit s = true ->
  Moment.moment today s Moment.HH_mm = Moment.Invalid
  /\ Moment.momentOf today s [Moment.HH_mm; Moment.hh_mm_A] = Moment.Invalid
  /\ forall db body doctor,
       Body.time body = s ->
       doctorOf db body = Some doctor ->
       (forall a, In a (Store.appointments db) ->
          Appointment.time a <> "Invalid date") ->
       checkBookingAvailability today db body = available.
Proof.
  intros Hs.
  assert (H2 : Moment.momentOf today s [Moment.HH_mm; Moment.hh_mm_A]
               = Moment.Invalid)
    by (apply momentOf_invalid; now apply noDigit_invalid).
  split; [|split; [exact H2|]].
  - unfold Moment.moment, Moment.create. now rewrite (noDigit_invalid s _ Hs).
  - intros db body doctor Htime Hdoc Hall.
    assert (Hr : requestedTime today body = Moment.Invalid)
      by (unfold requestedTime; now rewrite Htime).
    apply (check_available today db body doctor Hdoc).
    + unfold outsideWorkingHours. now rewrite Hr.
    + intros a Ha _ _ _.
      rewrite (inConflictWindow_invalid today body a Hr).
      apply String.eqb_neq. now apply Hall.
Qed.

Lemma X8_no_digit_no_time_witness :
  checkBookingAvailability 3
    (Sample.clinic [Sample.booked Sample.office "10:00" "approved"])
    (Sample.request Sample.office "tomorrow, please") = available.
Proof.
  apply (proj2 (proj2 (X8_no_digit_no_time 3 "tomorrow, please" eq_refl))
           (Sample.clinic [Sample.booked Sample.office "10:00" "approved"])
           (Sample.request Sample.office "tomorrow, please")
           Sample.office eq_refl eq_refl).
  intros a [<-|[]]. discriminate.
Defined.

Section Unpadded.

Lemma clock24_first_char (y : Z) :
  exists k rest, clock24 y = String (digitChar k) rest /\ 0 <= k <= 2.
Proof.
  exists (Moment.hours y / 10).
  exists (String (digitChar (Moment.hours y mod 10))
            (String ":" (zeroFill2 (Moment.minute y)))).
  split; [reflexivity|].
  unfold Moment.hours, Moment.minutesPerDay. minutes_arith.
Qed.

Lemma leb_above_clock24 (c : ascii) (rest : string) (y : Z) :
  (50 < N_of_ascii c)%N -> String.leb (String c rest) (clock24 y) = false.
Proof.
  intros Hc. destruct (clock24_first_char y) as [k [tail [-> Hk]]].
  unfold String.leb. cbn [String.compare]. unfold Ascii.compare, digitChar.
  rewrite N_ascii_embedding by lia.
  destruct (N.compare_spec (N_of_ascii c) (Z.to_N (48 + k))) as [H|H|H];
    [lia | lia | reflexivity].
Qed.

End Unpadded.

(* ================================================================== *)
(** ** The collections                                                 *)
(* ================================================================== *)

Section Collections.

Context {D : Type}.
Variables (filter : D -> bool) (update : D -> D).

(** Where [findOne] finds its document: the first one that passes. *)
Lemma findOne_split (docs : list D) (d : D) :
  Store.findOne filter docs = Some d ->
  exists before after,
    docs = (before ++ d :: after)%list
    /\ filter d = true
    /\ forall x, In x before -> filter x = false.
Proof.
  unfold Store.findOne. induction docs as [|x docs IH]; [discriminate|].
  cbn [find]. destruct (filter x) eqn:Hx.
  - intros Heq. injection Heq as <-. exists [], docs.
    split; [reflexivity|]. split; [exact Hx|]. intros y [].
  - intros Hd. destruct (IH Hd) as [before [after [-> [Hfd Hbefore]]]].
    exists (x :: before), after. split; [reflexivity|]. split; [exact Hfd|].
    intros y [<-|Hy]; [exact Hx | now apply Hbefore].
Qed.

Lemma findOne_first (before after : list D) (d : D) :
  filter d = true -> (forall x, In x before -> filter x = false) ->
  Store.findOne filter (before ++ d :: after)%list = Some d.
Proof.
  unfold Store.findOne. intros Hd. induction before as [|x before IH]; intros Hb.
  - cbn. now rewrite Hd.
  - cbn. rewrite (Hb x (or_introl eq_refl)). apply IH.
    intros y Hy. apply Hb. now right.
Qed.

Lemma findOne_none (docs : list D) :
  Store.findOne filter docs = None <-> forall x, In x docs -> filter x = false.
Proof.
  unfold Store.findOne. split.
  - intros H x Hx. now apply (find_none filter docs H).
  - intros H. induction docs as [|x docs IH]; [reflexivity|].
    cbn. rewrite (H x (or_introl eq_refl)). apply IH.
    intros y Hy. apply H. now right.
Qed.

Lemma findOneAndUpdate_first (before after : list D) (d : D) :
  filter d = true -> (forall x, In x before -> filter x = false) ->
  Database.findOneAndUpdate filter update (before ++ d :: after)%list =
  (Some (update d), (before ++ update d :: after)%list).
Proof.
  intros Hd. induction before as [|x before IH]; intros Hb.
  - cbn. now rewrite Hd.
  - cbn. rewrite (Hb x (or_introl eq_refl)).
    rewrite IH; [reflexivity|]. intros y Hy. apply Hb. now right.
Qed.

Lemma findOne_skip (before after : list D) (x y : D) :
  filter x = false -> filter y = false ->
  Store.findOne filter (before ++ y :: after)%list =
  Store.findOne filter (before ++ x :: after)%list.
Proof.
  intros Hx Hy. unfold Store.findOne.
  induction before as [|z before IH]; cbn.
  - now rewrite Hx, Hy.
  - destruct (filter z); [reflexivity | exact IH].
Qed.

Lemma NoDup_snoc {E : Type} (l : list E) (x : E) :
  NoDup l -> ~ In x l -> NoDup (l ++ [x])%list.
Proof.
  induction l as [|y l IH]; intros Hl Hx.
  - cbn. constructor; [intros [] | constructor].
  - inversion Hl as [|? ? Hy Hl']; subst. cbn. constructor.
    + intros Hin. apply in_app_or in Hin. destruct Hin as [Hin|[<-|[]]].
      * now apply Hy.
      * apply Hx. now left.
    + apply IH; [exact Hl'|]. intros Hin. apply Hx. now right.
Qed.

Lemma findOneAndUpdate_none (docs : list D) :
  (forall x, In x docs -> filter x = false) ->
  Database.findOneAndUpdate filter update docs = (None, docs).
Proof.
  induction docs as [|x docs IH]; intros H; [reflexivity|].
  cbn. rewrite (H x (or_introl eq_refl)).
  rewrite IH; [reflexivity|]. intros y Hy. apply H. now right.
Qed.

End Collections.

Section Views.

Lemma findOne_map {D E : Type} (view : D -> E) (p : E -> bool) (docs : list D) :
  Store.findOne p (map view docs) =
  option_map view (Store.findOne (fun d => p (view d)) docs).
Proof.
  unfold Store.findOne. induction docs as [|d docs IH]; [reflexivity|].
  cbn. destruct (p (view d)); [reflexivity | exact IH].
Qed.

(** The doctor that the availability check finds is the one that
    [getDoctor] finds. *)
Lemma doctorOf_store (db : Database.t) (body : Body.t) :
  doctorOf (Database.store db) body =
  option_map DoctorDoc.hours
    (Store.findOne (fun d => Store.eq (DoctorDoc.userId d) (Body.doctorId body))
                   (Database.doctors db)).
Proof.
  unfold doctorOf, Database.store. cbn [Store.doctors].
  apply (findOne_map DoctorDoc.hours
           (fun d => Store.eq (Doctor.userId d) (Body.doctorId body))).
Qed.

End Views.

(** X10: the three handlers that look a doctor up agree on who is stored.
    The availability check answers "Doctor not found" exactly when
    [getDoctor] does for the same id, and exactly when [doctorAppointments]
    does. *)
Theorem X10_lookups_agree (today : Z) (db : Database.t) (body : Body.t) :
  (checkAvailability today db body = NextAppError "Doctor not found" 404
   <-> getDoctor db (Body.doctorId body) = NextError "Doctor not found" 404)
  /\ (getDoctor db (Body.doctorId body) = NextError "Doctor not found" 404
      <-> doctorAppointments db (Body.doctorId body)
          = NextError "Doctor not found" 404).
Proof.
  unfold checkAvailability, getDoctor, doctorAppointments.
  destruct (Store.findOne _ (Database.doctors db)) as [d|] eqn:Hd.
  - assert (Hdoc : doctorOf (Database.store db) body = Some (DoctorDoc.hours d))
      by (rewrite doctorOf_store; now rewrite Hd).
    rewrite (check_found today _ body _ Hdoc).
    split; split; try discriminate.
    destruct (outsideWorkingHours _ _ _); [discriminate|].
    destruct (existsb _ _); discriminate.
  - assert (Hdoc : doctorOf (Database.store db) body = None)
      by (rewrite doctorOf_store; now rewrite Hd).
    rewrite (check_not_found today _ body Hdoc). repeat split.
Qed.

(* ================================================================== *)
(** ** Signing up                                                      *)
(* ================================================================== *)

Section Signup.

Variables (newId : string) (db : Database.t) (body : DoctorBody.t).

(** The document that an accepted signup stores. *)
Lemma doctorSignup_accepted :
  (forall d, In d (Database.doctors db) ->
     DoctorDoc.email d <> DoctorBody.email body) ->
  fst (doctorSignup newId db body) = Json 200 true "Doctor account applied successfully"
  /\ Database.doctors (snd (doctorSignup newId db body)) =
     (Database.doctors db ++
      [DoctorDoc.mk newId (DoctorBody.userId body) (DoctorBody.email body)
         (DoctorBody.fullName body) (DoctorBody.fromTime body)
         (DoctorBody.toTime body) "pending"])%list
  /\ Database.appointments (snd (doctorSignup newId db body)) =
     Database.appointments db.
Proof.
  intros Hfresh. unfold doctorSignup.
  replace (Store.findOne _ (Database.doctors db)) with (@None DoctorDoc.t).
  - repeat split.
  - symmetry. apply findOne_none. intros d Hd.
    unfold Store.eq. apply String.eqb_neq. now apply Hfresh.
Qed.

Lemma doctorSignup_refused (d : DoctorDoc.t) :
  In d (Database.doctors db) -> DoctorDoc.email d = DoctorBody.email body ->
  doctorSignup newId db body =
  (NextAppError "Doctor already applied. Please contact your admin clinic." 400,
   db).
Proof.
  intros Hd Hemail. unfold doctorSignup.
  destruct (Store.findOne _ (Database.doctors db)) as [e|] eqn:Hfind;
    [reflexivity|].
  exfalso. rewrite findOne_none in Hfind. specialize (Hfind d Hd).
  unfold Store.eq in Hfind. rewrite Hemail, String.eqb_refl in Hfind.
  discriminate.
Qed.

End Signup.

(** X11: one application per email.  A signup whose email is already stored
    is refused with 400 and changes nothing; a signup with a new email is
    accepted, and from then on every signup with that email is refused and
    changes nothing, whatever its other fields. *)
Theorem X11_one_signup_per_email
    (newId : string) (db : Database.t) (body : DoctorBody.t) :
  ((exists d, In d (Database.doctors db)
              /\ DoctorDoc.email d = DoctorBody.email body) ->
   doctorSignup newId db body =
   (NextAppError "Doctor already applied. Please contact your admin clinic." 400,
    db))
  /\
  ((forall d, In d (Database.doctors db) ->
      DoctorDoc.email d <> DoctorBody.email body) ->
   fst (doctorSignup newId db body) =
     Json 200 true "Doctor account applied successfully"
   /\ forall newId' body',
        DoctorBody.email body' = DoctorBody.email body ->
        doctorSignup newId' (snd (doctorSignup newId db body)) body' =
        (NextAppError "Doctor already applied. Please contact your admin clinic." 400,
         snd (doctorSignup newId db body))).
Proof.
  split.
  - intros [d [Hd Hemail]]. now apply (doctorSignup_refused newId db body d).
  - intros Hfresh.
    destruct (doctorSignup_accepted newId db body Hfresh) as [Hreply [Hdocs _]].
    split; [exact Hreply|]. intros newId' body' Hemail.
    apply (doctorSignup_refused newId' _ body'
             (DoctorDoc.mk newId (DoctorBody.userId body) (DoctorBody.email body)
                (DoctorBody.fullName body) (DoctorBody.fromTime body)
                (DoctorBody.toTime body) "pending")).
    + rewrite Hdocs. apply in_or_app. right. left. reflexivity.
    + cbn. now rewrite Hemail.
Qed.

Lemma X11_one_signup_per_email_witness :
  let body := DoctorBody.mk "u7" "grey@clinic.org" "Dr Grey" "09:00" "17:00" "approved" in
  let db := Database.mk [] [] [] in
  doctorSignup "id2" (snd (doctorSignup "id1" db body)) body =
  (NextAppError "Doctor already applied. Please contact your admin clinic." 400,
   snd (doctorSignup "id1" db body)).
Proof.
  intros body db.
  assert (Hfresh : forall d, In d (Database.doctors db) ->
            DoctorDoc.email d <> DoctorBody.email body) by (intros d []).
  exact (proj2 (proj2 (X11_one_signup_per_email "id1" db body) Hfresh)
           "id2" body eq_refl).
Defined.

(** X12: a signup cannot approve itself.  Whatever status the request
    carries, the stored application has status "pending", and the list of
    approved doctors is the same after the signup as before. *)
Theorem X12_signup_is_pending
    (newId : string) (db : Database.t) (body : DoctorBody.t) :
  (forall d, In d (Database.doctors db) ->
     DoctorDoc.email d <> DoctorBody.email body) ->
  (exists d, In d (Database.doctors (snd (doctorSignup newId db body)))
             /\ DoctorDoc.email d = DoctorBody.email body
             /\ DoctorDoc._id d = newId
             /\ DoctorDoc.status d = "pending")
  /\ (forall d, In d (Database.doctors (snd (doctorSignup newId db body))) ->
        DoctorDoc.email d = DoctorBody.email body ->
        DoctorDoc.status d = "pending")
  /\ getAllApprovedDoctors (snd (doctorSignup newId db body))
     = getAllApprovedDoctors db.
Proof.
  intros Hfresh.
  destruct (doctorSignup_accepted newId db body Hfresh) as [_ [Hdocs _]].
  split; [|split].
  - eexists. rewrite Hdocs. split; [apply in_or_app; right; left; reflexivity|].
    repeat split.
  - intros d Hd Hemail. rewrite Hdocs in Hd. apply in_app_or in Hd.
    destruct Hd as [Hd|[<-|[]]]; [|reflexivity].
    exfalso. now apply (Hfresh d Hd).
  - unfold getAllApprovedDoctors, Store.find. rewrite Hdocs.
    rewrite filter_app. cbn. now rewrite app_nil_r.
Qed.

Lemma X12_signup_is_pending_witness :
  let body := DoctorBody.mk "u7" "grey@clinic.org" "Dr Grey" "09:00" "17:00" "approved" in
  getAllApprovedDoctors (snd (doctorSignup "id1" (Database.mk [] [] []) body))
  = getAllApprovedDoctors (Database.mk [] [] []).
Proof.
  intros body.
  assert (Hfresh : forall d, In d (Database.doctors (Database.mk [] [] [])) ->
            DoctorDoc.email d <> DoctorBody.email body) by (intros d []).
  exact (proj2 (proj2 (X12_signup_is_pending "id1" (Database.mk [] [] []) body Hfresh))).
Defined.

(** X13: signups keep the emails of the stored doctors distinct.  If no two
    stored doctors share an email, no two do after a signup, accepted or
    refused. *)
Theorem X13_emails_stay_distinct
    (newId : string) (db : Database.t) (body : DoctorBody.t) :
  NoDup (map DoctorDoc.email (Database.doctors db)) ->
  NoDup (map DoctorDoc.email
           (Database.doctors (snd (doctorSignup newId db body)))).
Proof.
  intros Hnodup. unfold doctorSignup.
  destruct (Store.findOne _ (Database.doctors db)) as [e|] eqn:Hfind;
    [exact Hnodup|].
  cbn [snd Database.doctors]. rewrite map_app. cbn [map DoctorDoc.email].
  rewrite findOne_none in Hfind.
  apply NoDup_snoc; [exact Hnodup|].
  intros Hin. apply in_map_iff in Hin. destruct Hin as [d [Hemail Hd]].
  specialize (Hfind d Hd). unfold Store.eq in Hfind.
  rewrite Hemail, String.eqb_refl in Hfind. discriminate.
Qed.

Lemma X13_emails_stay_distinct_witness :
  let body := DoctorBody.mk "u7" "grey@clinic.org" "Dr Grey" "09:00" "17:00" "approved" in
  NoDup (map DoctorDoc.email
           (Database.doctors (snd (doctorSignup "id1" (Database.mk [] [] []) body)))).
Proof.
  intros body.
  exact (X13_emails_stay_distinct "id1" (Database.mk [] [] []) body (NoDup_nil _)).
Defined.

Section Saving.

Lemma saveUser_split (before after : list User.t) (u u' : User.t) :
  NoDup (map User._id (before ++ u :: after)%list) ->
  User._id u' = User._id u ->
  Database.saveUser u' (before ++ u :: after)%list = (before ++ u' :: after)%list.
Proof.
  intros Hnodup Hid. unfold Database.saveUser.
  rewrite (findOneAndUpdate_first _ (fun _ => u') before after u).
  - reflexivity.
  - unfold Store.eq. rewrite Hid. apply String.eqb_refl.
  - intros x Hx. unfold Store.eq. apply String.eqb_neq. rewrite Hid.
    intros Heq. rewrite map_app in Hnodup. cbn [map] in Hnodup.
    apply NoDup_remove_2 in Hnodup. apply Hnodup.
    apply in_or_app. left. rewrite <- Heq. now apply in_map.
Qed.

End Saving.

(** X14: an accepted signup tells the first admin, and only that user.
    With distinct user ids, the first user marked admin gets one more entry
    at the end of the unseen notifications, naming the applicant, and every
    other user is left as stored; without any admin the users are left as
    stored and the signup is accepted all the same. *)
Theorem X14_signup_notifies_first_admin
    (newId : string) (db : Database.t) (body : DoctorBody.t) :
  (forall d, In d (Database.doctors db) ->
     DoctorDoc.email d <> DoctorBody.email body) ->
  NoDup (map User._id (Database.users db)) ->
  (forall adminUser,
     Store.findOne User.isAdmin (Database.users db) = Some adminUser ->
     exists before after,
       Database.users db = (before ++ adminUser :: after)%list
       /\ (forall u, In u before -> User.isAdmin u = false)
       /\ Database.users (snd (doctorSignup newId db body)) =
          (before ++
           User.mk (User._id adminUser) (User.name adminUser)
             (User.isAdmin adminUser)
             (User.unseenNotifications adminUser ++
              [Notification.mk "new-doctor-request"
                 (DoctorBody.fullName body ++ " has requested to join as a doctor.")
                 [("doctorId", newId); ("name", DoctorBody.fullName body)]
                 "/admin/doctors"])
           :: after)%list)
  /\ (Store.findOne User.isAdmin (Database.users db) = None ->
      Database.users (snd (doctorSignup newId db body)) = Database.users db
      /\ fst (doctorSignup newId db body) =
         Json 200 true "Doctor account applied successfully").
Proof.
  intros Hfresh Hnodup.
  assert (Hnone : Store.findOne
            (fun d => Store.eq (DoctorDoc.email d) (DoctorBody.email body))
            (Database.doctors db) = None).
  { apply findOne_none. intros d Hd. unfold Store.eq.
    apply String.eqb_neq. now apply Hfresh. }
  split.
  - intros adminUser Hadmin.
    destruct (findOne_split _ _ _ Hadmin) as [before [after [Husers [_ Hbefore]]]].
    exists before, after. split; [exact Husers|]. split; [exact Hbefore|].
    unfold doctorSignup. rewrite Hnone, Hadmin. cbn [snd Database.users].
    rewrite Husers. rewrite Husers in Hnodup.
    now apply saveUser_split.
  - intros Hadmin. unfold doctorSignup. rewrite Hnone, Hadmin. split; reflexivity.
Qed.

Lemma X14_signup_notifies_first_admin_witness :
  let body := DoctorBody.mk "u7" "grey@clinic.org" "Dr Grey" "09:00" "17:00" "approved" in
  let bob := User.mk "u2" "Bob" true [] in
  let db := Database.mk [] [User.mk "u1" "Ann" false []; bob] [] in
  exists before after,
    Database.users db = (before ++ bob :: after)%list
    /\ (forall u, In u before -> User.isAdmin u = false)
    /\ Database.users (snd (doctorSignup "id1" db body)) =
       (before ++
        User.mk "u2" "Bob" true
          [Notification.mk "new-doctor-request"
             "Dr Grey has requested to join as a doctor."
             [("doctorId", "id1"); ("name", "Dr Grey")] "/admin/doctors"]
        :: after)%list.
Proof.
  intros body bob db.
  assert (Hfresh : forall d, In d (Database.doctors db) ->
            DoctorDoc.email d <> DoctorBody.email body) by (intros d []).
  assert (Hnodup : NoDup (map User._id (Database.users db))).
  { cbn. constructor; [intros [H|[]]; discriminate|].
    constructor; [intros []|constructor]. }
  exact (proj1 (X14_signup_notifies_first_admin "id1" db body Hfresh Hnodup)
           bob eq_refl).
Defined.

Section Availability.

(** The availability check on the collections, by the doctor it finds. *)
Lemma checkAvailability_found (today : Z) (db : Database.t) (body : Body.t)
    (d : DoctorDoc.t) :
  Store.findOne (fun d => Store.eq (DoctorDoc.userId d) (Body.doctorId body))
                (Database.doctors db) = Some d ->
  checkAvailability today db body =
  if outsideWorkingHours today (DoctorDoc.hours d) body
  then outOfWorkingHours
         (Moment.format (doctorFromTime today (DoctorDoc.hours d)) Moment.hh_mm_A)
         (Moment.format (doctorToTime today (DoctorDoc.hours d)) Moment.hh_mm_A)
  else if existsb (appointmentFilter body
                     (Moment.subtract (requestedTime today body) 30)
                     (Moment.add (requestedTime today body) 15))
                  (map AppointmentDoc.slot (Database.appointments db))
  then slotConflict else available.
Proof.
  intros Hd. unfold checkAvailability.
  assert (Hdoc : doctorOf (Database.store db) body = Some (DoctorDoc.hours d))
    by (rewrite doctorOf_store; now rewrite Hd).
  now rewrite (check_found today _ body _ Hdoc).
Qed.

Lemma checkAvailability_not_found (today : Z) (db : Database.t) (body : Body.t) :
  Store.findOne (fun d => Store.eq (DoctorDoc.userId d) (Body.doctorId body))
                (Database.doctors db) = None ->
  checkAvailability today db body = doctorNotFound.
Proof.
  intros Hd. unfold checkAvailability.
  assert (Hdoc : doctorOf (Database.store db) body = None)
    by (rewrite doctorOf_store; now rewrite Hd).
  now rewrite (check_not_found today _ body Hdoc).
Qed.

Lemma checkAvailability_known (today : Z) (db : Database.t) (body : Body.t)
    (d : DoctorDoc.t) :
  Store.findOne (fun d => Store.eq (DoctorDoc.userId d) (Body.doctorId body))
                (Database.doctors db) = Some d ->
  checkAvailability today db body <> doctorNotFound.
Proof.
  intros Hd. rewrite (checkAvailability_found today db body d Hd).
  destruct (outsideWorkingHours _ _ _); [discriminate|].
  destruct (existsb _ _); discriminate.
Qed.

End Availability.

(** X15: a signup does not disturb the bookings of the doctors already
    stored, and the applicant can be booked at once.  For a doctor id that
    was already stored, the availability check answers after the signup what
    it answered before.  For the id of an accepted applicant that was not
    stored before, the check answers "Doctor not found" before the signup
    and no longer after it, although the application is only pending. *)
Theorem X15_signup_and_availability
    (today : Z) (newId : string) (db : Database.t) (body : DoctorBody.t)
    (request : Body.t) :
  (forall d,
     Store.findOne (fun d => Store.eq (DoctorDoc.userId d) (Body.doctorId request))
                   (Database.doctors db) = Some d ->
     checkAvailability today (snd (doctorSignup newId db body)) request =
     checkAvailability today db request)
  /\
  ((forall d, In d (Database.doctors db) ->
      DoctorDoc.email d <> DoctorBody.email body) ->
   (forall d, In d (Database.doctors db) ->
      DoctorDoc.userId d <> DoctorBody.userId body) ->
   Body.doctorId request = DoctorBody.userId body ->
   checkAvailability today db request = doctorNotFound
   /\ checkAvailability today (snd (doctorSignup newId db body)) request
      <> doctorNotFound).
Proof.
  split.
  - intros d Hd. unfold doctorSignup.
    destruct (Store.findOne
                (fun e => Store.eq (DoctorDoc.email e) (DoctorBody.email body))
                (Database.doctors db)) as [e|]; [reflexivity|].
    cbn [snd].
    destruct (findOne_split _ _ _ Hd) as [before [after [Hdocs [Hfd Hbefore]]]].
    rewrite (checkAvailability_found today db request d Hd).
    rewrite (checkAvailability_found today _ request d); [reflexivity|].
    cbn [Database.doctors]. rewrite Hdocs, <- app_assoc. cbn [app].
    now apply findOne_first.
  - intros Hfresh Hnew Hid. split.
    + apply checkAvailability_not_found. apply findOne_none.
      intros d Hd. unfold Store.eq. apply String.eqb_neq. rewrite Hid.
      now apply Hnew.
    + destruct (doctorSignup_accepted newId db body Hfresh) as [_ [Hdocs _]].
      apply (checkAvailability_known today _ request
               (DoctorDoc.mk newId (DoctorBody.userId body) (DoctorBody.email body)
                  (DoctorBody.fullName body) (DoctorBody.fromTime body)
                  (DoctorBody.toTime body) "pending")).
      rewrite Hdocs. apply findOne_first.
      * unfold Store.eq. cbn. rewrite Hid. apply String.eqb_refl.
      * intros d Hd. unfold Store.eq. apply String.eqb_neq. rewrite Hid.
        now apply Hnew.
Qed.

Lemma X15_signup_and_availability_witness :
  let body := DoctorBody.mk "u7" "grey@clinic.org" "Dr Grey" "09:00" "17:00" "approved" in
  let db := Database.mk [] [] [] in
  let request := Body.mk "u7" Sample.day "10:00" in
  checkAvailability 3 db request = doctorNotFound
  /\ checkAvailability 3 (snd (doctorSignup "id1" db body)) request <> doctorNotFound.
Proof.
  intros body db request.
  assert (Hfresh : forall d, In d (Database.doctors db) ->
            DoctorDoc.email d <> DoctorBody.email body) by (intros d []).
  assert (Hnew : forall d, In d (Database.doctors db) ->
            DoctorDoc.userId d <> DoctorBody.userId body) by (intros d []).
  exact (proj2 (X15_signup_and_availability 3 "id1" db body request)
           Hfresh Hnew eq_refl).
Defined.

(* ================================================================== *)
(** ** Updating a doctor                                               *)
(* ================================================================== *)

Section Update.

Variables (db : Database.t) (id : string) (body : DoctorUpdate.t).

Lemma updateDoctor_found (d : DoctorDoc.t) :
  Store.findOne (fun d => Store.eq (DoctorDoc.userId d) id) (Database.doctors db)
  = Some d ->
  exists before after,
    Database.doctors db = (before ++ d :: after)%list
    /\ (forall x, In x before -> DoctorDoc.userId x <> id)
    /\ DoctorDoc.userId d = id
    /\ updateDoctor db id body =
       (JsonData 200 true "Doctor updated successfully" (DoctorUpdate.apply body d),
        Database.mk (before ++ DoctorUpdate.apply body d :: after)%list
                    (Database.users db) (Database.appointments db)).
Proof.
  intros Hd.
  destruct (findOne_split _ _ _ Hd) as [before [after [Hdocs [Hfd Hbefore]]]].
  exists before, after. split; [exact Hdocs|].
  split; [intros x Hx; apply String.eqb_neq; now apply Hbefore|].
  split; [now apply String.eqb_eq|].
  unfold updateDoctor. rewrite Hdocs.
  now rewrite (findOneAndUpdate_first _ (DoctorUpdate.apply body) before after d Hfd Hbefore).
Qed.

Lemma updateDoctor_not_found :
  Store.findOne (fun d => Store.eq (DoctorDoc.userId d) id) (Database.doctors db)
  = None ->
  updateDoctor db id body = (NextError "Doctor not found" 404, db).
Proof.
  intros Hd. unfold updateDoctor. rewrite findOne_none in Hd.
  now rewrite (findOneAndUpdate_none _ (DoctorUpdate.apply body) _ Hd).
Qed.

End Update.

(** X16: an update for an id that [getDoctor] does not find is answered 404
    and changes nothing; any update keeps the number of doctors, the users
    and the appointments. *)
Theorem X16_update_unknown_doctor
    (db : Database.t) (id : string) (body : DoctorUpdate.t) :
  (getDoctor db id = NextError "Doctor not found" 404 ->
   updateDoctor db id body = (NextError "Doctor not found" 404, db))
  /\ List.length (Database.doctors (snd (updateDoctor db id body)))
     = List.length (Database.doctors db)
  /\ Database.users (snd (updateDoctor db id body)) = Database.users db
  /\ Database.appointments (snd (updateDoctor db id body))
     = Database.appointments db.
Proof.
  unfold getDoctor.
  destruct (Store.findOne _ (Database.doctors db)) as [d|] eqn:Hd.
  - destruct (updateDoctor_found db id body d Hd)
      as [before [after [Hdocs [_ [_ Hupd]]]]].
    rewrite Hupd. cbn [snd Database.doctors Database.users Database.appointments].
    split; [discriminate|]. split; [|split; reflexivity].
    rewrite Hdocs, !length_app. reflexivity.
  - rewrite (updateDoctor_not_found db id body Hd). repeat split.
Qed.

(** X17: an update is read back.  When the update leaves the user id alone,
    [getDoctor] for that id then returns the very document that the update
    returned, which is the stored one with the fields of the request set;
    and [getDoctor] for any other id returns what it returned before. *)
Theorem X17_update_then_get
    (db : Database.t) (id : string) (body : DoctorUpdate.t) (d : DoctorDoc.t) :
  getDoctor db id = JsonData 200 true "Doctor fetched successfully" d ->
  DoctorUpdate.userId body = None ->
  fst (updateDoctor db id body) =
    JsonData 200 true "Doctor updated successfully" (DoctorUpdate.apply body d)
  /\ getDoctor (snd (updateDoctor db id body)) id =
     JsonData 200 true "Doctor fetched successfully" (DoctorUpdate.apply body d)
  /\ forall id', id' <> id ->
       getDoctor (snd (updateDoctor db id body)) id' = getDoctor db id'.
Proof.
  unfold getDoctor at 1.
  destruct (Store.findOne _ (Database.doctors db)) as [d'|] eqn:Hd;
    [|discriminate].
  intros Heq Hbody. injection Heq as ->.
  destruct (updateDoctor_found db id body d Hd)
    as [before [after [Hdocs [Hbefore [Hid Hupd]]]]].
  rewrite Hupd. cbn [fst snd].
  assert (Hsame : DoctorDoc.userId (DoctorUpdate.apply body d) = DoctorDoc.userId d)
    by (cbn; now rewrite Hbody).
  split; [reflexivity|]. split.
  - unfold getDoctor. cbn [Database.doctors].
    rewrite (findOne_first _ before after (DoctorUpdate.apply body d)).
    + reflexivity.
    + unfold Store.eq. rewrite Hsame, Hid. apply String.eqb_refl.
    + intros x Hx. apply String.eqb_neq. now apply Hbefore.
  - intros id' Hid'. unfold getDoctor. cbn [Database.doctors]. rewrite Hdocs.
    rewrite (findOne_skip _ before after d (DoctorUpdate.apply body d));
      [reflexivity | |]; unfold Store.eq; rewrite ?Hsame;
      apply String.eqb_neq; congruence.
Qed.

Lemma X17_update_then_get_witness :
  let grey := DoctorDoc.mk "id1" "u7" "grey@clinic.org" "Dr Grey" "09:00" "17:00" "pending" in
  let db := Database.mk [grey] [] [] in
  let body := DoctorUpdate.mk None None None (Some "10:00") None None in
  getDoctor (snd (updateDoctor db "u7" body)) "u7" =
  JsonData 200 true "Doctor fetched successfully"
    (DoctorDoc.mk "id1" "u7" "grey@clinic.org" "Dr Grey" "10:00" "17:00" "pending").
Proof.
  intros grey db body.
  exact (proj1 (proj2 (X17_update_then_get db "u7" body grey eq_refl eq_refl))).
Defined.



(** X19: the update sets whatever status it is given.  An update that
    carries the status "approved" for a stored doctor, pending or not, puts
    that doctor on the list of approved doctors. *)
Theorem X19_update_can_approve
    (db : Database.t) (id : string) (d : DoctorDoc.t) :
  getDoctor db id = JsonData 200 true "Doctor fetched successfully" d ->
  let db' := snd (updateDoctor db id
                    (DoctorUpdate.mk None None None None None (Some "approved"))) in
  exists d' approved,
    getDoctor db' id = JsonData 200 true "Doctor fetched successfully" d'
    /\ DoctorDoc._id d' = DoctorDoc._id d
    /\ DoctorDoc.status d' = "approved"
    /\ getAllApprovedDoctors db' =
       JsonData 200 true "Approved doctors fetched successfully" approved
    /\ In d' approved.
Proof.
  intros Heq db'. unfold getDoctor in Heq.
  destruct (Store.findOne (fun e => Store.eq (DoctorDoc.userId e) id)
              (Database.doctors db)) as [d0|] eqn:Hd; [|discriminate].
  injection Heq as ->.
  set (body := DoctorUpdate.mk None None None None None (Some "approved")) in *.
  destruct (updateDoctor_found db id body d Hd)
    as [before [after [Hdocs [Hbefore [Hdid Hupd]]]]].
  exists (DoctorUpdate.apply body d).
  eexists. unfold db'. rewrite Hupd. cbn [snd].
  split; [|split; [reflexivity|split; [reflexivity|split; [reflexivity|]]]].
  - unfold getDoctor. cbn [Database.doctors].
    rewrite (findOne_first _ before after (DoctorUpdate.apply body d));
      [reflexivity | |].
    + unfold Store.eq. cbn. rewrite Hdid. apply String.eqb_refl.
    + intros x Hx. apply String.eqb_neq. now apply Hbefore.
  - cbn [Database.doctors]. unfold Store.find. apply filter_In.
    split; [apply in_or_app; right; left; reflexivity | reflexivity].
Qed.

Lemma X19_update_can_approve_witness :
  let grey := DoctorDoc.mk "id1" "u7" "grey@clinic.org" "Dr Grey" "09:00" "17:00" "pending" in
  let db := Database.mk [grey] [] [] in
  let db' := snd (updateDoctor db "u7"
                    (DoctorUpdate.mk None None None None None (Some "approved"))) in
  exists d' approved,
    getDoctor db' "u7" = JsonData 200 true "Doctor fetched successfully" d'
    /\ DoctorDoc._id d' = "id1"
    /\ DoctorDoc.status d' = "approved"
    /\ getAllApprovedDoctors db' =
       JsonData 200 true "Approved doctors fetched successfully" approved
    /\ In d' approved.
Proof.
  intros grey db.
  exact (X19_update_can_approve db "u7" grey eq_refl).
Defined.

(* ================================================================== *)
(** ** Changing the status of an appointment                           *)
(* ================================================================== *)

Section Status.

Variables (db : Database.t) (appointmentId status : string).

Lemma changeAppointmentStatus_found (a : AppointmentDoc.t) :
  Store.findOne (fun a => Store.eq (AppointmentDoc._id a) appointmentId)
                (Database.appointments db) = Some a ->
  exists before after,
    Database.appointments db = (before ++ a :: after)%list
    /\ (forall x, In x before -> AppointmentDoc._id x <> appointmentId)
    /\ AppointmentDoc._id a = appointmentId
    /\ fst (changeAppointmentStatus db appointmentId status) =
       Json 200 true "Appointment status changed successfully"
    /\ Database.appointments (snd (changeAppointmentStatus db appointmentId status))
       = (before ++ AppointmentDoc.setStatus status a :: after)%list
    /\ Database.doctors (snd (changeAppointmentStatus db appointmentId status))
       = Database.doctors db.
Proof.
  intros Ha.
  destruct (findOne_split _ _ _ Ha) as [before [after [Happs [Hfa Hbefore]]]].
  exists before, after. split; [exact Happs|].
  split; [intros x Hx; apply String.eqb_neq; now apply Hbefore|].
  split; [now apply String.eqb_eq|].
  unfold changeAppointmentStatus. rewrite Happs.
  rewrite (findOneAndUpdate_first _ (AppointmentDoc.setStatus status)
             before after a Hfa Hbefore).
  repeat split.
Qed.

Lemma changeAppointmentStatus_not_found :
  (forall a, In a (Database.appointments db) ->
     AppointmentDoc._id a <> appointmentId) ->
  changeAppointmentStatus db appointmentId status =
  (NextAppError "Appointment not found" 404, db).
Proof.
  intros Hnone. unfold changeAppointmentStatus.
  rewrite (findOneAndUpdate_none _ (AppointmentDoc.setStatus status)); [reflexivity|].
  intros a Ha. unfold Store.eq. apply String.eqb_neq. now apply Hnone.
Qed.

End Status.

(** X20: a status change touches one field of one appointment.  For an id
    that no appointment has, the answer is 404 and nothing changes.
    Otherwise the answer is the success message, the first appointment with
    that id gets the new status and keeps its doctor, date, time and user,
    every other appointment and every doctor is left as stored; this does
    not depend on the user of the appointment being stored. *)
Theorem X20_status_change_is_local
    (db : Database.t) (appointmentId status : string) :
  ((forall a, In a (Database.appointments db) ->
      AppointmentDoc._id a <> appointmentId) ->
   changeAppointmentStatus db appointmentId status =
   (NextAppError "Appointment not found" 404, db))
  /\
  (forall a,
     Store.findOne (fun a => Store.eq (AppointmentDoc._id a) appointmentId)
                   (Database.appointments db) = Some a ->
     fst (changeAppointmentStatus db appointmentId status) =
       Json 200 true "Appointment status changed successfully"
     /\ Database.doctors (snd (changeAppointmentStatus db appointmentId status))
        = Database.doctors db
     /\ exists before after,
          Database.appointments db = (before ++ a :: after)%list
          /\ Database.appointments
               (snd (changeAppointmentStatus db appointmentId status))
             = (before ++
                AppointmentDoc.mk (AppointmentDoc._id a) (AppointmentDoc.userId a)
                  (AppointmentDoc.doctorId a) (AppointmentDoc.date a)
                  (AppointmentDoc.time a) status
                :: after)%list).
Proof.
  split; [apply changeAppointmentStatus_not_found|].
  intros a Ha.
  destruct (changeAppointmentStatus_found db appointmentId status a Ha)
    as [before [after [Happs [_ [_ [Hreply [Happs' Hdocs]]]]]]].
  split; [exact Hreply|]. split; [exact Hdocs|].
  exists before, after. split; [exact Happs | exact Happs'].
Qed.

Lemma X20_status_change_is_local_witness :
  let db := Database.mk [] [] [AppointmentDoc.mk "a1" "p1" "u7" Sample.day "09:45" "pending"] in
  changeAppointmentStatus db "a2" "approved" =
  (NextAppError "Appointment not found" 404, db).
Proof.
  intros db.
  apply (proj1 (X20_status_change_is_local db "a2" "approved")).
  intros a [<-|[]]. discriminate.
Defined.

Section Slots.

Lemma existsb_without {D : Type} (f : D -> bool) (before after : list D) (x : D) :
  f x = false ->
  existsb f (before ++ x :: after)%list = existsb f (before ++ after)%list.
Proof.
  intros Hx. rewrite !existsb_app. cbn [existsb]. now rewrite Hx.
Qed.

Lemma checkAvailability_appointments (today : Z) (db : Database.t) (body : Body.t) :
  checkAvailability today db body =
  match doctorOf (Store.mk (map DoctorDoc.hours (Database.doctors db)) []) body with
  | None => doctorNotFound
  | Some doctor =>
      if outsideWorkingHours today doctor body
      then outOfWorkingHours
             (Moment.format (doctorFromTime today doctor) Moment.hh_mm_A)
             (Moment.format (doctorToTime today doctor) Moment.hh_mm_A)
      else if existsb (appointmentFilter body
                         (Moment.subtract (requestedTime today body) 30)
                         (Moment.add (requestedTime today body) 15))
                      (map AppointmentDoc.slot (Database.appointments db))
      then slotConflict else available
  end.
Proof.
  unfold checkAvailability, Database.store. apply check_appointments.
Qed.

End Slots.

(** X21: rejecting an appointment frees its slot.  After the status of an
    appointment is changed to "rejected", every availability check answers
    what it would answer if that appointment were not stored at all. *)
Theorem X21_rejecting_frees_the_slot
    (today : Z) (db : Database.t) (appointmentId : string) (body : Body.t)
    (before after : list AppointmentDoc.t) (a : AppointmentDoc.t) :
  Database.appointments db = (before ++ a :: after)%list ->
  AppointmentDoc._id a = appointmentId ->
  (forall x, In x before -> AppointmentDoc._id x <> appointmentId) ->
  checkAvailability today
    (snd (changeAppointmentStatus db appointmentId "rejected")) body =
  checkAvailability today
    (Database.mk (Database.doctors db) (Database.users db) (before ++ after)%list)
    body.
Proof.
  intros Happs Hid Hbefore.
  assert (Ha : Store.findOne (fun a => Store.eq (AppointmentDoc._id a) appointmentId)
                 (Database.appointments db) = Some a).
  { rewrite Happs. apply findOne_first.
    - unfold Store.eq. rewrite Hid. apply String.eqb_refl.
    - intros x Hx. apply String.eqb_neq. now apply Hbefore. }
  unfold changeAppointmentStatus. rewrite Happs.
  rewrite (findOneAndUpdate_first _ (AppointmentDoc.setStatus "rejected")
             before after a).
  - cbn [snd]. rewrite !checkAvailability_appointments.
    cbn [Database.doctors Database.appointments].
    destruct (doctorOf _ body) as [doctor|]; [|reflexivity].
    destruct (outsideWorkingHours today doctor body); [reflexivity|].
    rewrite !map_app. cbn [map].
    rewrite existsb_without; [reflexivity|].
    unfold appointmentFilter, Store.ne. cbn. apply andb_false_r.
  - unfold Store.eq. rewrite Hid. apply String.eqb_refl.
  - intros x Hx. apply String.eqb_neq. now apply Hbefore.
Qed.

Lemma X21_rejecting_frees_the_slot_witness :
  let grey := DoctorDoc.mk "id1" "u7" "grey@clinic.org" "Dr Grey" "09:00" "17:00" "approved" in
  let a := AppointmentDoc.mk "a1" "p1" "u7" Sample.day "09:45" "pending" in
  let db := Database.mk [grey] [] [a] in
  let body := Body.mk "u7" Sample.day "10:00" in
  checkAvailability 3 db body = slotConflict
  /\ checkAvailability 3 (snd (changeAppointmentStatus db "a1" "rejected")) body
     = available.
Proof.
  intros grey a db body. split; [reflexivity|].
  assert (Hbefore : forall x, In x (@nil AppointmentDoc.t) ->
            AppointmentDoc._id x <> "a1") by (intros x []).
  exact (X21_rejecting_frees_the_slot 3 db "a1" body [] [] a
           eq_refl eq_refl Hbefore).
Defined.



(** X23: changing the status twice leaves the appointments as changing it
    once does. *)
Theorem X23_status_change_twice
    (db : Database.t) (appointmentId status : string) :
  Database.appointments
    (snd (changeAppointmentStatus
            (snd (changeAppointmentStatus db appointmentId status))
            appointmentId status))
  = Database.appointments (snd (changeAppointmentStatus db appointmentId status)).
Proof.
  destruct (Store.findOne (fun a => Store.eq (AppointmentDoc._id a) appointmentId)
              (Database.appointments db)) as [a|] eqn:Ha.
  - destruct (changeAppointmentStatus_found db appointmentId status a Ha)
      as [before [after [Happs [Hbefore [Hid [_ [Happs' _]]]]]]].
    assert (Ha' : Store.findOne
              (fun a => Store.eq (AppointmentDoc._id a) appointmentId)
              (Database.appointments
                 (snd (changeAppointmentStatus db appointmentId status)))
              = Some (AppointmentDoc.setStatus status a)).
    { rewrite Happs'. apply findOne_first.
      - unfold Store.eq. cbn. rewrite Hid. apply String.eqb_refl.
      - intros x Hx. apply String.eqb_neq. now apply Hbefore. }
    destruct (changeAppointmentStatus_found _ appointmentId status _ Ha')
      as [before' [after' [Hsplit [Hbefore' [_ [_ [Happs'' _]]]]]]].
    rewrite Happs''. rewrite Hsplit. reflexivity.
  - rewrite findOne_none in Ha.
    assert (Hnone : forall a, In a (Database.appointments db) ->
              AppointmentDoc._id a <> appointmentId)
      by (intros a Hin; apply String.eqb_neq; now apply Ha).
    rewrite (changeAppointmentStatus_not_found db appointmentId status Hnone).
    cbn [snd].
    now rewrite (changeAppointmentStatus_not_found db appointmentId status Hnone).
Qed.

(** X24: a status change tells the user of the appointment, and only that
    user.  With distinct user ids, the stored user of the appointment gets
    one more entry at the end of the unseen notifications, carrying the new
    status in its message, and every other user is left as stored; when the
    user of the appointment is not stored, the users are left as stored. *)
Theorem X24_status_change_notifies_user
    (db : Database.t) (appointmentId status : string) (a : AppointmentDoc.t) :
  Store.findOne (fun a => Store.eq (AppointmentDoc._id a) appointmentId)
                (Database.appointments db) = Some a ->
  NoDup (map User._id (Database.users db)) ->
  (forall user,
     Store.findOne (fun u => Store.eq (User._id u) (AppointmentDoc.userId a))
                   (Database.users db) = Some user ->
     exists before after,
       Database.users db = (before ++ user :: after)%list
       /\ Database.users (snd (changeAppointmentStatus db appointmentId status)) =
          (before ++
           User.mk (User._id user) (User.name user) (User.isAdmin user)
             (User.unseenNotifications user ++
              [Notification.mk "appointment-status-changed"
                 ("Your appointment status has been " ++ status)
                 [("name", User.name user)] "/appointments"])
           :: after)%list)
  /\ (Store.findOne (fun u => Store.eq (User._id u) (AppointmentDoc.userId a))
                    (Database.users db) = None ->
      Database.users (snd (changeAppointmentStatus db appointmentId status))
      = Database.users db).
Proof.
  intros Ha Hnodup.
  destruct (findOne_split _ _ _ Ha) as [abefore [aafter [Happs [Hfa Habefore]]]].
  assert (Hupd : Database.findOneAndUpdate
            (fun a => Store.eq (AppointmentDoc._id a) appointmentId)
            (AppointmentDoc.setStatus status) (Database.appointments db)
            = (Some (AppointmentDoc.setStatus status a),
               (abefore ++ AppointmentDoc.setStatus status a :: aafter)%list)).
  { rewrite Happs. now apply findOneAndUpdate_first. }
  split.
  - intros user Huser.
    destruct (findOne_split _ _ _ Huser) as [before [after [Husers _]]].
    exists before, after. split; [exact Husers|].
    unfold changeAppointmentStatus. rewrite Hupd.
    cbn [AppointmentDoc.userId AppointmentDoc.setStatus]. rewrite Huser.
    cbn [snd Database.users]. rewrite Husers. rewrite Husers in Hnodup.
    now apply saveUser_split.
  - intros Huser. unfold changeAppointmentStatus. rewrite Hupd.
    cbn [AppointmentDoc.userId AppointmentDoc.setStatus]. now rewrite Huser.
Qed.

Lemma X24_status_change_notifies_user_witness :
  let ann := User.mk "p1" "Ann" false [] in
  let a := AppointmentDoc.mk "a1" "p1" "u7" Sample.day "09:45" "pending" in
  let db := Database.mk [] [ann] [a] in
  exists before after,
    Database.users db = (before ++ ann :: after)%list
    /\ Database.users (snd (changeAppointmentStatus db "a1" "approved")) =
       (before ++
        User.mk "p1" "Ann" false
          [Notification.mk "appointment-status-changed"
             "Your appointment status has been approved"
             [("name", "Ann")] "/appointments"]
        :: after)%list.
Proof.
  intros ann a db.
  assert (Hnodup : NoDup (map User._id (Database.users db))).
  { cbn. constructor; [intros []|constructor]. }
  exact (proj1 (X24_status_change_notifies_user db "a1" "approved" a eq_refl Hnodup)
           ann eq_refl).
Defined.

(* ================================================================== *)
(** ** Listing appointments                                            *)
(* ================================================================== *)

Section Listing.

Lemma filter_andb {D : Type} (p q : D -> bool) (l : list D) :
  filter (fun x => p x && q x) l = filter q (filter p l).
Proof.
  induction l as [|x l IH]; [reflexivity|]. cbn [filter].
  destruct (p x); cbn [andb filter]; [|exact IH].
  destruct (q x); now rewrite IH.
Qed.

End Listing.

(** X25: the booked appointments of a doctor are the approved ones among
    the doctor's appointments.  When [doctorAppointments] lists the
    appointments of a stored doctor, [getBookAppointments] for the same id
    lists those of them whose status is "approved", in the same order; and
    [getBookAppointments] never answers an error, stored doctor or not. *)
Theorem X25_booked_are_the_approved (db : Database.t) (id : string) :
  (forall all,
     doctorAppointments db id =
       JsonData 200 true "Appointments fetched successfully" all ->
     getBookAppointments db id =
       JsonData 200 true "Approved appointments fetched successfully"
         (filter (fun a => (AppointmentDoc.status a =? "approved")%string) all))
  /\ exists booked,
       getBookAppointments db id =
       JsonData 200 true "Approved appointments fetched successfully" booked
       /\ forall a, In a booked ->
            AppointmentDoc.doctorId a = id /\ AppointmentDoc.status a = "approved".
Proof.
  split.
  - intros all. unfold doctorAppointments.
    destruct (Store.findOne _ (Database.doctors db)) as [d|] eqn:Hd;
      [|discriminate].
    intros Heq. injection Heq as <-.
    destruct (findOne_split _ _ _ Hd) as [_ [_ [_ [Hid _]]]].
    apply String.eqb_eq in Hid. rewrite Hid.
    unfold getBookAppointments, Store.find, Store.eq.
    now rewrite filter_andb.
  - eexists. split; [reflexivity|].
    intros a Ha. unfold Store.find in Ha. apply filter_In in Ha.
    destruct Ha as [_ Ha]. apply andb_true_iff in Ha.
    unfold Store.eq in Ha. now rewrite !String.eqb_eq in Ha.
Qed.

Lemma X25_booked_are_the_approved_witness :
  let grey := DoctorDoc.mk "id1" "u7" "grey@clinic.org" "Dr Grey" "09:00" "17:00" "approved" in
  let a1 := AppointmentDoc.mk "a1" "p1" "u7" Sample.day "09:45" "pending" in
  let a2 := AppointmentDoc.mk "a2" "p2" "u7" Sample.day "11:00" "approved" in
  let db := Database.mk [grey] [] [a1; a2] in
  getBookAppointments db "u7" =
  JsonData 200 true "Approved appointments fetched successfully" [a2].
Proof.
  intros grey a1 a2 db.
  exact (proj1 (X25_booked_are_the_approved db "u7") [a1; a2] eq_refl).
Defined.

(** X26: an approved appointment is booked.  After the status of a stored
    appointment is changed to "approved", [getBookAppointments] for its
    doctor lists it with that status. *)
Theorem X26_approved_is_listed
    (db : Database.t) (appointmentId : string) (a : AppointmentDoc.t) :
  Store.findOne (fun a => Store.eq (AppointmentDoc._id a) appointmentId)
                (Database.appointments db) = Some a ->
  exists booked,
    getBookAppointments (snd (changeAppointmentStatus db appointmentId "approved"))
      (AppointmentDoc.doctorId a)
    = JsonData 200 true "Approved appointments fetched successfully" booked
    /\ In (AppointmentDoc.mk (AppointmentDoc._id a) (AppointmentDoc.userId a)
             (AppointmentDoc.doctorId a) (AppointmentDoc.date a)
             (AppointmentDoc.time a) "approved") booked.
Proof.
  intros Ha.
  destruct (changeAppointmentStatus_found db appointmentId "approved" a Ha)
    as [before [after [_ [_ [_ [_ [Happs' _]]]]]]].
  eexists. split; [reflexivity|].
  unfold Store.find. apply filter_In. split.
  - rewrite Happs'. apply in_or_app. right. left. reflexivity.
  - unfold Store.eq. cbn. now rewrite String.eqb_refl.
Qed.

Lemma X26_approved_is_listed_witness :
  let a := AppointmentDoc.mk "a1" "p1" "u7" Sample.day "09:45" "pending" in
  let db := Database.mk [] [] [a] in
  exists booked,
    getBookAppointments (snd (changeAppointmentStatus db "a1" "approved")) "u7"
    = JsonData 200 true "Approved appointments fetched successfully" booked
    /\ In (AppointmentDoc.mk "a1" "p1" "u7" Sample.day "09:45" "approved") booked.
Proof.
  intros a db.
  exact (X26_approved_is_listed db "a1" a eq_refl).
Defined.

(* ================================================================== *)
(** ** Days without clock change                                       *)
(* ================================================================== *)

Section ParsedRange.

(** A valid parse lies between the midnight of the day and the next. *)
Lemma valid_minutes (s : string) (f : list Moment.token) :
  Moment.isValid (Moment.configFromStringAndFormat s f) = true ->
  0 <= Moment.minutes (Moment.configFromStringAndFormat s f) <= 1440.
Proof.
  unfold Moment.configFromStringAndFormat. cbn [Moment.isValid Moment.minutes].
  set (hour := Moment.orZero _). set (minute := Moment.orZero _).
  intros H. apply andb_true_iff in H. destruct H as [H _].
  apply andb_true_iff in H. destruct H as [H _].
  apply negb_true_iff in H. unfold Moment.overflow in H.
  repeat (apply orb_false_iff in H; destruct H as [H ?]).
  repeat match goal with
         | H : (_ <? _) = false |- _ => apply Z.ltb_ge in H
         end.
  destruct (Z.eqb_spec hour 24) as [Heq|Hne].
  - cbn [andb] in *. 
    match goal with
    | H : negb (minute =? 0) = false |- _ =>
        apply negb_false_iff, Z.eqb_eq in H
    end. lia.
  - lia.
Qed.

Lemma valid_minutes_fold (s : string) (fs : list (list Moment.token))
    (b : Moment.best) :
  (forall p, Moment.bestMoment b = Some p ->
     Moment.isValid p = true -> 0 <= Moment.minutes p <= 1440) ->
  forall p, Moment.bestMoment (fold_left (Moment.tryFormat s) fs b) = Some p ->
    Moment.isValid p = true -> 0 <= Moment.minutes p <= 1440.
Proof.
  revert b. induction fs as [|f fs IH]; intros b Hb; [exact Hb|].
  cbn [fold_left]. apply IH. intros p. unfold Moment.tryFormat.
  destruct (Moment.bestMoment b) as [cur|] eqn:Hcur.
  - destruct (negb (Moment.bestFormatIsValid b));
      [destruct (_ || _) | destruct (_ <? _)]; cbn [Moment.bestMoment];
      try (intros Heq; injection Heq as <-; apply valid_minutes);
      rewrite Hcur; apply Hb.
  - cbn [Moment.bestMoment]. intros Heq. injection Heq as <-.
    apply valid_minutes.
Qed.

Lemma valid_minutes_array (s : string) (fs : list (list Moment.token)) :
  Moment.isValid (Moment.configFromStringAndArray s fs) = true ->
  0 <= Moment.minutes (Moment.configFromStringAndArray s fs) <= 1440.
Proof.
  unfold Moment.configFromStringAndArray.
  destruct (Moment.bestMoment _) as [p|] eqn:Hp; [|discriminate].
  apply (valid_minutes_fold s fs (Moment.mkBest None false)); [|exact Hp].
  intros q Hq. discriminate.
Qed.

End ParsedRange.

Section Readings.

Variables (z : Zone.t) (s : string) (day : Z).

(** A moment is created from the local day of the reading alone. *)
Lemma create_same_day (now now' : Z) (p : Moment.parsed) :
  Zone.localDay z now = Zone.localDay z now' ->
  Zoned.create z now p = Zoned.create z now' p.
Proof. intros H. unfold Zoned.create. now rewrite H. Qed.

(** When every format reads the clock on the same local day, the list of
    formats creates what its best format creates on that day. *)
Lemma tryFormat_same_day (now : Z) (fs : list (list Moment.token * Z))
    (zb : Zoned.best) (b : Moment.best) :
  (forall f, In f fs -> Zone.localDay z (snd f) = Zone.localDay z now) ->
  Zoned.bestFormatIsValid zb = Moment.bestFormatIsValid b ->
  Zoned.bestMoment zb =
    option_map (fun p => Zoned.mkAttempt p (Zoned.create z now p))
               (Moment.bestMoment b) ->
  Zoned.bestMoment (fold_left (Zoned.tryFormat z s) fs zb) =
    option_map (fun p => Zoned.mkAttempt p (Zoned.create z now p))
               (Moment.bestMoment
                  (fold_left (Moment.tryFormat s) (map fst fs) b)).
Proof.
  revert zb b. induction fs as [|f fs IH]; intros zb b Hday Hflag Hbest;
    [exact Hbest|].
  cbn [fold_left map]. apply IH.
  - intros g Hg. apply Hday. now right.
  - unfold Zoned.tryFormat, Moment.tryFormat. rewrite Hbest, Hflag.
    destruct (Moment.bestMoment b) as [cur|]; cbn [option_map Zoned.parsedAs];
      [|reflexivity].
    destruct (negb (Moment.bestFormatIsValid b));
      [destruct (_ || _) | destruct (_ <? _)]; try reflexivity; exact Hflag.
  - unfold Zoned.tryFormat, Moment.tryFormat. rewrite Hbest, Hflag.
    rewrite (create_same_day (snd f) now) by (apply Hday; now left).
    destruct (Moment.bestMoment b) as [cur|] eqn:Hcur;
      cbn [option_map Zoned.parsedAs]; [|reflexivity].
    destruct (negb (Moment.bestFormatIsValid b));
      [destruct (_ || _) | destruct (_ <? _)];
      cbn [Zoned.bestMoment Moment.bestMoment option_map];
      try reflexivity; now rewrite Hbest, Hcur.
Qed.

Lemma momentOf_same_day (now : Z) (fs : list (list Moment.token * Z)) :
  (forall f, In f fs -> Zone.localDay z (snd f) = Zone.localDay z now) ->
  Zoned.momentOf z s fs =
  Zoned.create z now (Moment.configFromStringAndArray s (map fst fs)).
Proof.
  intros Hday. unfold Zoned.momentOf, Moment.configFromStringAndArray.
  rewrite (tryFormat_same_day now fs (Zoned.mkBest None false)
             (Moment.mkBest None false) Hday eq_refl eq_refl).
  destruct (Moment.bestMoment _) as [p|]; reflexivity.
Qed.

End Readings.

(** On a day without clock change the handler in the zone is the handler on
    wall-clock times. *)
Section PlainDay.

Variables (z : Zone.t) (clock : Zoned.Clock) (day offset : Z).

Hypothesis Hfrom : Zone.localDay z (Zoned.atFromTime clock) = day.
Hypothesis Hto : Zone.localDay z (Zoned.atToTime clock) = day.
Hypothesis H24 : Zone.localDay z (Zoned.atRequested24 clock) = day.
Hypothesis H12 : Zone.localDay z (Zoned.atRequested12 clock) = day.
Hypothesis Hsteady : forall l,
  day * 1440 - 30 <= l <= day * 1440 + 1455 ->
  Zone.toInstant z l = l - offset /\ Zone.offsetAt z (l - offset) = offset.

Lemma create_plain (now : Z) (p : Moment.parsed) :
  Zone.localDay z now = day ->
  (Moment.isValid p = true -> 0 <= Moment.minutes p <= 1440) ->
  Zoned.create z now p = instantOf offset (Moment.create day p)
  /\ within (day * 1440) (day * 1440 + 1440) (Moment.create day p).
Proof.
  intros Hnow Hrange. unfold Zoned.create, Moment.create, Moment.minutesPerDay.
  destruct (Moment.isValid p); [|split; [reflexivity | exact I]].
  specialize (Hrange eq_refl). rewrite Hnow. cbn [instantOf within].
  split; [|lia]. f_equal. apply Hsteady. lia.
Qed.

Lemma doctorFromTime_plain (doctor : Doctor.t) :
  Zoned.doctorFromTime z clock doctor
  = instantOf offset (doctorFromTime day doctor)
  /\ within (day * 1440) (day * 1440 + 1440) (doctorFromTime day doctor).
Proof.
  unfold Zoned.doctorFromTime, Zoned.moment, doctorFromTime, Moment.moment.
  apply create_plain; [exact Hfrom | apply valid_minutes].
Qed.

Lemma doctorToTime_plain (doctor : Doctor.t) :
  Zoned.doctorToTime z clock doctor
  = instantOf offset (doctorToTime day doctor)
  /\ within (day * 1440) (day * 1440 + 1440) (doctorToTime day doctor).
Proof.
  unfold Zoned.doctorToTime, Zoned.moment, doctorToTime, Moment.moment.
  apply create_plain; [exact Hto | apply valid_minutes].
Qed.

Lemma requestedTime_plain (body : Body.t) :
  Zoned.requestedTime z clock body
  = instantOf offset (requestedTime day body)
  /\ within (day * 1440) (day * 1440 + 1440) (requestedTime day body).
Proof.
  unfold Zoned.requestedTime, requestedTime, Moment.momentOf.
  rewrite (momentOf_same_day z (Body.time body) (Zoned.atRequested24 clock)).
  - apply create_plain; [exact H24 | apply valid_minutes_array].
  - intros f [<-|[<-|[]]]; cbn [snd]; [reflexivity | now rewrite H12, H24].
Qed.

Lemma isBefore_instantOf (a b : Moment.t) :
  Moment.isBefore (instantOf offset a) (instantOf offset b) = Moment.isBefore a b.
Proof.
  destruct a as [|x], b as [|y]; try reflexivity. cbn.
  destruct (Z.ltb_spec (x - offset) (y - offset)); destruct (Z.ltb_spec x y);
    try reflexivity; lia.
Qed.

Lemma isAfter_instantOf (a b : Moment.t) :
  Moment.isAfter (instantOf offset a) (instantOf offset b) = Moment.isAfter a b.
Proof.
  destruct a as [|x], b as [|y]; try reflexivity. cbn.
  destruct (Z.ltb_spec (y - offset) (x - offset)); destruct (Z.ltb_spec y x);
    try reflexivity; lia.
Qed.

Lemma wallClock_plain (l : Z) :
  day * 1440 - 30 <= l <= day * 1440 + 1455 ->
  Zone.wallClock z (l - offset) = l.
Proof.
  intros Hl. unfold Zone.wallClock.
  destruct (Hsteady l Hl) as [_ ->]. lia.
Qed.

Lemma format_instantOf (m : Moment.t) (f : list Moment.token) :
  within (day * 1440 - 30) (day * 1440 + 1455) m ->
  Zoned.format z (instantOf offset m) f = Moment.format m f.
Proof.
  destruct m as [|l]; [reflexivity|]. cbn [within instantOf Zoned.format].
  intros Hl. now rewrite (wallClock_plain l Hl).
Qed.

Lemma within_wider (m : Moment.t) :
  within (day * 1440) (day * 1440 + 1440) m ->
  within (day * 1440 - 30) (day * 1440 + 1455) m.
Proof. destruct m; cbn; [trivial | lia]. Qed.

Lemma within_subtract (m : Moment.t) :
  within (day * 1440) (day * 1440 + 1440) m ->
  within (day * 1440 - 30) (day * 1440 + 1455) (Moment.subtract m 30).
Proof. destruct m; cbn; [trivial | lia]. Qed.

Lemma within_add (m : Moment.t) :
  within (day * 1440) (day * 1440 + 1440) m ->
  within (day * 1440 - 30) (day * 1440 + 1455) (Moment.add m 15).
Proof. destruct m; cbn; [trivial | lia]. Qed.

Lemma subtract_instantOf (m : Moment.t) (n : Z) :
  Moment.subtract (instantOf offset m) n = instantOf offset (Moment.subtract m n).
Proof. destruct m; cbn; [reflexivity | f_equal; lia]. Qed.

Lemma add_instantOf (m : Moment.t) (n : Z) :
  Moment.add (instantOf offset m) n = instantOf offset (Moment.add m n).
Proof. destruct m; cbn; [reflexivity | f_equal; lia]. Qed.

Lemma outsideWorkingHours_plain (doctor : Doctor.t) (body : Body.t) :
  Zoned.outsideWorkingHours z clock doctor body
  = outsideWorkingHours day doctor body.
Proof.
  unfold Zoned.outsideWorkingHours, outsideWorkingHours.
  rewrite (proj1 (doctorFromTime_plain doctor)),
          (proj1 (doctorToTime_plain doctor)),
          (proj1 (requestedTime_plain body)).
  now rewrite isBefore_instantOf, isAfter_instantOf.
Qed.

Lemma zoned_check_found (db : Store.t) (body : Body.t) (doctor : Doctor.t) :
  doctorOf db body = Some doctor ->
  Zoned.checkBookingAvailability z clock db body =
  if Zoned.outsideWorkingHours z clock doctor body
  then outOfWorkingHours
         (Zoned.format z (Zoned.doctorFromTime z clock doctor) Moment.hh_mm_A)
         (Zoned.format z (Zoned.doctorToTime z clock doctor) Moment.hh_mm_A)
  else if existsb (Zoned.appointmentFilter z body
                     (Moment.subtract (Zoned.requestedTime z clock body) 30)
                     (Moment.add (Zoned.requestedTime z clock body) 15))
                  (Store.appointments db)
  then slotConflict else available.
Proof.
  intros Hdoc. unfold Zoned.checkBookingAvailability.
  unfold doctorOf in Hdoc. rewrite Hdoc. rewrite find_nonempty.
  unfold Zoned.outsideWorkingHours, outOfWorkingHours, slotConflict, available.
  reflexivity.
Qed.

Lemma zoned_check_not_found (db : Store.t) (body : Body.t) :
  doctorOf db body = None ->
  Zoned.checkBookingAvailability z clock db body = doctorNotFound.
Proof.
  intros Hdoc. unfold Zoned.checkBookingAvailability.
  unfold doctorOf in Hdoc. now rewrite Hdoc.
Qed.

Lemma appointmentFilter_plain (body : Body.t) (a : Appointment.t) :
  Zoned.appointmentFilter z body
    (Moment.subtract (Zoned.requestedTime z clock body) 30)
    (Moment.add (Zoned.requestedTime z clock body) 15) a
  = appointmentFilter body
      (Moment.subtract (requestedTime day body) 30)
      (Moment.add (requestedTime day body) 15) a.
Proof.
  destruct (requestedTime_plain body) as [HR HRw].
  unfold Zoned.appointmentFilter, appointmentFilter.
  rewrite HR, subtract_instantOf, add_instantOf.
  rewrite (format_instantOf _ _ (within_subtract _ HRw)).
  rewrite (format_instantOf _ _ (within_add _ HRw)).
  reflexivity.
Qed.

Lemma checkBookingAvailability_plain (db : Store.t) (body : Body.t) :
  Zoned.checkBookingAvailability z clock db body
  = checkBookingAvailability day db body.
Proof.
  destruct (doctorOf db body) as [doctor|] eqn:Hdoc.
  - rewrite (zoned_check_found db body doctor Hdoc).
    rewrite (check_found day db body doctor Hdoc).
    rewrite outsideWorkingHours_plain.
    destruct (doctorFromTime_plain doctor) as [HF HFw].
    destruct (doctorToTime_plain doctor) as [HT HTw].
    rewrite HF, HT.
    rewrite (format_instantOf _ _ (within_wider _ HFw)).
    rewrite (format_instantOf _ _ (within_wider _ HTw)).
    destruct (outsideWorkingHours day doctor body); [reflexivity|].
    replace (existsb (Zoned.appointmentFilter z body
                        (Moment.subtract (Zoned.requestedTime z clock body) 30)
                        (Moment.add (Zoned.requestedTime z clock body) 15))
                     (Store.appointments db))
      with (existsb (appointmentFilter body
                       (Moment.subtract (requestedTime day body) 30)
                       (Moment.add (requestedTime day body) 15))
                    (Store.appointments db)); [reflexivity|].
    induction (Store.appointments db) as [|a l IH]; [reflexivity|].
    cbn [existsb]. rewrite IH, appointmentFilter_plain. reflexivity.
  - rewrite (zoned_check_not_found db body Hdoc).
    now rewrite (check_not_found day db body Hdoc).
Qed.

(** The wall-clock moment behind an instant of the day. *)
Lemma plain_of_instant (m : Moment.t) (u : Z) :
  within (day * 1440) (day * 1440 + 1440) m ->
  instantOf offset m = Moment.At u ->
  m = Moment.At (Zone.wallClock z u) /\ Zone.wallClock z u = u + offset.
Proof.
  destruct m as [|l]; [discriminate|]. cbn [within instantOf].
  intros Hl Heq. injection Heq as <-.
  rewrite wallClock_plain by lia. split; [reflexivity | lia].
Qed.

Lemma doctorFromTime_wallClock (doctor : Doctor.t) (u : Z) :
  Zoned.doctorFromTime z clock doctor = Moment.At u ->
  doctorFromTime day doctor = Moment.At (Zone.wallClock z u)
  /\ Zone.wallClock z u = u + offset.
Proof.
  intros Hu. destruct (doctorFromTime_plain doctor) as [Heq Hw].
  rewrite Heq in Hu. exact (plain_of_instant _ _ Hw Hu).
Qed.

Lemma doctorToTime_wallClock (doctor : Doctor.t) (u : Z) :
  Zoned.doctorToTime z clock doctor = Moment.At u ->
  doctorToTime day doctor = Moment.At (Zone.wallClock z u)
  /\ Zone.wallClock z u = u + offset.
Proof.
  intros Hu. destruct (doctorToTime_plain doctor) as [Heq Hw].
  rewrite Heq in Hu. exact (plain_of_instant _ _ Hw Hu).
Qed.

Lemma requestedTime_wallClock (body : Body.t) (u : Z) :
  Zoned.requestedTime z clock body = Moment.At u ->
  requestedTime day body = Moment.At (Zone.wallClock z u)
  /\ Zone.wallClock z u = u + offset.
Proof.
  intros Hu. destruct (requestedTime_plain body) as [Heq Hw].
  rewrite Heq in Hu. exact (plain_of_instant _ _ Hw Hu).
Qed.

End PlainDay.

Section Zones.

Lemma fixed_plainDay (offset now : Z) :
  Zoned.plainDay (Zone.fixed offset) (Zoned.still now)
    (Zone.localDay (Zone.fixed offset) now).
Proof.
  repeat (split; [reflexivity|]). exists offset. intros l _.
  split; reflexivity.
Qed.

(** What the formatted end of a window can start with, in any zone. *)
Lemma zoned_format_first_char (z : Zone.t) (u : Z) :
  exists k rest,
    Zoned.format z (Moment.At u) Moment.HH_mm = String (digitChar k) rest
    /\ 0 <= k <= 2.
Proof.
  exact (clock24_first_char (Zone.wallClock z u)).
Qed.

Lemma zoned_format_display (z : Zone.t) (u : Z) :
  is12HourDisplay (Zoned.format z (Moment.At u) Moment.hh_mm_A) = true.
Proof.
  cbn [Zoned.format]. rewrite format_mod.
  apply (clock12_display (Zone.wallClock z u mod 1440)).
  apply Z.mod_pos_bound. lia.
Qed.

End Zones.

Section OnPlainDay.

(** What a day without clock change gives: the check is the check on
    wall-clock times, and every parsed instant is its wall-clock time moved
    by one offset. *)
Lemma plainDay_facts (z : Zone.t) (clock : Zoned.Clock) (day : Z) :
  Zoned.plainDay z clock day ->
  (forall db body,
     Zoned.checkBookingAvailability z clock db body
     = checkBookingAvailability day db body)
  /\ (forall doctor body,
        Zoned.outsideWorkingHours z clock doctor body
        = outsideWorkingHours day doctor body)
  /\ exists offset,
       (forall doctor u,
          Zoned.doctorFromTime z clock doctor = Moment.At u ->
          doctorFromTime day doctor = Moment.At (u + offset))
       /\ (forall doctor u,
             Zoned.doctorToTime z clock doctor = Moment.At u ->
             doctorToTime day doctor = Moment.At (u + offset))
       /\ (forall body u,
             Zoned.requestedTime z clock body = Moment.At u ->
             requestedTime day body = Moment.At (u + offset)
             /\ Zone.minuteOfDay z u = (u + offset) mod 1440).
Proof.
  intros [Hfrom [Hto [H24 [H12 [offset Hsteady]]]]].
  split; [|split].
  - intros db body.
    exact (checkBookingAvailability_plain z clock day offset
             Hfrom Hto H24 H12 Hsteady db body).
  - intros doctor body.
    exact (outsideWorkingHours_plain z clock day offset
             Hfrom Hto H24 H12 Hsteady doctor body).
  - exists offset. split; [|split].
    + intros doctor u Hu.
      destruct (doctorFromTime_wallClock z clock day offset Hfrom Hsteady
                  doctor u Hu) as [Hm Hw].
      now rewrite Hm, Hw.
    + intros doctor u Hu.
      destruct (doctorToTime_wallClock z clock day offset Hto Hsteady
                  doctor u Hu) as [Hm Hw].
      now rewrite Hm, Hw.
    + intros body u Hu.
      destruct (requestedTime_wallClock z clock day offset H24 H12 Hsteady
                  body u Hu) as [Hm Hw].
      unfold Zone.minuteOfDay. rewrite Hm, Hw. split; reflexivity.
Qed.

(** A time written "HH:mm" against the window of a requested time: the
    query matches it only if it lies in the time range, and exactly then
    when the window stays within the day. *)
Lemma inConflictWindow_range (today : Z) (body : Body.t) (a : Appointment.t)
    (r x : Z) :
  requestedTime today body = Moment.At r ->
  Appointment.time a = clock24 x ->
  0 <= x < 1440 ->
  (inConflictWindow today body a = true ->
   r mod 1440 - 30 <= x <= r mod 1440 + 15)
  /\ (30 <= r mod 1440 <= 1424 ->
      r mod 1440 - 30 <= x <= r mod 1440 + 15 ->
      inConflictWindow today body a = true).
Proof.
  intros Hr Hx Hx'. rewrite (inConflictWindow_clock _ _ _ _ _ Hr Hx).
  rewrite andb_true_iff, !Z.leb_le. split; minutes_arith.
Qed.

End OnPlainDay.

(* ================================================================== *)
(** ** The conflict window                                             *)
(* ================================================================== *)

(** C1, as stated, fails.  In universal time, with round-the-clock hours:
    the request for 00:10 and a pending appointment of the same doctor and
    date at 00:25, which is the requested time plus 15 minutes, are answered
    available.  And in a zone whose clocks go forward at 02:00, on the day of
    the change: the request for 02:30 and a pending appointment at 02:00,
    which is the requested time minus 30 minutes, are answered available. *)
Lemma C1_counterexample :
  let db := Sample.clinic [Sample.booked Sample.allDay "00:25" "pending"] in
  let body := Sample.request Sample.allDay "00:10" in
  let z := SampleZone.utc in
  let clock := SampleZone.noonUtc in
  (Zoned.plainDay z clock SampleZone.march8
   /\ doctorOf db body = Some Sample.allDay
   /\ Zoned.doctorFromTime z clock Sample.allDay
      = Moment.At (SampleZone.march8 * 1440)
   /\ Zoned.doctorToTime z clock Sample.allDay
      = Moment.At (SampleZone.march8 * 1440 + 1439)
   /\ Zoned.requestedTime z clock body
      = Moment.At (SampleZone.march8 * 1440 + 10)
   /\ Zone.minuteOfDay z (SampleZone.march8 * 1440 + 10) = 10
   /\ clock24 (10 + 15) = "00:25"
   /\ Zoned.checkBookingAvailability z clock db body = available
   /\ Zoned.checkBookingAvailability z clock db body <> slotConflict)
  /\
  (let db := Sample.clinic [Sample.booked Sample.allDay "02:00" "pending"] in
   let body := Sample.request Sample.allDay "02:30" in
   Body.time body = clock24 150
   /\ clock24 (150 - 30) = "02:00"
   /\ Zoned.outsideWorkingHours SampleZone.eastern SampleZone.noonOfChange
        Sample.allDay body = false
   /\ Zoned.checkBookingAvailability SampleZone.eastern SampleZone.noonOfChange
        db body = available).
Proof.
  cbv zeta. split.
  - split; [exact (fixed_plainDay 0 _)|].
    repeat split; try (vm_compute; reflexivity).
    vm_compute. discriminate.
  - repeat split; vm_compute; reflexivity.
Qed.

(** C1, amended: on a day without clock change in the server's zone, for a
    requested time inside the working hours whose window stays within the
    day (00:30 to 23:44), a non-rejected appointment of the same doctor and
    date at exactly 30 minutes before or exactly 15 minutes after the
    requested time gives the conflict response; and for every requested time
    inside the working hours, when no non-rejected appointment of that
    doctor and date lies from 30 minutes before to 15 minutes after it (one
    at 31 minutes before or 16 minutes after does not), the check answers
    available.  Appointment times are "HH:mm" texts. *)
Theorem C1_window_ends_inclusive
    (z : Zone.t) (clock : Zoned.Clock) (day : Z)
    (db : Store.t) (body : Body.t) (doctor : Doctor.t) (uf ut ur : Z) :
  Zoned.plainDay z clock day ->
  doctorOf db body = Some doctor ->
  Zoned.doctorFromTime z clock doctor = Moment.At uf ->
  Zoned.doctorToTime z clock doctor = Moment.At ut ->
  Zoned.requestedTime z clock body = Moment.At ur ->
  uf <= ur <= ut ->
  (30 <= Zone.minuteOfDay z ur <= 1424 ->
   forall a, In a (Store.appointments db) ->
     Appointment.doctorId a = Body.doctorId body ->
     Appointment.date a = Body.date body ->
     Appointment.status a <> "rejected" ->
     Appointment.time a = clock24 (Zone.minuteOfDay z ur - 30)
     \/ Appointment.time a = clock24 (Zone.minuteOfDay z ur + 15) ->
     Zoned.checkBookingAvailability z clock db body = slotConflict)
  /\
  ((forall a, In a (Store.appointments db) ->
     Appointment.doctorId a = Body.doctorId body ->
     Appointment.date a = Body.date body ->
     Appointment.status a <> "rejected" ->
     exists x, 0 <= x < 1440
       /\ Appointment.time a = clock24 x
       /\ (x < Zone.minuteOfDay z ur - 30 \/ Zone.minuteOfDay z ur + 15 < x)) ->
   Zoned.checkBookingAvailability z clock db body = available).
Proof.
  intros Hplain Hdoc Hf Ht Hr Hin.
  destruct (plainDay_facts z clock day Hplain)
    as [Hcheck [_ [offset [HF [HT HR]]]]].
  rewrite Hcheck.
  specialize (HF doctor uf Hf). specialize (HT doctor ut Ht).
  destruct (HR body ur Hr) as [HR' Hm]. rewrite Hm.
  assert (Hout : outsideWorkingHours day doctor body = false).
  { rewrite (within_hours _ _ _ _ _ _ HF HT HR').
    apply orb_false_iff. split; apply Z.ltb_ge; lia. }
  split.
  - intros Hday a Ha Hid Hdate Hst Htime.
    apply (check_conflict day db body doctor Hdoc a); try assumption.
    destruct Htime as [Htime|Htime];
      apply (proj2 (inConflictWindow_range day body a (ur + offset) _
                      HR' Htime ltac:(lia)) Hday); lia.
  - intros Hall.
    apply (check_available day db body doctor Hdoc Hout).
    intros a Ha Hid Hdate Hst. apply not_true_is_false. intros Hw.
    destruct (Hall a Ha Hid Hdate Hst) as [x [Hx [Htime Hfar]]].
    assert (H := proj1 (inConflictWindow_range day body a (ur + offset) x
                          HR' Htime Hx) Hw).
    lia.
Qed.

Lemma C1_window_ends_inclusive_witness :
  let db := Sample.clinic [Sample.booked Sample.office "09:30" "pending"] in
  let db' := Sample.clinic [Sample.booked Sample.office "09:29" "approved";
                            Sample.booked Sample.office "10:16" "pending";
                            Sample.booked Sample.office "15:00" "pending"] in
  let body := Sample.request Sample.office "10:00" in
  Zoned.checkBookingAvailability SampleZone.eastern SampleZone.noonAfter db body
  = slotConflict
  /\ Zoned.checkBookingAvailability SampleZone.eastern SampleZone.noonAfter db' body
     = available.
Proof.
  intros db db' body.
  assert (Hplain : Zoned.plainDay SampleZone.eastern SampleZone.noonAfter
                     (SampleZone.march8 + 1)).
  { repeat (split; [reflexivity|]). exists (-240). intros l Hl.
    unfold SampleZone.eastern, Zone.forward, SampleZone.march8 in *.
    cbn [Zone.toInstant Zone.offsetAt].
    replace (l <? 20520 * 1440 + 420 + -300 + 60) with false
      by (symmetry; apply Z.ltb_ge; lia).
    replace (l - -240 <? 20520 * 1440 + 420) with false
      by (symmetry; apply Z.ltb_ge; lia).
    split; reflexivity. }
  pose (d := (SampleZone.march8 + 1) * 1440 + 240).
  assert (Hhours : d + 540 <= d + 600 <= d + 1020) by lia.
  split.
  - apply (proj1 (C1_window_ends_inclusive SampleZone.eastern SampleZone.noonAfter
                    (SampleZone.march8 + 1) db body Sample.office
                    (d + 540) (d + 1020) (d + 600)
                    Hplain eq_refl eq_refl eq_refl eq_refl Hhours))
      with (a := Sample.booked Sample.office "09:30" "pending").
    + split; vm_compute; discriminate.
    + left; reflexivity.
    + reflexivity.
    + reflexivity.
    + discriminate.
    + left. reflexivity.
  - apply (proj2 (C1_window_ends_inclusive SampleZone.eastern SampleZone.noonAfter
                    (SampleZone.march8 + 1) db' body Sample.office
                    (d + 540) (d + 1020) (d + 600)
                    Hplain eq_refl eq_refl eq_refl eq_refl Hhours)).
    intros a [<-|[<-|[<-|[]]]] _ _ _;
      [exists 569 | exists 616 | exists 900];
      (split; [lia|]); (split; [reflexivity|]);
      change (Zone.minuteOfDay SampleZone.eastern (d + 600)) with 600; lia.
Defined.

(* ================================================================== *)
(** ** The out-of-hours message                                        *)
(* ================================================================== *)

(** C3, as stated, fails.  Working hours from 13:00 to 17:00 supplied in
    12-hour form, "01:00 PM" and "05:00 PM": the request for 02:00, which is
    strictly before 13:00, is not rejected, and the request for 06:00 is
    rejected with a message that shows the window as "01:00 AM to 05:00 AM".
    And in a zone whose clocks go forward at 02:00, on the day of the change,
    with hours from 03:00 to 17:00: the request for 02:30, strictly before
    03:00, is not rejected. *)
Lemma C3_counterexample :
  let db := Store.mk [SampleZone.afternoon] [] in
  let early := Body.mk "dr-afternoon" Sample.day "02:00" in
  let later := Body.mk "dr-afternoon" Sample.day "06:00" in
  let z := SampleZone.utc in
  let clock := SampleZone.noonUtc in
  (Zoned.plainDay z clock SampleZone.march8
   /\ Doctor.fromTime SampleZone.afternoon = clock12 (13 * 60)
   /\ Doctor.toTime SampleZone.afternoon = clock12 (17 * 60)
   /\ Body.time early = clock24 (2 * 60)
   /\ 2 * 60 < 13 * 60
   /\ Zoned.checkBookingAvailability z clock db early = available
   /\ outcome (Zoned.checkBookingAvailability z clock db early)
      <> Some OutOfWorkingHours
   /\ Zoned.checkBookingAvailability z clock db later =
      NextAppError
        "Please select a time within doctor's working hours 01:00 AM to 05:00 AM"
        400)
  /\
  (let db := Store.mk [SampleZone.fromThree] [] in
   let body := Body.mk "dr-three" Sample.day "02:30" in
   Doctor.fromTime SampleZone.fromThree = clock24 180
   /\ Body.time body = clock24 150
   /\ 150 < 180
   /\ Zoned.checkBookingAvailability SampleZone.eastern SampleZone.noonOfChange
        db body = available).
Proof.
  cbv zeta. split.
  - split; [exact (fixed_plainDay 0 _)|].
    repeat split; try (vm_compute; reflexivity).
    vm_compute. discriminate.
  - repeat split; vm_compute; reflexivity.
Qed.

(** C3, amended: the working hours are read from their stored texts under
    "HH:mm" alone, and the check compares with, and shows, the times so
    read.  Whatever the zone and the texts, a requested time strictly before
    the start so read or strictly after the end so read gets the out-of-hours
    response, whatever the appointments are, and the message shows the two
    times so read in 12-hour display form.  On a day without clock change,
    when the hours are stored as the "HH:mm" texts of [f] and [t], a
    requested time [r] given in either form with [r < f] or [t < r] is
    rejected with the message "hh:mm A to hh:mm A" of [f] and [t]. *)
Theorem C3_out_of_hours_message
    (z : Zone.t) (clock : Zoned.Clock)
    (db : Store.t) (body : Body.t) (doctor : Doctor.t) :
  doctorOf db body = Some doctor ->
  (forall uf ut ur,
     Zoned.doctorFromTime z clock doctor = Moment.At uf ->
     Zoned.doctorToTime z clock doctor = Moment.At ut ->
     Zoned.requestedTime z clock body = Moment.At ur ->
     ur < uf \/ ut < ur ->
     Zoned.checkBookingAvailability z clock db body =
       NextAppError
         ("Please select a time within doctor's working hours "
          ++ Zoned.format z (Moment.At uf) Moment.hh_mm_A ++ " to "
          ++ Zoned.format z (Moment.At ut) Moment.hh_mm_A) 400
     /\ is12HourDisplay (Zoned.format z (Moment.At uf) Moment.hh_mm_A) = true
     /\ is12HourDisplay (Zoned.format z (Moment.At ut) Moment.hh_mm_A) = true)
  /\
  (forall day f t r,
     Zoned.plainDay z clock day ->
     0 <= f < 1440 -> 0 <= t < 1440 -> 0 <= r < 1440 ->
     Doctor.fromTime doctor = clock24 f ->
     Doctor.toTime doctor = clock24 t ->
     Body.time body = clock24 r \/ Body.time body = clock12 r ->
     r < f \/ t < r ->
     Zoned.checkBookingAvailability z clock db body =
       NextAppError
         ("Please select a time within doctor's working hours "
          ++ clock12 f ++ " to " ++ clock12 t) 400
     /\ outcome (Zoned.checkBookingAvailability z clock db body)
        = Some OutOfWorkingHours
     /\ is12HourDisplay (clock12 f) = true
     /\ is12HourDisplay (clock12 t) = true).
Proof.
  intros Hdoc. split.
  - intros uf ut ur Hf Ht Hr Hout.
    rewrite (zoned_check_found z clock db body doctor Hdoc).
    unfold Zoned.outsideWorkingHours. rewrite Hf, Ht, Hr.
    cbn [Moment.isBefore Moment.isAfter].
    replace ((ur <? uf) || (ut <? ur)) with true.
    + split; [reflexivity|]. split; apply zoned_format_display.
    + symmetry. apply orb_true_iff.
      destruct Hout; [left | right]; apply Z.ltb_lt; assumption.
  - intros day f t r Hplain Hf Ht Hr Hfrom Hto Htime Hout.
    destruct (plainDay_facts z clock day Hplain) as [Hcheck _].
    rewrite Hcheck.
    assert (HF : doctorFromTime day doctor = Moment.At (day * 1440 + f)).
    { unfold doctorFromTime, Moment.moment. rewrite Hfrom.
      now rewrite (parse_clock24 f Hf). }
    assert (HT : doctorToTime day doctor = Moment.At (day * 1440 + t)).
    { unfold doctorToTime, Moment.moment. rewrite Hto.
      now rewrite (parse_clock24 t Ht). }
    assert (HR : requestedTime day body = Moment.At (day * 1440 + r)).
    { unfold requestedTime, Moment.momentOf.
      destruct Htime as [-> | ->].
      - now rewrite (parseRequested_clock24 r Hr).
      - now rewrite (parseRequested_clock12 r Hr). }
    assert (Hresp : checkBookingAvailability day db body =
                    outOfWorkingHours (clock12 f) (clock12 t)).
    { rewrite (check_found day db body doctor Hdoc).
      rewrite (within_hours _ _ _ _ _ _ HF HT HR).
      replace ((day * 1440 + r <? day * 1440 + f)
               || (day * 1440 + t <? day * 1440 + r)) with true.
      - rewrite HF, HT. unfold clock12. now rewrite !format_shift.
      - symmetry. apply orb_true_iff.
        destruct Hout; [left | right]; apply Z.ltb_lt; lia. }
    split; [exact Hresp|].
    split; [rewrite Hresp; apply outcome_outOfWorkingHours|].
    split; now apply clock12_display.
Qed.

Lemma C3_out_of_hours_message_witness :
  let db := Sample.clinic [Sample.booked Sample.office "08:59" "pending"] in
  Zoned.checkBookingAvailability SampleZone.utc SampleZone.noonUtc db
    (Sample.request Sample.office "08:59") =
  NextAppError
    "Please select a time within doctor's working hours 09:00 AM to 05:00 PM" 400
  /\ Zoned.checkBookingAvailability SampleZone.utc SampleZone.noonUtc db
       (Sample.request Sample.office "05:01 PM") =
  NextAppError
    "Please select a time within doctor's working hours 09:00 AM to 05:00 PM" 400.
Proof.
  intros db.
  assert (Hplain : Zoned.plainDay SampleZone.utc SampleZone.noonUtc SampleZone.march8)
    by exact (fixed_plainDay 0 _).
  assert (Hf : 0 <= 540 < 1440) by lia.
  assert (Ht : 0 <= 1020 < 1440) by lia.
  assert (Hearly : 0 <= 539 < 1440) by lia.
  assert (Hlate : 0 <= 1021 < 1440) by lia.
  assert (Hout1 : 539 < 540 \/ 1020 < 539) by (left; lia).
  assert (Hout2 : 1021 < 540 \/ 1020 < 1021) by (right; lia).
  split.
  - exact (proj1 (proj2 (C3_out_of_hours_message SampleZone.utc SampleZone.noonUtc
                           db (Sample.request Sample.office "08:59") Sample.office
                           eq_refl)
                   SampleZone.march8 540 1020 539 Hplain Hf Ht Hearly
                   eq_refl eq_refl (or_introl eq_refl) Hout1)).
  - exact (proj1 (proj2 (C3_out_of_hours_message SampleZone.utc SampleZone.noonUtc
                           db (Sample.request Sample.office "05:01 PM") Sample.office
                           eq_refl)
                   SampleZone.march8 540 1020 1021 Hplain Hf Ht Hlate
                   eq_refl eq_refl (or_intror eq_refl) Hout2)).
Defined.

(* ================================================================== *)
(** ** Rejected appointments                                           *)
(* ================================================================== *)

(** C6, as stated, fails in its second half.  In universal time, with
    round-the-clock hours: the request for 00:10 and an approved appointment
    of the same doctor and date at 00:10, inside the window from 30 minutes
    before to 15 minutes after, are answered available.  And in a zone whose
    clocks go forward at 02:00, on the day of the change: the request for
    02:30 and a pending appointment at 02:15 are answered available. *)
Lemma C6_counterexample :
  let db := Sample.clinic [Sample.booked Sample.allDay "00:10" "approved"] in
  let body := Sample.request Sample.allDay "00:10" in
  let z := SampleZone.utc in
  let clock := SampleZone.noonUtc in
  (Zoned.plainDay z clock SampleZone.march8
   /\ doctorOf db body = Some Sample.allDay
   /\ Zoned.outsideWorkingHours z clock Sample.allDay body = false
   /\ Zoned.requestedTime z clock body
      = Moment.At (SampleZone.march8 * 1440 + 10)
   /\ Zone.minuteOfDay z (SampleZone.march8 * 1440 + 10) = 10
   /\ clock24 10 = "00:10"
   /\ 10 - 30 <= 10 <= 10 + 15
   /\ Zoned.checkBookingAvailability z clock db body = available
   /\ Zoned.checkBookingAvailability z clock db body <> slotConflict)
  /\
  (let db := Sample.clinic [Sample.booked Sample.allDay "02:15" "pending"] in
   let body := Sample.request Sample.allDay "02:30" in
   Body.time body = clock24 150
   /\ clock24 135 = "02:15"
   /\ 150 - 30 <= 135 <= 150 + 15
   /\ Zoned.outsideWorkingHours SampleZone.eastern SampleZone.noonOfChange
        Sample.allDay body = false
   /\ Zoned.checkBookingAvailability SampleZone.eastern SampleZone.noonOfChange
        db body = available).
Proof.
  cbv zeta. split.
  - split; [exact (fixed_plainDay 0 _)|].
    repeat split; try (vm_compute; reflexivity); try lia.
    vm_compute. discriminate.
  - repeat split; try (vm_compute; reflexivity); lia.
Qed.

(** C6, amended: on a day without clock change, for a stored doctor, a
    requested time that passes the working-hours test and appointment times
    written "HH:mm": the check answers available as soon as every
    appointment of that doctor and date that lies from 30 minutes before to
    15 minutes after the requested time has status "rejected"; and when the
    window stays within the day (requested time from 00:30 to 23:44), one
    such appointment whose status is not "rejected", be it "pending" or
    "approved", makes the check answer conflict. *)
Theorem C6_rejected_never_conflicts
    (z : Zone.t) (clock : Zoned.Clock) (day : Z)
    (db : Store.t) (body : Body.t) (doctor : Doctor.t) (ur : Z) :
  Zoned.plainDay z clock day ->
  doctorOf db body = Some doctor ->
  Zoned.outsideWorkingHours z clock doctor body = false ->
  Zoned.requestedTime z clock body = Moment.At ur ->
  (forall a, In a (Store.appointments db) ->
     Appointment.doctorId a = Body.doctorId body ->
     Appointment.date a = Body.date body ->
     Appointment.status a <> "rejected" ->
     exists x, 0 <= x < 1440 /\ Appointment.time a = clock24 x) ->
  ((forall a x, In a (Store.appointments db) ->
      Appointment.doctorId a = Body.doctorId body ->
      Appointment.date a = Body.date body ->
      Appointment.time a = clock24 x -> 0 <= x < 1440 ->
      Zone.minuteOfDay z ur - 30 <= x <= Zone.minuteOfDay z ur + 15 ->
      Appointment.status a = "rejected") ->
   Zoned.checkBookingAvailability z clock db body = available)
  /\ (30 <= Zone.minuteOfDay z ur <= 1424 ->
      forall a x, In a (Store.appointments db) ->
        Appointment.doctorId a = Body.doctorId body ->
        Appointment.date a = Body.date body ->
        Appointment.time a = clock24 x -> 0 <= x < 1440 ->
        Zone.minuteOfDay z ur - 30 <= x <= Zone.minuteOfDay z ur + 15 ->
        Appointment.status a <> "rejected" ->
        Zoned.checkBookingAvailability z clock db body = slotConflict).
Proof.
  intros Hplain Hdoc Hout Hr Hcanon.
  destruct (plainDay_facts z clock day Hplain)
    as [Hcheck [Hhours [offset [_ [_ HR]]]]].
  rewrite Hcheck. rewrite Hhours in Hout.
  destruct (HR body ur Hr) as [HR' Hm]. rewrite Hm.
  split.
  - intros Hall. apply (check_available day db body doctor Hdoc Hout).
    intros a Ha Hid Hdate Hst. apply not_true_is_false. intros Hw.
    destruct (Hcanon a Ha Hid Hdate Hst) as [x [Hx Htime]].
    apply Hst. apply (Hall a x Ha Hid Hdate Htime Hx).
    exact (proj1 (inConflictWindow_range day body a (ur + offset) x
                    HR' Htime Hx) Hw).
  - intros Hday a x Ha Hid Hdate Htime Hx Hrange Hst.
    apply (check_conflict day db body doctor Hdoc a); try assumption.
    exact (proj2 (inConflictWindow_range day body a (ur + offset) x
                    HR' Htime Hx) Hday Hrange).
Qed.

Lemma C6_rejected_never_conflicts_witness :
  let body := Sample.request Sample.office "10:00" in
  let z := SampleZone.utc in
  let clock := SampleZone.noonUtc in
  Zoned.checkBookingAvailability z clock
    (Sample.clinic [Sample.booked Sample.office "09:45" "rejected"]) body
  = available
  /\ Zoned.checkBookingAvailability z clock
    (Sample.clinic [Sample.booked Sample.office "09:45" "pending"]) body
  = slotConflict
  /\ Zoned.checkBookingAvailability z clock
    (Sample.clinic [Sample.booked Sample.office "09:45" "approved"]) body
  = slotConflict.
Proof.
  intros body z clock.
  assert (Hplain : Zoned.plainDay z clock SampleZone.march8)
    by exact (fixed_plainDay 0 _).
  pose (ur := SampleZone.march8 * 1440 + 600).
  assert (Hday : 30 <= Zone.minuteOfDay z ur <= 1424)
    by (split; vm_compute; discriminate).
  assert (Hx : 0 <= 585 < 1440) by lia.
  assert (Hrange : Zone.minuteOfDay z ur - 30 <= 585 <= Zone.minuteOfDay z ur + 15)
    by (split; vm_compute; discriminate).
  split; [|split].
  - apply (proj1 (C6_rejected_never_conflicts z clock SampleZone.march8
            (Sample.clinic [Sample.booked Sample.office "09:45" "rejected"])
            body Sample.office ur Hplain eq_refl eq_refl eq_refl
            ltac:(intros a [<-|[]] _ _ Hst; exfalso; apply Hst; reflexivity))).
    intros a x [<-|[]] _ _ _ _ _. reflexivity.
  - apply (proj2 (C6_rejected_never_conflicts z clock SampleZone.march8
            (Sample.clinic [Sample.booked Sample.office "09:45" "pending"])
            body Sample.office ur Hplain eq_refl eq_refl eq_refl
            ltac:(intros a [<-|[]] _ _ _; exists 585; split;
                  [lia | reflexivity]))
            Hday (Sample.booked Sample.office "09:45" "pending") 585);
      try reflexivity; try assumption; [left; reflexivity | discriminate].
  - apply (proj2 (C6_rejected_never_conflicts z clock SampleZone.march8
            (Sample.clinic [Sample.booked Sample.office "09:45" "approved"])
            body Sample.office ur Hplain eq_refl eq_refl eq_refl
            ltac:(intros a [<-|[]] _ _ _; exists 585; split;
                  [lia | reflexivity]))
            Hday (Sample.booked Sample.office "09:45" "approved") 585);
      try reflexivity; try assumption; [left; reflexivity | discriminate].
Defined.

(* ================================================================== *)
(** ** Determinism                                                     *)
(* ================================================================== *)

(** C7, as stated, fails: the parses read the clock and the zone.  In a zone
    whose clocks go forward at 02:00 on 8 March 2026, with round-the-clock
    hours and a pending appointment at 02:15, the same store and the same
    request for 02:30 are answered available at noon of 8 March, when 02:30
    does not exist and is taken as 03:30, and conflict at noon of 9 March. *)
Lemma C7_counterexample :
  let db := Sample.clinic [Sample.booked Sample.allDay "02:15" "pending"] in
  let body := Sample.request Sample.allDay "02:30" in
  Zoned.checkBookingAvailability SampleZone.eastern SampleZone.noonOfChange db body
  = available
  /\ Zoned.checkBookingAvailability SampleZone.eastern SampleZone.noonAfter db body
     = slotConflict
  /\ Zoned.format SampleZone.eastern
       (Zoned.requestedTime SampleZone.eastern SampleZone.noonOfChange body)
       Moment.HH_mm = "03:30"
  /\ Zoned.checkBookingAvailability SampleZone.eastern SampleZone.noonOfChange db body
     <> Zoned.checkBookingAvailability SampleZone.eastern SampleZone.noonAfter db body.
Proof.
  cbv zeta. repeat split; try (vm_compute; reflexivity).
  vm_compute. discriminate.
Qed.

(** C7, amended: the check writes nothing, and besides the store and the
    request it reads only the clock and the zone, in each parse.  Two
    invocations with the same store and the same request give the same
    response whenever each of them runs within one local day on which its
    zone has no clock change, whatever the two days and zones are. *)
Theorem C7_same_inputs_same_response
    (z z' : Zone.t) (clock clock' : Zoned.Clock) (day day' : Z)
    (db : Store.t) (body : Body.t) :
  Zoned.plainDay z clock day ->
  Zoned.plainDay z' clock' day' ->
  Zoned.checkBookingAvailability z clock db body =
  Zoned.checkBookingAvailability z' clock' db body.
Proof.
  intros Hplain Hplain'.
  rewrite (proj1 (plainDay_facts z clock day Hplain)).
  rewrite (proj1 (plainDay_facts z' clock' day' Hplain')).
  apply check_any_day.
Qed.

Lemma C7_same_inputs_same_response_witness :
  let db := Sample.clinic [Sample.booked Sample.office "09:45" "pending"] in
  let body := Sample.request Sample.office "10:00" in
  Zoned.checkBookingAvailability SampleZone.utc SampleZone.noonUtc db body =
  Zoned.checkBookingAvailability (Zone.fixed 330)
    (Zoned.still (20000 * 1440)) db body.
Proof.
  intros db body.
  exact (C7_same_inputs_same_response SampleZone.utc (Zone.fixed 330)
           SampleZone.noonUtc (Zoned.still (20000 * 1440)) _ _ db body
           (fixed_plainDay 0 _) (fixed_plainDay 330 _)).
Defined.

(* ================================================================== *)
(** ** The window as a time range, and texts that are no "HH:mm"       *)
(* ================================================================== *)

(** X1: within the day the text range of the query is the time range.  On a
    day without clock change, for a requested time inside the working hours
    whose window does not cross midnight, and appointments whose times are
    all written "HH:mm", the check answers conflict exactly when a
    non-rejected appointment of that doctor and date lies from 30 minutes
    before to 15 minutes after the requested time, and answers available
    otherwise. *)
Theorem X1_window_is_time_range
    (z : Zone.t) (clock : Zoned.Clock) (day : Z)
    (db : Store.t) (body : Body.t) (doctor : Doctor.t) (uf ut ur : Z) :
  Zoned.plainDay z clock day ->
  doctorOf db body = Some doctor ->
  Zoned.doctorFromTime z clock doctor = Moment.At uf ->
  Zoned.doctorToTime z clock doctor = Moment.At ut ->
  Zoned.requestedTime z clock body = Moment.At ur ->
  uf <= ur <= ut ->
  30 <= Zone.minuteOfDay z ur <= 1424 ->
  (forall a, In a (Store.appointments db) ->
     exists x, 0 <= x < 1440 /\ Appointment.time a = clock24 x) ->
  let blocking :=
    exists a x, In a (Store.appointments db)
      /\ Appointment.doctorId a = Body.doctorId body
      /\ Appointment.date a = Body.date body
      /\ Appointment.status a <> "rejected"
      /\ Appointment.time a = clock24 x
      /\ 0 <= x < 1440
      /\ Zone.minuteOfDay z ur - 30 <= x <= Zone.minuteOfDay z ur + 15 in
  (Zoned.checkBookingAvailability z clock db body = slotConflict <-> blocking)
  /\ (Zoned.checkBookingAvailability z clock db body = available <-> ~ blocking).
Proof.
  intros Hplain Hdoc Hf Ht Hr Hin Hday Hcanon blocking.
  destruct (plainDay_facts z clock day Hplain)
    as [Hcheck [_ [offset [HF [HT HR]]]]].
  rewrite Hcheck.
  specialize (HF doctor uf Hf). specialize (HT doctor ut Ht).
  destruct (HR body ur Hr) as [HR' Hm].
  assert (Hout : outsideWorkingHours day doctor body = false).
  { rewrite (within_hours _ _ _ _ _ _ HF HT HR').
    apply orb_false_iff. split; apply Z.ltb_ge; lia. }
  assert (Hwin : forall a x, Appointment.time a = clock24 x -> 0 <= x < 1440 ->
            (inConflictWindow day body a = true
             <-> Zone.minuteOfDay z ur - 30 <= x <= Zone.minuteOfDay z ur + 15)).
  { intros a x Hx Hx'. rewrite Hm. rewrite Hm in Hday.
    destruct (inConflictWindow_range day body a (ur + offset) x HR' Hx Hx')
      as [H1 H2].
    split; [exact H1 | exact (H2 Hday)]. }
  assert (Hdec : blocking -> checkBookingAvailability day db body = slotConflict).
  { intros [a [x [Ha [Hid [Hdate [Hst [Hx [Hx' Hrange]]]]]]]].
    apply (check_conflict day db body doctor Hdoc a); try assumption.
    now apply (Hwin a x). }
  assert (Hfree : ~ blocking -> checkBookingAvailability day db body = available).
  { intros Hno. apply (check_available day db body doctor Hdoc Hout).
    intros a Ha Hid Hdate Hst. apply not_true_is_false. intros Hw.
    destruct (Hcanon a Ha) as [x [Hx' Hx]].
    apply Hno. exists a, x. repeat (split; [assumption|]). now apply (Hwin a x). }
  split; split.
  - intros Hc.
    assert (Hex : existsb (appointmentFilter body
                     (Moment.subtract (requestedTime day body) 30)
                     (Moment.add (requestedTime day body) 15))
                   (Store.appointments db) = true).
    { rewrite (check_found day db body doctor Hdoc), Hout in Hc.
      destruct (existsb _ _); [reflexivity | discriminate]. }
    apply existsb_exists in Hex. destruct Hex as [a [Ha Hfa]].
    apply appointmentFilter_true in Hfa. destruct Hfa as [Hid [Hdate [Hw Hst]]].
    destruct (Hcanon a Ha) as [x [Hx' Hx]].
    exists a, x. repeat (split; [assumption|]). now apply (Hwin a x).
  - exact Hdec.
  - intros Ha Hb. rewrite (Hdec Hb) in Ha. discriminate.
  - exact Hfree.
Qed.

Lemma X1_window_is_time_range_witness :
  let db := Sample.clinic [Sample.booked Sample.office "09:20" "pending";
                           Sample.booked Sample.office "09:45" "approved"] in
  let body := Sample.request Sample.office "10:00" in
  Zoned.checkBookingAvailability SampleZone.utc SampleZone.noonUtc db body
  = slotConflict.
Proof.
  intros db body.
  pose (d := SampleZone.march8 * 1440).
  assert (Hr : d + 540 <= d + 600 <= d + 1020) by lia.
  assert (Hday : 30 <= Zone.minuteOfDay SampleZone.utc (d + 600) <= 1424)
    by (split; vm_compute; discriminate).
  assert (Hcanon : forall a, In a (Store.appointments db) ->
            exists x, 0 <= x < 1440 /\ Appointment.time a = clock24 x).
  { intros a [<-|[<-|[]]]; [exists 560 | exists 585]; split; try lia; reflexivity. }
  apply (proj2 (proj1 (X1_window_is_time_range SampleZone.utc SampleZone.noonUtc
                  SampleZone.march8 db body Sample.office
                  (d + 540) (d + 1020) (d + 600)
                  (fixed_plainDay 0 _) eq_refl eq_refl eq_refl eq_refl
                  Hr Hday Hcanon))).
  exists (Sample.booked Sample.office "09:45" "approved"), 585.
  split; [right; left; reflexivity|].
  split; [reflexivity|]. split; [reflexivity|]. split; [discriminate|].
  split; [reflexivity|]. split; [lia|].
  change (Zone.minuteOfDay SampleZone.utc (d + 600)) with 600. lia.
Defined.

(** X9: a stored time whose first character is above "2" never blocks a
    slot, in any zone and on any day.  The ends of the window are written
    "HH:mm", whose first character is "0", "1" or "2"; so when every stored
    time starts with a character above "2" (an hour from 3 to 9 written
    without its leading zero, as in "9:45"), no requested time that parses
    gets the conflict answer.  Stored times that start with "0", "1" or "2"
    are compared as texts and are not covered. *)
Theorem X9_time_text_above_2_never_blocks
    (z : Zone.t) (clock : Zoned.Clock) (db : Store.t) (body : Body.t) (ur : Z) :
  Zoned.requestedTime z clock body = Moment.At ur ->
  (forall a, In a (Store.appointments db) ->
     exists c rest, Appointment.time a = String c rest /\ (50 < N_of_ascii c)%N) ->
  Zoned.checkBookingAvailability z clock db body <> slotConflict.
Proof.
  intros Hr Hall.
  destruct (doctorOf db body) as [doctor|] eqn:Hdoc.
  - rewrite (zoned_check_found z clock db body doctor Hdoc).
    destruct (Zoned.outsideWorkingHours z clock doctor body); [discriminate|].
    replace (existsb _ _) with false; [discriminate|].
    symmetry. apply not_true_is_false. intros Hex.
    apply existsb_exists in Hex. destruct Hex as [a [Ha Hf]].
    destruct (Hall a Ha) as [c [rest [Htime Hc]]].
    unfold Zoned.appointmentFilter, Store.lte in Hf.
    rewrite Hr, Htime in Hf. cbn [Moment.add Zoned.format] in Hf.
    assert (Hleb := leb_above_clock24 c rest (Zone.wallClock z (ur + 15)) Hc).
    unfold clock24 in Hleb. rewrite Hleb in Hf.
    rewrite !andb_false_r in Hf. cbn in Hf.
    rewrite ?andb_false_r in Hf. discriminate.
  - rewrite (zoned_check_not_found z clock db body Hdoc). discriminate.
Qed.

Lemma X9_time_text_above_2_never_blocks_witness :
  Zoned.checkBookingAvailability SampleZone.eastern SampleZone.noonOfChange
    (Sample.clinic [Sample.booked Sample.office "9:45" "approved"])
    (Sample.request Sample.office "09:45") <> slotConflict.
Proof.
  apply (X9_time_text_above_2_never_blocks SampleZone.eastern
           SampleZone.noonOfChange
           (Sample.clinic [Sample.booked Sample.office "9:45" "approved"])
           (Sample.request Sample.office "09:45")
           (SampleZone.march8 * 1440 + 585 + 240) eq_refl).
  intros a [<-|[]]. exists "9"%char, ":45". split; reflexivity.
Defined.
